(** * OceanDatabase: a shallow embedding of [ocean_db.py]

    The development follows the source file top to bottom: Python values and
    exceptions, the pandas batch ([DataFrame]) with the handful of operations
    [clean_data] uses, the SQLite connection with its implicit transaction,
    the importer and the query layer.  Theorems come after the definitions,
    one section per property of the specification. *)

From stdpp Require Import base strings gmap list numbers pretty sorting.
From Stdlib Require Import ZArith QArith Qcanon Lia Lqa.

Open Scope Z_scope.
Set Warnings "-register-all".

(** ** Python values and exceptions *)

(** A Python [float] (or an [int] used where a float is expected): every finite
    binary64 number is a rational, so comparisons against the integer literals
    of the source are exact on [Qc]. *)
Inductive pyfloat :=
| FNan
| FInf (neg : bool)
| FFin (q : Qc).

(** A scalar held by a DataFrame cell or bound to a SQL parameter.  [VNull]
    stands for NaN / None / NaT: pandas uses NaN for a missing cell, and
    sqlite3 stores a NaN parameter as NULL. *)
Inductive value :=
| VNull
| VFin (q : Qc)
| VInf (neg : bool)
| VStr (s : string)
| VTime (t : Z).

#[global] Instance pyfloat_eq_dec : EqDecision pyfloat.
Proof. solve_decision. Defined.

#[global] Instance value_eq_dec : EqDecision value.
Proof. solve_decision. Defined.

Inductive exn :=
| FileNotFoundError (path : string)
| KeyError (key : string)
| TypeError (msg : string)
| ValueError (msg : string)
| AttributeError (msg : string)
| ParserError (msg : string)
| OperationalError (msg : string)
| IntegrityError (msg : string)
| ProgrammingError (msg : string)
| OverflowError (msg : string).

(** The outcome of a Python call: a returned value or a raised exception. *)
Inductive result (A : Type) :=
| Ok (a : A)
| Raise (e : exn).
Arguments Ok {A} a.
Arguments Raise {A} e.

#[global] Instance result_ret : MRet result := fun A a => Ok a.
#[global] Instance result_bind : MBind result := fun A B f m =>
  match m with
  | Ok a => f a
  | Raise e => Raise e
  end.

Definition is_ok {A} (r : result A) : bool :=
  match r with Ok _ => true | Raise _ => false end.

(** [[f(x) for x in xs]], stopping at the first exception. *)
Fixpoint mapMr {A B} (f : A → result B) (xs : list A) : result (list B) :=
  match xs with
  | [] => Ok []
  | x :: xs' => y ← f x; ys ← mapMr f xs'; Ok (y :: ys)
  end.

(** Python truthiness of an optional string argument ([None] and [''] are
    false). *)
Definition truthy_str (s : option string) : bool :=
  match s with
  | Some s => negb (bool_decide (s = ""))
  | None => false
  end.

(** ** Region classifier *)

Module Region.

(** [k <= x] for an integer literal [k]; any comparison with NaN is False. *)
Definition int_le (k : Z) (x : pyfloat) : bool :=
  match x with
  | FNan => false
  | FInf neg => negb neg
  | FFin q => bool_decide (Qc_of_Z k ≤ q)%Qc
  end.

(** [x <= k] for an integer literal [k]. *)
Definition le_int (x : pyfloat) (k : Z) : bool :=
  match x with
  | FNan => false
  | FInf neg => neg
  | FFin q => bool_decide (q ≤ Qc_of_Z k)%Qc
  end.

(** [lo <= x <= hi], Python's chained comparison. *)
Definition between (lo : Z) (x : pyfloat) (hi : Z) : bool :=
  int_le lo x && le_int x hi.

(** [get_ocean_region(lat, lon, region_mapping)]: the mapping argument is
    never read, so it is left out of the embedding. *)
Definition get_ocean_region (lat lon : pyfloat) : string :=
  if between (-30) lat 60 && between (-180) lon (-30) then "Atlantic Ocean"
  else if between (-30) lat 60 && between 30 lon 180 then "Pacific Ocean"
  else if between (-30) lat 30 && between 20 lon 120 then "Indian Ocean"
  else if int_le 60 lat then "Arctic Ocean"
  else if le_int lat (-30) then "Southern Ocean"
  else "Unknown".

(** The specification's reading: an ordered table of tests, first match
    wins, ["Unknown"] when none matches. *)
Definition region_tests : list ((pyfloat → pyfloat → bool) * string) :=
  [ (λ lat lon, between (-30) lat 60 && between (-180) lon (-30), "Atlantic Ocean");
    (λ lat lon, between (-30) lat 60 && between 30 lon 180, "Pacific Ocean");
    (λ lat lon, between (-30) lat 30 && between 20 lon 120, "Indian Ocean");
    (λ lat _, int_le 60 lat, "Arctic Ocean");
    (λ lat _, le_int lat (-30), "Southern Ocean") ].

Fixpoint first_match (tests : list ((pyfloat → pyfloat → bool) * string))
    (lat lon : pyfloat) : string :=
  match tests with
  | [] => "Unknown"
  | (test, label) :: rest =>
      if test lat lon then label else first_match rest lat lon
  end.

Definition region_labels : list string :=
  [ "Atlantic Ocean"; "Pacific Ocean"; "Indian Ocean"; "Arctic Ocean";
    "Southern Ocean"; "Unknown" ].

(** A coordinate given as an integer literal, as in the specification's
    examples. *)
Definition coord (k : Z) : pyfloat := FFin (Qc_of_Z k).

End Region.

(** ** The pandas batch *)

Module Pandas.

(** What the embedding takes from pandas as given.  [to_datetime col] is
    [pd.to_datetime(col, errors='coerce')] on a whole column: entry [n] is
    [Some t] when cell [n] parses to the timestamp [t] and [None] (NaT) when
    it does not; it works column-wise because pandas infers the format from
    the column.  [frame_setitem_raises] tells whether assigning a DataFrame
    to a single column raises [ValueError] (it does in recent releases); this
    matters only when [apply] runs on a batch without rows. *)
Class PandasLib := {
  to_datetime : list value → list (option Z);
  frame_setitem_raises : bool
}.

(** A batch: the column labels and the rows, each a map from column label to
    cell, with its index label. *)
Record DataFrame := {
  df_columns : list string;
  df_rows : list (Z * gmap string value)
}.

Definition cell (r : gmap string value) (c : string) : value :=
  default VNull (r !! c).

Definition notna (v : value) : bool := negb (bool_decide (v = VNull)).

(** [len(df)] *)
Definition len (df : DataFrame) : Z := Z.of_nat (length (df_rows df)).

(** [df[c]]: the column as a list of cells. *)
Definition getitem (df : DataFrame) (c : string) : result (list value) :=
  if bool_decide (c ∈ df_columns df)
  then Ok (map (λ ir, cell ir.2 c) (df_rows df))
  else Raise (KeyError c).

(** [df.dropna(subset=cols)]: a label outside the columns is a [KeyError]. *)
Definition dropna (subset : list string) (df : DataFrame) : result DataFrame :=
  match filter (λ c, c ∉ df_columns df) subset with
  | [] =>
      Ok {| df_columns := df_columns df;
            df_rows := filter (λ ir, forallb (λ c, notna (cell ir.2 c)) subset = true)
                              (df_rows df) |}
  | c :: _ => Raise (KeyError c)
  end.

(** [v >= k] and [v <= k] on one cell, [k] an integer literal.  NaN compares
    False; a string or a timestamp against an int is a [TypeError]. *)
Definition ge_int (v : value) (k : Z) : result bool :=
  match v with
  | VNull => Ok false
  | VFin q => Ok (bool_decide (Qc_of_Z k ≤ q)%Qc)
  | VInf neg => Ok (negb neg)
  | VStr _ | VTime _ => Raise (TypeError "'>=' not supported")
  end.

Definition le_int (v : value) (k : Z) : result bool :=
  match v with
  | VNull => Ok false
  | VFin q => Ok (bool_decide (q ≤ Qc_of_Z k)%Qc)
  | VInf neg => Ok neg
  | VStr _ | VTime _ => Raise (TypeError "'<=' not supported")
  end.

(** [df[mask]] *)
Fixpoint mask_rows {A} (xs : list A) (mask : list bool) : list A :=
  match xs, mask with
  | x :: xs', b :: mask' =>
      if b then x :: mask_rows xs' mask' else mask_rows xs' mask'
  | _, _ => []
  end.

(** [df[(df[c] >= lo) & (df[c] <= hi)]] *)
Definition filter_range (df : DataFrame) (c : string) (lo hi : Z)
    : result DataFrame :=
  col ← getitem df c;
  ge ← mapMr (λ v, ge_int v lo) col;
  col' ← getitem df c;
  le ← mapMr (λ v, le_int v hi) col';
  Ok {| df_columns := df_columns df;
        df_rows := mask_rows (df_rows df) (zip_with andb ge le) |}.

(** [df[c] = col]: cell by cell; the column label is added when new. *)
Definition setitem (df : DataFrame) (c : string) (col : list value) : DataFrame :=
  {| df_columns := if bool_decide (c ∈ df_columns df) then df_columns df
                   else df_columns df ++ [c];
     df_rows := zip_with (λ ir v, (ir.1, <[c := v]> ir.2)) (df_rows df) col |}.

Definition datetime_cell (p : option Z) : value :=
  match p with
  | Some t => VTime t
  | None => VNull
  end.

Section clean.
Context `{PandasLib}.

(** The first block of [clean_data]: the rules of the data kind. *)
Definition drop_missing (df : DataFrame) (data_type : string) : result DataFrame :=
  if bool_decide (data_type = "floats") then
    df ← dropna ["float_id"; "latitude"; "longitude"] df;
    df ← filter_range df "latitude" (-90) 90;
    filter_range df "longitude" (-180) 180
  else if bool_decide (data_type ∈ ["temperature"; "salinity"; "oxygen"]) then
    dropna ["float_id"; "measurement_date"] df
  else Ok df.

(** The second block: convert the date column when there is one. *)
Definition convert_dates (df : DataFrame) : result DataFrame :=
  if bool_decide ("measurement_date" ∈ df_columns df) then
    col ← getitem df "measurement_date";
    dropna ["measurement_date"]
      (setitem df "measurement_date" (datetime_cell <$> to_datetime col))
  else Ok df.

(** [clean_data(df, data_type)] *)
Definition clean_data (df : DataFrame) (data_type : string) : result DataFrame :=
  df ← drop_missing df data_type;
  convert_dates df.

End clean.

(** A small instance for the worked examples, which give their dates as
    numbers: a number is read as an offset from the epoch (its fraction cut
    off), a timestamp is kept, and a text that is no date does not parse.
    It stands for pandas only on such columns. *)
Definition epoch_to_datetime (col : list value) : list (option Z) :=
  map (λ v, match v with
            | VFin q => Some (Qnum (this q) ÷ Z.pos (Qden (this q)))
            | VTime t => Some t
            | _ => None
            end) col.

Definition epoch_pandas : PandasLib :=
  {| to_datetime := epoch_to_datetime; frame_setitem_raises := false |}.

End Pandas.

(** ** State and exceptions *)

(** A method that reads and updates a state [S] and either returns or raises.
    The state reached when an exception is raised is kept: an [except] block
    runs from there. *)
Definition M (S A : Type) : Type := S → result A * S.

#[global] Instance M_ret {S} : MRet (M S) := λ A a s, (Ok a, s).
#[global] Instance M_bind {S} : MBind (M S) := λ A B f m s,
  match m s with
  | (Ok a, s') => f a s'
  | (Raise e, s') => (Raise e, s')
  end.

Definition raise {S A} (e : exn) : M S A := λ s, (Raise e, s).
Definition lift {S A} (r : result A) : M S A := λ s, (r, s).
Definition gets {S A} (f : S → A) : M S A := λ s, (Ok (f s), s).
Definition modify {S} (f : S → S) : M S unit := λ s, (Ok tt, f s).

(** [try: body  except Exception as e: handler(e)] *)
Definition try_except {S A} (body : M S A) (handler : exn → M S A) : M S A :=
  λ s, match body s with
       | (Ok a, s') => (Ok a, s')
       | (Raise e, s') => handler e s'
       end.

(** [for x in xs: f(x)] *)
Fixpoint forM_ {S B} (xs : list B) (f : B → M S unit) : M S unit :=
  match xs with
  | [] => mret tt
  | x :: xs' => _ ← f x; forM_ xs' f
  end.

(** ** The SQLite store *)

Module Sqlite.

Record ColumnDef := {
  cd_name : string;
  cd_notnull : bool;             (* NOT NULL *)
  cd_default : option value;     (* DEFAULT literal *)
  cd_rowid : bool                (* INTEGER PRIMARY KEY AUTOINCREMENT *)
}.

Record Table := {
  t_columns : list ColumnDef;
  t_unique : list string;        (* columns declared UNIQUE *)
  t_rows : list (gmap string value);
  t_seq : Z                      (* largest rowid handed out so far *)
}.

(** The connection: the database as of the last commit and as the
    connection sees it now (with the writes of the open transaction). *)
Record Connection := {
  committed : gmap string Table;
  current : gmap string Table
}.

Definition commit (c : Connection) : Connection :=
  {| committed := current c; current := current c |}.

Definition rollback (c : Connection) : Connection :=
  {| committed := committed c; current := committed c |}.

(** No write is pending. *)
Definition clean (c : Connection) : Prop := current c = committed c.

Definition column_names (t : Table) : list string := cd_name <$> t_columns t.

Definition row_count (db : gmap string Table) (table : string) : nat :=
  match db !! table with
  | Some t => length (t_rows t)
  | None => 0%nat
  end.

(** [INSERT [OR REPLACE] INTO table (columns) VALUES (?, ..., ?)] *)
Record InsertStmt := {
  ins_replace : bool;
  ins_table : string;
  ins_columns : list string
}.

(** Compiling the statement: the table and every named column must exist. *)
Definition prepare (db : gmap string Table) (st : InsertStmt) : result Table :=
  match db !! ins_table st with
  | None => Raise (OperationalError ("no such table: " +:+ ins_table st))
  | Some t =>
      match filter (λ c, c ∉ column_names t) (ins_columns st) with
      | [] => Ok t
      | c :: _ =>
          Raise (OperationalError
                   ("table " +:+ ins_table st +:+ " has no column named " +:+ c))
      end
  end.

(** The value stored in one column of the new row.  A column left out of the
    statement takes the next rowid or its default.  NULL in a NOT NULL column
    aborts the statement, except that OR REPLACE first substitutes the
    column's default when it has one. *)
Definition column_value (st : InsertStmt) (bound : gmap string value)
    (rowid : Z) (cd : ColumnDef) : result value :=
  let v := match bound !! cd_name cd with
           | Some v => v
           | None => if cd_rowid cd then VFin (Qc_of_Z rowid)
                     else default VNull (cd_default cd)
           end in
  if cd_notnull cd && bool_decide (v = VNull) then
    match cd_default cd with
    | Some d =>
        if ins_replace st && negb (bool_decide (d = VNull)) then Ok d
        else Raise (IntegrityError ("NOT NULL constraint failed: " +:+ cd_name cd))
    | None => Raise (IntegrityError ("NOT NULL constraint failed: " +:+ cd_name cd))
    end
  else Ok v.

(** A stored row clashes with the new one when they agree, on some UNIQUE
    column, on a value that is not NULL. *)
Definition conflicts (unique : list string) (new old : gmap string value) : bool :=
  existsb (λ c, match new !! c with
                | Some v => negb (bool_decide (v = VNull))
                            && bool_decide (old !! c = Some v)
                | None => false
                end) unique.

(** One execution of the statement.  OR REPLACE deletes the clashing rows
    before it inserts; a plain INSERT aborts on a clash. *)
Definition insert_row (st : InsertStmt) (params : list value) : M Table unit :=
  λ t,
    let rowid := t_seq t + 1 in
    let bound : gmap string value := list_to_map (zip (ins_columns st) params) in
    match mapMr (column_value st bound rowid) (t_columns t) with
    | Raise e => (Raise e, t)
    | Ok vals =>
        let new : gmap string value := list_to_map (zip (column_names t) vals) in
        if existsb (conflicts (t_unique t) new) (t_rows t) && negb (ins_replace st)
        then (Raise (IntegrityError "UNIQUE constraint failed"), t)
        else (Ok tt,
              {| t_columns := t_columns t;
                 t_unique := t_unique t;
                 t_rows := filter (λ old, conflicts (t_unique t) new old = false)
                                  (t_rows t) ++ [new];
                 t_seq := rowid |})
    end.

(** Binding a Python object to a [?].  sqlite3 binds None, int, float and
    str as they are (a NaN as NULL); for an object of any other type it looks
    for an adapter registered for exactly that type.  A pandas Timestamp is
    a subclass of datetime, so the adapter of datetime is not found for it:
    binding one raises.  (A number of a row that also holds text or a date
    reaches sqlite3 as a Python int or float.) *)
Definition bind_param (v : value) : result value :=
  match v with
  | VTime _ =>
      Raise (ProgrammingError
               "Error binding parameter: type 'Timestamp' is not supported")
  | _ => Ok v
  end.

(** One row of [executemany]: its values are bound, then the statement
    runs. *)
Definition execute_insert (st : InsertStmt) (params : list value) : M Table unit :=
  λ t,
    match mapMr bind_param params with
    | Raise e => (Raise e, t)
    | Ok bound => insert_row st bound t
    end.

(** [conn.executemany(sql, data)]: the statement is compiled before the first
    row is bound; a failing row aborts the call and leaves the rows before it
    in the open transaction. *)
Definition executemany (st : InsertStmt) (data : list (list value))
    : M Connection unit :=
  λ c,
    match prepare (current c) st with
    | Raise e => (Raise e, c)
    | Ok t =>
        let '(r, t') := forM_ data (execute_insert st) t in
        (r, {| committed := committed c;
               current := <[ins_table st := t']> (current c) |})
    end.

(** [CREATE TABLE IF NOT EXISTS name (...)], outside a transaction. *)
Definition create_table_if_not_exists (name : string) (cols : list ColumnDef)
    (unique : list string) (db : gmap string Table) : gmap string Table :=
  match db !! name with
  | Some _ => db
  | None => <[name := {| t_columns := cols; t_unique := unique;
                         t_rows := []; t_seq := 0 |}]> db
  end.

End Sqlite.

(** ** The database manager *)

Module OceanDb.
Import Pandas Sqlite.

(** What the embedding takes from SQLite as given.  [execute_ddl sql] is the
    effect of one statement of the external schema script on the tables.
    [date_bound table s] is the value a bound text [s] is compared as against
    the measurement_date column of [table], which goes by the declared type
    of that column: the basic schema declares it DATETIME, which gives it
    numeric affinity, so that a text that reads as a number is compared as
    that number, and any other text as itself. *)
Class SqliteLib := {
  execute_ddl : string → gmap string Table → result (gmap string Table);
  date_bound : string → string → value
}.

(** The stream [pd.read_csv(path, chunksize=n)] yields: the batches, then the
    end of the file or a parse error. *)
Record CsvFile := {
  csv_chunks : list DataFrame;
  csv_error : option exn
}.

Inductive event :=
| LogCsvNotFound (path : string)
| LogStart (data_type path : string)
| ReadCsv (path : string) (batch_size : Z)
| Executemany (table : string) (rows : nat)
| LogProcessed (total_rows : Z)
| Commit
| LogImported (total_rows : Z) (data_type : string)
| LogImportError (e : exn)
| Rollback
| LogSchemaCreated
| LogSchemaNotFound
| LogSchemaError (e : exn).

(** The object and the world it acts on: the schema script (when the file
    exists), the CSV files on disk, the connection, and what happened so
    far.  The connection is the open one [connect] made: [close] is not
    embedded, and no state stands for a closed connection. *)
Record OceanDatabase := {
  schema_sql : option string;
  csv_files : string → option (Z → CsvFile);
  conn : Connection;
  trace : list event
}.

Definition set_conn (c : Connection) (self : OceanDatabase) : OceanDatabase :=
  {| schema_sql := schema_sql self; csv_files := csv_files self;
     conn := c; trace := trace self |}.

Definition emit (e : event) : M OceanDatabase unit :=
  modify (λ self, {| schema_sql := schema_sql self; csv_files := csv_files self;
                     conn := conn self; trace := trace self ++ [e] |}).

(** Run a connection method on [self.conn]. *)
Definition on_conn {A} (m : M Connection A) : M OceanDatabase A :=
  λ self, let '(r, c) := m (conn self) in (r, set_conn c self).

Definition conn_executemany (st : InsertStmt) (data : list (list value))
    : M OceanDatabase unit :=
  _ ← emit (Executemany (ins_table st) (length data));
  on_conn (executemany st data).

Definition conn_commit : M OceanDatabase unit :=
  _ ← emit Commit; on_conn (modify commit).

Definition conn_rollback : M OceanDatabase unit :=
  _ ← emit Rollback; on_conn (modify rollback).

(** *** Schema *)

Definition col (name : string) (notnull : bool) (dflt : option value) : ColumnDef :=
  {| cd_name := name; cd_notnull := notnull; cd_default := dflt; cd_rowid := false |}.

Definition id_column : ColumnDef :=
  {| cd_name := "id"; cd_notnull := false; cd_default := None; cd_rowid := true |}.

(** The two tables of [basic_schema]. *)
Definition basic_argo_floats : list ColumnDef :=
  [ id_column;
    col "float_id" true None;
    col "latitude" true None;
    col "longitude" true None;
    col "measurement_date" true None;
    col "ocean_region" false None;
    col "status" false (Some (VStr "active")) ].

Definition basic_temperature_data : list ColumnDef :=
  [ id_column;
    col "float_id" true None;
    col "measurement_date" true None;
    col "depth_meters" true None;
    col "temperature_celsius" true None ].

Definition basic_schema (db : gmap string Table) : gmap string Table :=
  create_table_if_not_exists "temperature_data" basic_temperature_data []
    (create_table_if_not_exists "argo_floats" basic_argo_floats [] db).

(** [create_basic_schema()]: [executescript] commits what is pending and runs
    the script outside a transaction. *)
Definition create_basic_schema : M OceanDatabase unit :=
  _ ← on_conn (modify (λ c, let db := basic_schema (current c) in
                            {| committed := db; current := db |}));
  conn_commit.

(** [schema.split(';')] *)
Fixpoint split_semicolon (s : string) : list string :=
  match s with
  | EmptyString => [EmptyString]
  | String a s' =>
      if Ascii.eqb a (Ascii.ascii_of_nat 59) then EmptyString :: split_semicolon s'
      else match split_semicolon s' with
           | piece :: pieces => String a piece :: pieces
           | [] => [String a EmptyString]
           end
  end.

(** The white space of ASCII, as [str.isspace] has it. *)
Definition is_space (a : Ascii.ascii) : bool :=
  let n := Ascii.nat_of_ascii a in
  bool_decide (n = 32 ∨ (9 ≤ n ∧ n ≤ 13) ∨ (28 ≤ n ∧ n ≤ 31))%nat.

(** A string holds Python text in its UTF-8 encoding (in which [;] is the
    one byte 59, and no byte of a longer character is).  The other
    characters [str.strip()] removes take two or three bytes: U+0085 and
    U+00A0; U+1680, U+2000 to U+200A, U+2028, U+2029, U+202F, U+205F and
    U+3000. *)
Definition two_byte_space (a b : N) : bool :=
  ((a =? 194) && ((b =? 133) || (b =? 160)))%N.

Definition three_byte_space (a b c : N) : bool :=
  (((a =? 225) && (b =? 154) && (c =? 128))
   || ((a =? 226) && (b =? 128)
       && (((128 <=? c) && (c <=? 138)) || (c =? 168) || (c =? 169) || (c =? 175)))
   || ((a =? 226) && (b =? 129) && (c =? 159))
   || ((a =? 227) && (b =? 128) && (c =? 128)))%N.

(** [statement.strip()] is falsy when the statement is all white space. *)
Fixpoint strip_is_empty (s : string) : bool :=
  match s with
  | EmptyString => true
  | String a s1 =>
      if is_space a then strip_is_empty s1
      else
        match s1 with
        | EmptyString => false
        | String b s2 =>
            if two_byte_space (Ascii.N_of_ascii a) (Ascii.N_of_ascii b)
            then strip_is_empty s2
            else
              match s2 with
              | EmptyString => false
              | String c s3 =>
                  three_byte_space (Ascii.N_of_ascii a) (Ascii.N_of_ascii b)
                                   (Ascii.N_of_ascii c)
                  && strip_is_empty s3
              end
        end
  end.

Section methods.
Context `{PandasLib} `{SqliteLib}.

(** [self.conn.execute(statement)] on a statement of the script, with no
    transaction open. *)
Definition conn_execute_ddl (statement : string) : M OceanDatabase unit :=
  λ self,
    match execute_ddl statement (current (conn self)) with
    | Ok db => (Ok tt, set_conn {| committed := db; current := db |} self)
    | Raise e => (Raise e, self)
    end.

(** [open("database/schema.sql").read()] *)
Definition read_schema : M OceanDatabase string :=
  script ← gets schema_sql;
  match script with
  | Some schema => mret schema
  | None => raise (FileNotFoundError "database/schema.sql")
  end.

(** [setup_database()]: a missing script falls back to the basic schema; any
    other exception is logged and raised again. *)
Definition setup_database : M OceanDatabase unit :=
  try_except
    (schema ← read_schema;
     _ ← forM_ (split_semicolon schema)
           (λ statement, if strip_is_empty statement then mret tt
                         else conn_execute_ddl statement);
     _ ← conn_commit;
     emit LogSchemaCreated)
    (λ e, match e with
          | FileNotFoundError _ => _ ← emit LogSchemaNotFound; create_basic_schema
          | _ => _ ← emit (LogSchemaError e); raise e
          end).

(** *** Import *)

(** [row.get(label, default)] *)
Definition row_get (r : gmap string value) (label : string) (dflt : value) : value :=
  default dflt (r !! label).

Definition insert_floats : InsertStmt :=
  {| ins_replace := true; ins_table := "argo_floats";
     ins_columns := [ "float_id"; "platform_number"; "cycle_number"; "latitude";
                      "longitude"; "measurement_date"; "ocean_region"; "status" ] |}.

Definition insert_temperature : InsertStmt :=
  {| ins_replace := false; ins_table := "temperature_data";
     ins_columns := [ "float_id"; "measurement_date"; "depth_meters";
                      "temperature_celsius"; "quality_flag"; "pressure_dbar" ] |}.

Definition insert_salinity : InsertStmt :=
  {| ins_replace := false; ins_table := "salinity_data";
     ins_columns := [ "float_id"; "measurement_date"; "depth_meters";
                      "salinity_psu"; "quality_flag"; "conductivity" ] |}.

Definition insert_oxygen : InsertStmt :=
  {| ins_replace := false; ins_table := "oxygen_data";
     ins_columns := [ "float_id"; "measurement_date"; "depth_meters";
                      "oxygen_mg_per_l"; "oxygen_saturation"; "quality_flag" ] |}.

Definition float_tuple (r : gmap string value) : list value :=
  [ row_get r "float_id" VNull;
    row_get r "platform_number" VNull;
    row_get r "cycle_number" VNull;
    row_get r "latitude" VNull;
    row_get r "longitude" VNull;
    row_get r "measurement_date" VNull;
    row_get r "ocean_region" (VStr "Unknown");
    row_get r "status" (VStr "active") ].

Definition temperature_tuple (r : gmap string value) : list value :=
  [ row_get r "float_id" VNull;
    row_get r "measurement_date" VNull;
    row_get r "depth_meters" (VFin (Qc_of_Z 0));
    row_get r "temperature_celsius" VNull;
    row_get r "quality_flag" (VFin (Qc_of_Z 1));
    row_get r "pressure_dbar" VNull ].

Definition salinity_tuple (r : gmap string value) : list value :=
  [ row_get r "float_id" VNull;
    row_get r "measurement_date" VNull;
    row_get r "depth_meters" (VFin (Qc_of_Z 0));
    row_get r "salinity_psu" VNull;
    row_get r "quality_flag" (VFin (Qc_of_Z 1));
    row_get r "conductivity" VNull ].

Definition oxygen_tuple (r : gmap string value) : list value :=
  [ row_get r "float_id" VNull;
    row_get r "measurement_date" VNull;
    row_get r "depth_meters" (VFin (Qc_of_Z 0));
    row_get r "oxygen_mg_per_l" VNull;
    row_get r "oxygen_saturation" VNull;
    row_get r "quality_flag" (VFin (Qc_of_Z 1)) ].

(** The rows handed to [executemany]: one tuple per row of the batch. *)
Definition tuples (tuple : gmap string value → list value) (df : DataFrame)
    : list (list value) :=
  map (λ ir, tuple ir.2) (df_rows df).

Definition insert_float_data (df : DataFrame) : M OceanDatabase unit :=
  conn_executemany insert_floats (tuples float_tuple df).

Definition insert_temperature_data (df : DataFrame) : M OceanDatabase unit :=
  conn_executemany insert_temperature (tuples temperature_tuple df).

Definition insert_salinity_data (df : DataFrame) : M OceanDatabase unit :=
  conn_executemany insert_salinity (tuples salinity_tuple df).

Definition insert_oxygen_data (df : DataFrame) : M OceanDatabase unit :=
  conn_executemany insert_oxygen (tuples oxygen_tuple df).

(** A cell passed where [get_ocean_region] expects a float: comparing a
    string or a timestamp with an int raises. *)
Definition as_float (v : value) : result pyfloat :=
  match v with
  | VNull => Ok FNan
  | VFin q => Ok (FFin q)
  | VInf neg => Ok (FInf neg)
  | VStr _ | VTime _ => Raise (TypeError "'<=' not supported")
  end.

(** [row[label]] *)
Definition row_item (r : gmap string value) (label : string) : result value :=
  match r !! label with
  | Some v => Ok v
  | None => Raise (KeyError label)
  end.

(** [chunk['ocean_region'] = chunk.apply(lambda row: ..., axis=1)].  On a
    batch without rows [apply] returns a DataFrame, not a column. *)
Definition add_ocean_region (chunk : DataFrame) : result DataFrame :=
  match df_rows chunk with
  | [] =>
      if frame_setitem_raises
      then Raise (ValueError "Cannot set a DataFrame with multiple columns")
      else Ok (setitem chunk "ocean_region" [])
  | _ =>
      regions ← mapMr (λ ir,
                   lat ← row_item ir.2 "latitude";
                   lon ← row_item ir.2 "longitude";
                   lat ← as_float lat;
                   lon ← as_float lon;
                   Ok (VStr (Region.get_ocean_region lat lon)))
                 (df_rows chunk);
      Ok (setitem chunk "ocean_region" regions)
  end.

(** Truthiness of the [region_mapping] argument: [None] and [{}] are false. *)
Definition truthy_mapping (region_mapping : option (list (string * string))) : bool :=
  match region_mapping with
  | Some (_ :: _) => true
  | _ => false
  end.

(** [if region_mapping and data_type == "floats": chunk['ocean_region'] = ...] *)
Definition map_regions (data_type : string)
    (region_mapping : option (list (string * string))) (chunk : DataFrame)
    : result DataFrame :=
  if truthy_mapping region_mapping && bool_decide (data_type = "floats")
  then add_ocean_region chunk
  else Ok chunk.

(** The [if data_type == "floats": ... elif ...] chain: no branch, and no
    error, for any other kind. *)
Definition insert_chunk (data_type : string) (chunk : DataFrame)
    : M OceanDatabase unit :=
  if bool_decide (data_type = "floats") then insert_float_data chunk
  else if bool_decide (data_type = "temperature") then insert_temperature_data chunk
  else if bool_decide (data_type = "salinity") then insert_salinity_data chunk
  else if bool_decide (data_type = "oxygen") then insert_oxygen_data chunk
  else mret tt.

(** The body of the [for chunk_num, chunk in enumerate(chunk_iter)] loop. *)
Definition import_chunk (data_type : string)
    (region_mapping : option (list (string * string)))
    (chunk_num : Z) (chunk : DataFrame) (total_rows : Z) : M OceanDatabase Z :=
  chunk ← lift (clean_data chunk data_type);
  chunk ← lift (map_regions data_type region_mapping chunk);
  _ ← insert_chunk data_type chunk;
  let total_rows := total_rows + len chunk in
  _ ← (if bool_decide (chunk_num `mod` 10 = 0) then emit (LogProcessed total_rows)
       else mret tt);
  mret total_rows.

Fixpoint import_chunks (data_type : string)
    (region_mapping : option (list (string * string)))
    (chunk_num : Z) (chunks : list DataFrame) (total_rows : Z)
    : M OceanDatabase Z :=
  match chunks with
  | [] => mret total_rows
  | chunk :: rest =>
      total_rows ← import_chunk data_type region_mapping chunk_num chunk total_rows;
      import_chunks data_type region_mapping (chunk_num + 1) rest total_rows
  end.

(** The [try] block of [import_csv_data]. *)
Definition import_body (csv_file_path data_type : string) (batch_size : Z)
    (region_mapping : option (list (string * string))) : M OceanDatabase bool :=
  _ ← emit (LogStart data_type csv_file_path);
  _ ← emit (ReadCsv csv_file_path batch_size);
  files ← gets csv_files;
  match files csv_file_path with
  | None => raise (FileNotFoundError csv_file_path)
  | Some read =>
      let file := read batch_size in
      total_rows ← import_chunks data_type region_mapping 0 (csv_chunks file) 0;
      _ ← match csv_error file with
          | Some e => raise e
          | None => mret tt
          end;
      _ ← conn_commit;
      _ ← emit (LogImported total_rows data_type);
      mret true
  end.

(** [import_csv_data(csv_file_path, data_type, batch_size, region_mapping)] *)
Definition import_csv_data (csv_file_path data_type : string) (batch_size : Z)
    (region_mapping : option (list (string * string))) : M OceanDatabase bool :=
  files ← gets csv_files;
  if negb (bool_decide (is_Some (files csv_file_path))) then
    _ ← emit (LogCsvNotFound csv_file_path);
    mret false
  else
    try_except
      (import_body csv_file_path data_type batch_size region_mapping)
      (λ e, _ ← emit (LogImportError e);
            _ ← conn_rollback;
            mret false).

End methods.

(** *** Queries *)

(** What the query methods return: SQL values, counts, lists and dicts (a
    dict keeps the order in which its keys were written). *)
Inductive pyobj :=
| PVal (v : value)
| PInt (n : Z)
| PList (xs : list pyobj)
| PDict (items : list (string * pyobj)).

Definition field (r : gmap string value) (c : string) : value :=
  default VNull (r !! c).

Definition find_table (db : gmap string Table) (table : string) : result Table :=
  match db !! table with
  | Some t => Ok t
  | None => Raise (OperationalError ("no such table: " +:+ table))
  end.

Definition require_column (t : Table) (c : string) : result unit :=
  if bool_decide (c ∈ column_names t) then Ok tt
  else Raise (OperationalError ("no such column: " +:+ c)).

(** Binding a Python int to a [?] of a compiled statement: SQLite integers
    have 64 bits, and sqlite3 raises for an int that does not fit. *)
Definition int64 (n : Z) : Prop := -2 ^ 63 ≤ n < 2 ^ 63.

Definition bind_int (n : Z) : result Z :=
  if bool_decide (int64 n) then Ok n
  else Raise (OverflowError "Python int too large to convert to SQLite INTEGER").

(** SQLite's order on stored values: NULL, then numbers, then text. *)
Definition value_leb (a b : value) : bool :=
  match a, b with
  | VNull, _ => true
  | _, VNull => false
  | VFin p, VFin q => bool_decide (p ≤ q)%Qc
  | VFin _, VInf neg => negb neg
  | VInf neg, VFin _ => neg
  | VInf n1, VInf n2 => n1 || negb n2
  | (VFin _ | VInf _), (VStr _ | VTime _) => true
  | (VStr _ | VTime _), (VFin _ | VInf _) => false
  | VStr s1, VStr s2 => String.leb s1 s2
  | VStr _, VTime _ => true
  | VTime _, VStr _ => false
  | VTime t1, VTime t2 => bool_decide (t1 ≤ t2)
  end.

(** [a >= b] and [a <= b] in a WHERE clause: NULL on either side is not
    true. *)
Definition sql_ge (a b : value) : bool :=
  negb (bool_decide (a = VNull)) && negb (bool_decide (b = VNull)) && value_leb b a.

Definition sql_le (a b : value) : bool :=
  negb (bool_decide (a = VNull)) && negb (bool_decide (b = VNull)) && value_leb a b.

(** [a = b] in a WHERE or ON clause. *)
Definition sql_eq (a b : value) : bool :=
  negb (bool_decide (a = VNull)) && bool_decide (a = b).

(** [ORDER BY key DESC] *)
Fixpoint insert_desc {A} (key : A → value) (x : A) (l : list A) : list A :=
  match l with
  | [] => [x]
  | y :: l' =>
      if value_leb (key y) (key x) then x :: y :: l'
      else y :: insert_desc key x l'
  end.

Definition order_by_desc {A} (key : A → value) (l : list A) : list A :=
  foldr (insert_desc key) [] l.

(** [LIMIT n]: a negative bound is no bound. *)
Definition sql_limit {A} (n : Z) (l : list A) : list A :=
  if bool_decide (0 ≤ n) then take (Z.to_nat n) l else l.

(** [OFFSET n]: a negative offset is no offset. *)
Definition sql_offset {A} (n : Z) (l : list A) : list A :=
  drop (Z.to_nat n) l.

(** [dict(zip(columns, row))]: on a repeated name the later value stays. *)
Definition dict_zip (columns : list string) (row : list value) : gmap string value :=
  list_to_map (reverse (zip columns row)).

(** [COUNT(CASE WHEN status = s THEN 1 END)] *)
Definition count_status (s : string) (rows : list (gmap string value)) : Z :=
  Z.of_nat (length (filter (λ r, field r "status" = VStr s) rows)).

(** One output row of the grouped query: the three counts and the region. *)
Definition group_row (rows : list (gmap string value)) (g : value)
    : Z * Z * Z * value :=
  let members := filter (λ r, field r "ocean_region" = g) rows in
  (Z.of_nat (length members), count_status "active" members,
   count_status "inactive" members, g).

(** The groups of [GROUP BY key]: SQLite sorts the rows to group them, and
    the groups come in ascending order of the key, NULL first. *)
Definition group_keys (keys : list value) : list value :=
  reverse (order_by_desc id (remove_dups keys)).

(** The [SELECT COUNT( * ), ... FROM argo_floats [WHERE ocean_region = ?]
    GROUP BY ocean_region] of [get_float_statistics]. *)
Definition float_statistics_query (db : gmap string Table) (region : option string)
    : result (list (Z * Z * Z * value)) :=
  t ← find_table db "argo_floats";
  _ ← require_column t "status";
  _ ← require_column t "ocean_region";
  let rows := if truthy_str region
              then filter (λ r, field r "ocean_region" = VStr (default "" region))
                          (t_rows t)
              else t_rows t in
  Ok (group_row rows <$> group_keys ((λ r, field r "ocean_region") <$> rows)).

(** [get_float_statistics(region)] *)
Definition get_float_statistics (self : OceanDatabase) (region : option string)
    : result pyobj :=
  results ← float_statistics_query (current (conn self)) region;
  if truthy_str region then
    Ok (PDict
          [ ("total_floats",
             PInt (match results with row :: _ => row.1.1.1 | [] => 0 end));
            ("active_floats",
             PInt (match results with row :: _ => row.1.1.2 | [] => 0 end));
            ("inactive_floats",
             PInt (match results with row :: _ => row.1.2 | [] => 0 end)) ])
  else
    Ok (PDict
          [ ("regions",
             PList ((λ row : Z * Z * Z * value,
                       PDict [ ("region", PVal row.2);
                               ("total_floats", PInt row.1.1.1);
                               ("active_floats", PInt row.1.1.2);
                               ("inactive_floats", PInt row.1.2) ])
                    <$> results)) ]).

(** The names [self.<name>] resolves to: the methods the class defines and
    the attributes [__init__] sets. *)
Definition class_methods : list string :=
  [ "__init__"; "ensure_directory"; "connect"; "setup_database";
    "create_basic_schema"; "import_csv_data"; "clean_data"; "get_ocean_region";
    "insert_float_data"; "insert_temperature_data"; "insert_salinity_data";
    "insert_oxygen_data"; "get_float_data"; "get_measurement_data";
    "get_statistics"; "get_float_statistics"; "close" ].

Definition instance_attributes : list string := [ "db_path"; "conn" ].

(** [self.<name>] *)
Definition getattr (name : string) : result string :=
  if bool_decide (name ∈ class_methods ++ instance_attributes) then Ok name
  else Raise (AttributeError
                ("'OceanDatabase' object has no attribute '" +:+ name +:+ "'")).

(** [get_statistics(data_type, region)].  The attribute is looked up before
    the call; the source has no body for it to run afterwards. *)
Definition get_statistics (self : OceanDatabase) (data_type : string)
    (region : option string) : result pyobj :=
  if bool_decide (data_type = "floats") then get_float_statistics self region
  else
    method ← getattr "get_measurement_statistics";
    Raise (TypeError (method +:+ " is not a statistics method")).

Definition table_map : gmap string string :=
  list_to_map [ ("temperature", "temperature_data");
                ("salinity", "salinity_data");
                ("oxygen", "oxygen_data") ].

Section measurements.
Context `{SqliteLib}.

(** The SELECT that [get_measurement_data] assembles from its arguments.  A
    row of the result is kept as the measurement row and the columns the
    join adds to it.  The statement is compiled, which needs the tables and
    columns it names, before its parameters are bound; float_id and
    ocean_region are declared VARCHAR, so the texts bound to them are
    compared as texts, and the date bounds are compared as [date_bound]
    reads them. *)
Definition measurement_query (db : gmap string Table) (table : string)
    (float_id start_date end_date region : option string) (limit : Z)
    : result (list string * list (list value)) :=
  td ← find_table db table;
  _ ← require_column td "measurement_date";
  _ ← (if truthy_str float_id || truthy_str region
       then require_column td "float_id" else Ok tt);
  selected ←
    (if truthy_str region then
       af ← find_table db "argo_floats";
       _ ← require_column af "float_id";
       _ ← require_column af "ocean_region";
       Ok (column_names td ++ ["ocean_region"],
           r ← t_rows td;
           a ← filter (λ a, sql_eq (field r "float_id") (field a "float_id") = true
                            ∧ sql_eq (field a "ocean_region")
                                     (VStr (default "" region)) = true)
                      (t_rows af);
           [(r, [field a "ocean_region"])])
     else Ok (column_names td, (λ r, (r, [])) <$> t_rows td));
  limit ← bind_int limit;
  let '(columns, rows) := selected in
  let rows := if truthy_str float_id
              then filter (λ rx, sql_eq (field rx.1 "float_id")
                                        (VStr (default "" float_id)) = true) rows
              else rows in
  let rows := if truthy_str start_date
              then filter (λ rx, sql_ge (field rx.1 "measurement_date")
                                        (date_bound table (default "" start_date)) = true)
                          rows
              else rows in
  let rows := if truthy_str end_date
              then filter (λ rx, sql_le (field rx.1 "measurement_date")
                                        (date_bound table (default "" end_date)) = true)
                          rows
              else rows in
  let rows := sql_limit limit
                (order_by_desc (λ rx, field rx.1 "measurement_date") rows) in
  Ok (columns,
      (λ rx : gmap string value * list value,
         ((λ c, field rx.1 c) <$> column_names td) ++ rx.2) <$> rows).

(** [get_measurement_data(data_type, float_id, start_date, end_date, region,
    limit)] *)
Definition get_measurement_data (self : OceanDatabase) (data_type : string)
    (float_id start_date end_date region : option string) (limit : Z)
    : result (list (gmap string value)) :=
  match table_map !! data_type with
  | None => Raise (ValueError ("Invalid data type: " +:+ data_type))
  | Some table =>
      match measurement_query (current (conn self)) table
              float_id start_date end_date region limit with
      | Ok (columns, rows) => Ok (dict_zip columns <$> rows)
      | Raise e => Raise e
      end
  end.

End measurements.

(** The SELECT that [get_float_data] assembles: [SELECT * FROM argo_floats
    WHERE 1=1 [AND ocean_region = ?] [AND status = ?] ORDER BY
    measurement_date DESC LIMIT ? OFFSET ?].  The statement is compiled
    before [limit] and [offset] are bound. *)
Definition float_query (db : gmap string Table) (region status : option string)
    (limit offset : Z) : result (list string * list (list value)) :=
  t ← find_table db "argo_floats";
  _ ← require_column t "measurement_date";
  _ ← (if truthy_str region then require_column t "ocean_region" else Ok tt);
  _ ← (if truthy_str status then require_column t "status" else Ok tt);
  limit ← bind_int limit;
  offset ← bind_int offset;
  let rows := t_rows t in
  let rows := if truthy_str region
              then filter (λ r, sql_eq (field r "ocean_region")
                                       (VStr (default "" region)) = true) rows
              else rows in
  let rows := if truthy_str status
              then filter (λ r, sql_eq (field r "status")
                                       (VStr (default "" status)) = true) rows
              else rows in
  let rows := sql_limit limit
                (sql_offset offset
                   (order_by_desc (λ r, field r "measurement_date") rows)) in
  Ok (column_names t,
      (λ r : gmap string value, (λ c, field r c) <$> column_names t) <$> rows).

(** [get_float_data(region, status, limit, offset)] *)
Definition get_float_data (self : OceanDatabase) (region status : option string)
    (limit offset : Z) : result (list (gmap string value)) :=
  match float_query (current (conn self)) region status limit offset with
  | Ok (columns, rows) => Ok (dict_zip columns <$> rows)
  | Raise e => Raise e
  end.

End OceanDb.

(** ** Properties of rows, as the specification words them *)

Module ValidatorSpec.
Import Pandas.

Definition has_value (r : gmap string value) (c : string) : Prop :=
  ∃ v, r !! c = Some v ∧ v ≠ VNull.

Definition in_range (r : gmap string value) (c : string) (lo hi : Z) : Prop :=
  ∃ q, r !! c = Some (VFin q) ∧ (Qc_of_Z lo ≤ q)%Qc ∧ (q ≤ Qc_of_Z hi)%Qc.

Definition has_timestamp (r : gmap string value) : Prop :=
  ∃ t, r !! "measurement_date" = Some (VTime t).

Definition float_row_ok (r : gmap string value) : Prop :=
  has_value r "float_id" ∧ in_range r "latitude" (-90) 90
  ∧ in_range r "longitude" (-180) 180.

Definition measurement_row_ok (r : gmap string value) : Prop :=
  has_value r "float_id" ∧ has_timestamp r.

(** What becomes of one row in the date step: kept with its timestamp when
    the cell parsed, dropped otherwise. *)
Definition keep_parsed (ir : Z * gmap string value) (p : option Z)
    : option (Z * gmap string value) :=
  t ← p; Some (ir.1, <["measurement_date" := VTime t]> ir.2).

Definition date_column (df : DataFrame) : list value :=
  (λ ir, cell ir.2 "measurement_date") <$> df_rows df.

End ValidatorSpec.

Module ImporterSpec.
Import Pandas Sqlite OceanDb.

(** What processing a batch may add to the trace: the insert call and the
    progress line. *)
Definition batch_event (e : event) : Prop :=
  match e with
  | Executemany _ _ | LogProcessed _ => True
  | _ => False
  end.

(** [s'] differs from [s] by the processing of batches only: same files,
    same committed database, and nothing but batch events added. *)
Definition batches_only (s s' : OceanDatabase) : Prop :=
  schema_sql s' = schema_sql s ∧ csv_files s' = csv_files s ∧
  committed (conn s') = committed (conn s) ∧
  ∃ evs, trace s' = trace s ++ evs ∧ Forall batch_event evs.

(** The state in which the loop over the batches starts. *)
Definition started (path data_type : string) (batch_size : Z)
    (self : OceanDatabase) : OceanDatabase :=
  {| schema_sql := schema_sql self; csv_files := csv_files self;
     conn := conn self;
     trace := (trace self ++ [LogStart data_type path]) ++ [ReadCsv path batch_size] |}.

(** [len(clean_data(chunk, data_type))], the amount a batch adds to
    [total_rows]. *)
Definition cleaned_len `{PandasLib} (data_type : string) (chunk : DataFrame) : Z :=
  match clean_data chunk data_type with
  | Ok out => len out
  | Raise _ => 0
  end.

Definition cleaned_total `{PandasLib} (data_type : string)
    (chunks : list DataFrame) : Z :=
  foldr (λ chunk acc, cleaned_len data_type chunk + acc) 0 chunks.

Definition known_kinds : list string :=
  [ "floats"; "temperature"; "salinity"; "oxygen" ].

(** The database holds the two tables of the basic schema, with its columns,
    and no table for salinity or oxygen. *)
Definition fallback_in_effect (db : gmap string Table) : Prop :=
  (∃ t, db !! "argo_floats" = Some t ∧ t_columns t = basic_argo_floats) ∧
  (∃ t, db !! "temperature_data" = Some t ∧ t_columns t = basic_temperature_data) ∧
  db !! "salinity_data" = None ∧
  db !! "oxygen_data" = None.

(** The progress line is the only event a batch of an unknown kind adds. *)
Definition progress_event (e : event) : Prop :=
  match e with
  | LogProcessed _ => True
  | _ => False
  end.

(** What [import_csv_data] does on an existing file, told by the outcome of
    its [try] block.  When the block raises, the method returns [False]; the
    connection is rolled back to the last commit, which undoes the writes of
    the file and every write that was pending when the import began, so the
    connection is as it was before the call when nothing was pending then;
    the batch events are followed by the error line and one rollback, with no
    commit.  When the block returns, the method returns [True]; the loop has
    run over every batch of the file, the stream ended without an error, and
    the one commit comes after all batch events and makes the state the loop
    reached the committed one. *)
Definition atomic_import `{PandasLib} `{SqliteLib} (path data_type : string)
    (batch_size : Z) (rm : option (list (string * string)))
    (self : OceanDatabase) (read : Z → CsvFile) : Prop :=
  let start := started path data_type batch_size self in
  let loop := import_chunks data_type rm 0 (csv_chunks (read batch_size)) 0 start in
  match import_body path data_type batch_size rm self with
  | (Raise e, mid) =>
      ∃ self' evs,
        import_csv_data path data_type batch_size rm self = (Ok false, self') ∧
        conn self' = rollback (conn self) ∧
        (clean (conn self) → conn self' = conn self) ∧
        trace self' = trace start ++ evs ++ [LogImportError e; Rollback] ∧
        Forall batch_event evs
  | (Ok b, done) =>
      ∃ total mid evs,
        import_csv_data path data_type batch_size rm self = (Ok true, done) ∧
        b = true ∧
        loop = (Ok total, mid) ∧ csv_error (read batch_size) = None ∧
        conn done = commit (conn mid) ∧
        trace done = trace start ++ evs ++ [Commit; LogImported total data_type] ∧
        Forall batch_event evs
  end.

End ImporterSpec.

Module QuerySpec.
Import Sqlite OceanDb.

Definition measurement_kinds : list string := [ "temperature"; "salinity"; "oxygen" ].

(** The stored floats of one region. *)
Definition floats_in (rows : list (gmap string value)) (g : value)
    : list (gmap string value) :=
  filter (λ r, field r "ocean_region" = g) rows.

(** The three counts over a set of float rows, as dict items. *)
Definition summary (rows : list (gmap string value)) : list (string * pyobj) :=
  [ ("total_floats", PInt (Z.of_nat (length rows)));
    ("active_floats", PInt (count_status "active" rows));
    ("inactive_floats", PInt (count_status "inactive" rows)) ].

Definition region_entry (rows : list (gmap string value)) (g : value) : pyobj :=
  PDict (("region", PVal g) :: summary (floats_in rows g)).

(** The float table is there and has the two columns the statistics query
    names. *)
Definition float_table (self : OceanDatabase) (t : Table) : Prop :=
  current (conn self) !! "argo_floats" = Some t ∧
  "status" ∈ column_names t ∧ "ocean_region" ∈ column_names t.

End QuerySpec.

Module UpsertSpec.
Import Sqlite OceanDb.

(** The values a table holds in one column, row by row. *)
Definition table_keys (c : string) (t : Table) : list (option value) :=
  (λ r, r !! c) <$> t_rows t.

(** Occurrences of a key. *)
Definition occ (k : option value) (ks : list (option value)) : nat :=
  length (filter (λ k0, k0 = k) ks).

End UpsertSpec.

Module ReimportSpec.
Import Sqlite OceanDb.

Definition same_schema (t1 t2 : Table) : Prop :=
  t_columns t1 = t_columns t2 ∧ t_unique t1 = t_unique t2.

End ReimportSpec.

Module TwiceSpec.
Import Pandas Sqlite OceanDb QuerySpec.

(** Rows the connection sees in a table. *)
Definition stored (table : string) (s : OceanDatabase) : nat :=
  row_count (current (conn s)) table.

(** The state after one import of a file, and after a second import of the
    same file. *)
Definition once `{PandasLib} `{SqliteLib} (path data_type : string)
    (batch_size : Z) (rm : option (list (string * string)))
    (s : OceanDatabase) : OceanDatabase :=
  (import_csv_data path data_type batch_size rm s).2.

Definition twice `{PandasLib} `{SqliteLib} (path data_type : string)
    (batch_size : Z) (rm : option (list (string * string)))
    (s : OceanDatabase) : OceanDatabase :=
  once path data_type batch_size rm (once path data_type batch_size rm s).

(** The batches of a file carry dates when they reach the insert: those of
    a measurement file always, as [clean_data] requires the date column of
    them, and those of a floats file when it has that column. *)
Definition dated (data_type : string) (chunks : list DataFrame) : Prop :=
  data_type ∈ measurement_kinds ∨
  (data_type = "floats" ∧
   Forall (λ chunk, "measurement_date" ∈ df_columns chunk) chunks).

End TwiceSpec.

(** ** Worked inputs *)

Module Examples.
Import Pandas Sqlite OceanDb.

Definition num (k : Z) : value := VFin (Qc_of_Z k).

(** The value of a text made of decimal digits. *)
Fixpoint decimal (s : string) (acc : Z) : option Z :=
  match s with
  | EmptyString => Some acc
  | String a s' =>
      let n := Z.of_nat (Ascii.nat_of_ascii a) in
      if bool_decide (48 ≤ n ≤ 57) then decimal s' (10 * acc + (n - 48)) else None
  end.

Definition whole_number (s : string) : option Z :=
  match s with
  | EmptyString => None
  | _ => decimal s 0
  end.

(** The sqlite3 side of the examples: no statement of an external script is
    accepted, and the date columns are declared DATETIME as in the basic
    schema, so that a bound written in decimal digits is compared as that
    number and a date such as 2024-01-15 as text.  The examples bind no
    other numeric text (one with a sign, a fraction or an exponent). *)
Definition plain_sqlite : SqliteLib :=
  {| execute_ddl := λ _ _, Raise (OperationalError "unsupported statement");
     date_bound := λ _ s, match whole_number s with
                          | Some n => num n
                          | None => VStr s
                          end |}.

Definition float_row (id : string) (lat lon : Z) (date : value)
    : gmap string value :=
  list_to_map [ ("float_id", VStr id); ("latitude", num lat);
                ("longitude", num lon); ("measurement_date", date) ].

(** A floats batch: one good row, one with latitude 95, one whose date does
    not parse, a second reading of the first float, and one more float. *)
Definition floats_batch : DataFrame :=
  {| df_columns := [ "float_id"; "latitude"; "longitude"; "measurement_date" ];
     df_rows := [ (0, float_row "F1" 10 170 (num 5));
                  (1, float_row "F2" 95 170 (num 5));
                  (2, float_row "F3" 10 170 (VStr "soon"));
                  (3, float_row "F1" 70 0 (num 6));
                  (4, float_row "F4" 0 0 (num 6)) ] |}.

(** A floats batch whose file has no [measurement_date] column. *)
Definition floats_without_dates : DataFrame :=
  {| df_columns := [ "float_id"; "latitude"; "longitude" ];
     df_rows := [ (0, list_to_map [ ("float_id", VStr "F1"); ("latitude", num 10);
                                    ("longitude", num 170) ]) ] |}.

Definition cleaned (lib : PandasLib) (df : DataFrame) (data_type : string)
    : DataFrame :=
  match clean_data df data_type with
  | Ok out => out
  | Raise _ => {| df_columns := []; df_rows := [] |}
  end.

Definition floats_cleaned : DataFrame := cleaned epoch_pandas floats_batch "floats".

End Examples.

Module Worlds.
Import Pandas Sqlite OceanDb ImporterSpec TwiceSpec Examples.

#[local] Existing Instance epoch_pandas.
#[local] Existing Instance plain_sqlite.

Definition profile_row (id : string) (lat lon : Z) (date : value) (temp : Z)
    : gmap string value :=
  list_to_map [ ("float_id", VStr id); ("latitude", num lat);
                ("longitude", num lon); ("measurement_date", date);
                ("depth_meters", num 10); ("temperature_celsius", num temp) ].

(** A file that serves as a floats file and as a temperature file: three
    readings, two of them of the same float. *)
Definition profiles_batch : DataFrame :=
  {| df_columns := [ "float_id"; "latitude"; "longitude"; "measurement_date";
                     "depth_meters"; "temperature_celsius" ];
     df_rows := [ (0, profile_row "F1" 45 (-60) (num 5) 12);
                  (1, profile_row "F2" 10 170 (num 6) 25);
                  (2, profile_row "F1" 70 0 (num 7) 2) ] |}.

(** A floats file without a date column: the positions of two floats. *)
Definition positions_batch : DataFrame :=
  {| df_columns := [ "float_id"; "latitude"; "longitude" ];
     df_rows := [ (0, list_to_map [ ("float_id", VStr "F5"); ("latitude", num 10);
                                    ("longitude", num 170) ]);
                  (1, list_to_map [ ("float_id", VStr "F6"); ("latitude", num 70);
                                    ("longitude", num 0) ]) ] |}.

Definition read_profiles : Z → CsvFile :=
  λ _, {| csv_chunks := [profiles_batch]; csv_error := None |}.

Definition read_positions : Z → CsvFile :=
  λ _, {| csv_chunks := [positions_batch]; csv_error := None |}.

(** The positions again, in a file that ends in the middle of a line. *)
Definition read_truncated : Z → CsvFile :=
  λ _, {| csv_chunks := [positions_batch];
          csv_error := Some (ParserError "unexpected end of data") |}.

Definition disk (path : string) : option (Z → CsvFile) :=
  if bool_decide (path = "profiles.csv") then Some read_profiles
  else if bool_decide (path = "positions.csv") then Some read_positions
  else if bool_decide (path = "truncated.csv") then Some read_truncated
  else None.

(** A database with the full set of columns, the float table keyed by
    [float_id]; a float may be stored without a date. *)
Definition full_argo_floats : list ColumnDef :=
  [ id_column;
    col "float_id" true None;
    col "platform_number" false None;
    col "cycle_number" false None;
    col "latitude" true None;
    col "longitude" true None;
    col "measurement_date" false None;
    col "ocean_region" false None;
    col "status" false (Some (VStr "active")) ].

Definition full_temperature_data : list ColumnDef :=
  [ id_column;
    col "float_id" true None;
    col "measurement_date" true None;
    col "depth_meters" true None;
    col "temperature_celsius" true None;
    col "quality_flag" false (Some (num 1));
    col "pressure_dbar" false None ].

Definition full_db : gmap string Table :=
  create_table_if_not_exists "temperature_data" full_temperature_data []
    (create_table_if_not_exists "argo_floats" full_argo_floats ["float_id"] ∅).

Definition world (db : gmap string Table) : OceanDatabase :=
  {| schema_sql := None; csv_files := disk;
     conn := {| committed := db; current := db |}; trace := [] |}.

Definition full_world : OceanDatabase := world full_db.

(** A new database file and no schema script: [setup_database] falls back. *)
Definition fallback_world : OceanDatabase := (setup_database (world ∅)).2.

Definition float_record (id : string) (lat lon : Z) (date region : string)
    : gmap string value :=
  list_to_map [ ("float_id", VStr id); ("latitude", num lat);
                ("longitude", num lon); ("measurement_date", VStr date);
                ("ocean_region", VStr region) ].

(** A batch a caller hands to [insert_float_data] itself, the dates as
    text: three readings, two of them of the same float. *)
Definition stock_batch : DataFrame :=
  {| df_columns := [ "float_id"; "latitude"; "longitude"; "measurement_date";
                     "ocean_region" ];
     df_rows := [ (0, float_record "F1" 45 (-60) "2024-01-05" "Atlantic Ocean");
                  (1, float_record "F2" 10 170 "2024-01-06" "Pacific Ocean");
                  (2, float_record "F1" 70 0 "2024-01-07" "Arctic Ocean") ] |}.

(** The full database after [insert_float_data(stock_batch)], the writes
    still pending. *)
Definition pending_world : OceanDatabase :=
  (insert_float_data stock_batch full_world).2.

(** The same after [conn.commit()]. *)
Definition stocked_world : OceanDatabase := (conn_commit pending_world).2.

Definition stocked_floats : Table :=
  default {| t_columns := []; t_unique := []; t_rows := []; t_seq := 0 |}
          (current (conn stocked_world) !! "argo_floats").

End Worlds.

(** ** Further properties, as the source shows them *)

Module RegionSpec.

(** [lo <= x <= hi] for a finite coordinate. *)
Definition within (lo : Z) (x : Qc) (hi : Z) : Prop :=
  (Qc_of_Z lo ≤ x)%Qc ∧ (x ≤ Qc_of_Z hi)%Qc.

(** A coordinate pair as [clean_data] lets it through: finite, latitude in
    [-90,90], longitude in [-180,180]. *)
Definition valid_position (lat lon : Qc) : Prop :=
  within (-90) lat 90 ∧ within (-180) lon 180.

End RegionSpec.

Module CleaningSpec.
Import Pandas ValidatorSpec.

(** The columns the rules of a data kind name. *)
Definition required_columns (data_type : string) : list string :=
  if bool_decide (data_type = "floats")
  then [ "float_id"; "latitude"; "longitude" ]
  else if bool_decide (data_type ∈ ["temperature"; "salinity"; "oxygen"])
       then [ "float_id"; "measurement_date" ]
       else [].

(** A cell that holds text or a timestamp, which pandas does not compare
    with a number. *)
Definition text_cell (v : value) : Prop :=
  match v with
  | VStr _ | VTime _ => True
  | _ => False
  end.

(** A row that reaches a range test on a coordinate that is text. *)
Definition text_coordinate (r : gmap string value) : Prop :=
  cell r "float_id" ≠ VNull ∧
  ((text_cell (cell r "latitude") ∧ cell r "longitude" ≠ VNull) ∨
   (in_range r "latitude" (-90) 90 ∧ text_cell (cell r "longitude"))).

End CleaningSpec.

Module StoreSpec.
Import Pandas Sqlite OceanDb UpsertSpec ReimportSpec.

(** The statement and the tuple layout [import_csv_data] uses for a data
    kind; none for a kind outside the four. *)
Definition kind_insert (data_type : string)
    : option (InsertStmt * (gmap string value → list value)) :=
  if bool_decide (data_type = "floats") then Some (insert_floats, float_tuple)
  else if bool_decide (data_type = "temperature")
       then Some (insert_temperature, temperature_tuple)
  else if bool_decide (data_type = "salinity")
       then Some (insert_salinity, salinity_tuple)
  else if bool_decide (data_type = "oxygen")
       then Some (insert_oxygen, oxygen_tuple)
  else None.

(** The table a data kind is written to. *)
Definition written_table (data_type : string) : option string :=
  if bool_decide (data_type = "floats") then Some "argo_floats"
  else if bool_decide (data_type = "temperature") then Some "temperature_data"
  else if bool_decide (data_type = "salinity") then Some "salinity_data"
  else if bool_decide (data_type = "oxygen") then Some "oxygen_data"
  else None.

(** The tables of [db'] are those of [db]; each is related to what it was by
    [T], and every table but [written] is what it was. *)
Definition tables_evolve (T : Table → Table → Prop) (written : option string)
    (db db' : gmap string Table) : Prop :=
  ∀ name,
    match db !! name, db' !! name with
    | Some t, Some t' => T t t' ∧ (written ≠ Some name → t' = t)
    | None, None => True
    | _, _ => False
    end.

(** Every UNIQUE column holds each value that is not NULL at most once. *)
Definition unique_ok (t : Table) : Prop :=
  ∀ c v, c ∈ t_unique t → v ≠ VNull →
         (occ (Some v) (table_keys c t) ≤ 1)%nat.

End StoreSpec.

Module ListingSpec.
Import Sqlite OceanDb.

(** The dict a stored row turns into under [SELECT *]. *)
Definition row_dict (t : Table) (r : gmap string value) : gmap string value :=
  dict_zip (column_names t) ((λ c, field r c) <$> column_names t).

(** Consecutive entries do not increase under [key], in SQLite's order. *)
Definition descending {A} (key : A → value) (l : list A) : Prop :=
  ∀ i x y, l !! i = Some x → l !! S i = Some y →
           value_leb (key y) (key x) = true.

(** The float table is there, with the column the listing sorts by and the
    columns the given filters name. *)
Definition listable (self : OceanDatabase) (t : Table)
    (region status : option string) : Prop :=
  current (conn self) !! "argo_floats" = Some t ∧
  "measurement_date" ∈ column_names t ∧
  (truthy_str region = true → "ocean_region" ∈ column_names t) ∧
  (truthy_str status = true → "status" ∈ column_names t).

(** The WHERE clause of the listing, read on one stored row. *)
Definition float_matches (region status : option string)
    (r : gmap string value) : Prop :=
  (truthy_str region = true → field r "ocean_region" = VStr (default "" region)) ∧
  (truthy_str status = true → field r "status" = VStr (default "" status)).

#[global] Instance float_matches_dec region status r :
  Decision (float_matches region status r).
Proof. unfold float_matches. apply _. Defined.

Definition matching_floats (t : Table) (region status : option string)
    : list (gmap string value) :=
  filter (float_matches region status) (t_rows t).

(** The WHERE clause of [get_measurement_data] on the measurement row: the
    float and the two date bounds, both inclusive, each bound compared as
    [date_bound] reads it, in SQLite's order of values; a row without a date
    passes no bound. *)
Definition measurement_matches `{SqliteLib} (table : string)
    (float_id start_date end_date : option string)
    (r : gmap string value) : Prop :=
  (truthy_str float_id = true → field r "float_id" = VStr (default "" float_id)) ∧
  (truthy_str start_date = true →
     field r "measurement_date" ≠ VNull ∧
     date_bound table (default "" start_date) ≠ VNull ∧
     value_leb (date_bound table (default "" start_date))
               (field r "measurement_date") = true) ∧
  (truthy_str end_date = true →
     field r "measurement_date" ≠ VNull ∧
     date_bound table (default "" end_date) ≠ VNull ∧
     value_leb (field r "measurement_date")
               (date_bound table (default "" end_date)) = true).

(** The float the join pairs a measurement with. *)
Definition joined_float (db : gmap string Table) (region : string)
    (r : gmap string value) : Prop :=
  ∃ af a, db !! "argo_floats" = Some af ∧ a ∈ t_rows af ∧
          field r "float_id" ≠ VNull ∧
          field a "float_id" = field r "float_id" ∧
          field a "ocean_region" = VStr region.

End ListingSpec.

(** ** Further worked inputs *)

Module Samples.
Import Pandas Sqlite OceanDb TwiceSpec Examples Worlds.

#[local] Existing Instance epoch_pandas.
#[local] Existing Instance plain_sqlite.

(** A row whose latitude is not a number. *)
Definition text_row : Z * gmap string value :=
  (1, list_to_map [ ("float_id", VStr "F2"); ("latitude", VStr "12N");
                    ("longitude", num 20) ]).

(** A floats batch from a file whose latitude column holds text: pandas
    then reads the whole column as strings. *)
Definition text_latitude_batch : DataFrame :=
  {| df_columns := [ "float_id"; "latitude"; "longitude" ];
     df_rows := [ (0, list_to_map [ ("float_id", VStr "F1"); ("latitude", VStr "10.5");
                                    ("longitude", num 170) ]);
                  text_row ] |}.

(** A floats batch from a file without a longitude column. *)
Definition floats_without_longitude : DataFrame :=
  {| df_columns := [ "float_id"; "latitude" ];
     df_rows := [ (0, list_to_map [ ("float_id", VStr "F1"); ("latitude", num 10) ]) ] |}.

(** The first row of [floats_batch]. *)
Definition good_float : Z * gmap string value := (0, float_row "F1" 10 170 (num 5)).

Definition reading (id date : string) (temp : Z) : gmap string value :=
  list_to_map [ ("float_id", VStr id); ("measurement_date", VStr date);
                ("depth_meters", num 10); ("temperature_celsius", num temp) ].

(** Temperature readings a caller hands to [insert_temperature_data]
    itself, the dates as text. *)
Definition readings_batch : DataFrame :=
  {| df_columns := [ "float_id"; "measurement_date"; "depth_meters";
                     "temperature_celsius" ];
     df_rows := [ (0, reading "F1" "2024-01-05" 12);
                  (1, reading "F2" "2024-01-06" 25);
                  (2, reading "F1" "2024-01-07" 2) ] |}.

(** The stocked database after [insert_temperature_data(readings_batch)]
    and [conn.commit()]. *)
Definition profiled_world : OceanDatabase :=
  (conn_commit (insert_temperature_data readings_batch stocked_world).2).2.

Definition listed (r : result (list (gmap string value)))
    : list (gmap string value) :=
  match r with
  | Ok l => l
  | Raise _ => []
  end.

(** The temperature readings of the floats in the Arctic Ocean. *)
Definition arctic_temperatures : list (gmap string value) :=
  listed (get_measurement_data profiled_world "temperature" None None None
            (Some "Arctic Ocean") 10).

(** The temperature readings from the bound 2025 on. *)
Definition since_2025 : list (gmap string value) :=
  listed (get_measurement_data profiled_world "temperature" None (Some "2025")
            None None 10).

(** U+00A0, the no-break space, in UTF-8. *)
Definition no_break_space : string :=
  String (Ascii.ascii_of_nat 194) (String (Ascii.ascii_of_nat 160) EmptyString).

(** A script that holds no statement: blanks, a line feed and a no-break
    space around two semicolons. *)
Definition blank_script : string :=
  " ;" +:+ String (Ascii.ascii_of_nat 10) no_break_space +:+ "; ".

(** A new database file next to that script. *)
Definition blank_world : OceanDatabase :=
  {| schema_sql := Some blank_script; csv_files := disk;
     conn := {| committed := ∅; current := ∅ |}; trace := [] |}.

End Samples.

(** * Theorems *)

Ltac inv_result :=
  repeat match goal with
  | H : Ok _ = Ok _ |- _ => injection H as H; try subst
  | H : Raise _ = Ok _ |- _ => discriminate H
  | H : Ok _ = Raise _ |- _ => discriminate H
  | H : mbind _ ?m = Ok _ |- _ =>
      let E := fresh "E" in destruct m eqn:E; cbn [mbind result_bind] in H
  end.


Section region_classifier.
Import Region.

Lemma get_ocean_region_first_match lat lon :
  get_ocean_region lat lon = first_match region_tests lat lon.
Proof.
  unfold get_ocean_region; cbn [first_match region_tests].
  repeat case_match; reflexivity.
Qed.

Lemma get_ocean_region_label lat lon :
  get_ocean_region lat lon ∈ region_labels.
Proof.
  unfold get_ocean_region, region_labels.
  repeat case_match; set_solver.
Qed.

(** C2. [get_ocean_region] is total (it is a function on every pair of
    floats, NaN and infinities included), its value is one of the six labels,
    it is the first matching test of the ordered table Atlantic, Pacific,
    Indian, Arctic, Southern, else Unknown; and on the sample points:
    (45,-60) is Atlantic, (10,170) Pacific, (70,0) Arctic, (-50,0) Southern,
    while (0,-170) is caught by the first (Atlantic) test, so the result
    there is "Atlantic Ocean" and not "Unknown". *)
Theorem C2_region_classification :
  (∀ lat lon,
      get_ocean_region lat lon ∈ region_labels ∧
      get_ocean_region lat lon = first_match region_tests lat lon) ∧
  get_ocean_region (coord 45) (coord (-60)) = "Atlantic Ocean" ∧
  get_ocean_region (coord 10) (coord 170) = "Pacific Ocean" ∧
  get_ocean_region (coord 70) (coord 0) = "Arctic Ocean" ∧
  get_ocean_region (coord (-50)) (coord 0) = "Southern Ocean" ∧
  (between (-30) (coord 0) 60 && between (-180) (coord (-170)) (-30) = true ∧
   get_ocean_region (coord 0) (coord (-170)) = "Atlantic Ocean").
Proof.
  split.
  - intros lat lon; split;
      [apply get_ocean_region_label | apply get_ocean_region_first_match].
  - repeat split; vm_compute; reflexivity.
Qed.

End region_classifier.

Ltac unfold_M :=
  unfold OceanDb.conn_commit, OceanDb.conn_rollback, OceanDb.on_conn,
    OceanDb.emit, modify, gets, lift, raise,
    mbind, M_bind, mret, M_ret in *; cbn [fst snd] in *.

Section validator.
Import Pandas ValidatorSpec.
Context `{PandasLib}.

Lemma mapMr_Forall2 {A B} (f : A → result B) xs ys :
  mapMr f xs = Ok ys → Forall2 (λ x y, f x = Ok y) xs ys.
Proof.
  revert ys; induction xs as [|x xs IH]; intros ys Hm; cbn [mapMr] in Hm.
  - inv_result. constructor.
  - inv_result. constructor; auto.
Qed.

Lemma cell_has_value r c : cell r c ≠ VNull → has_value r c.
Proof.
  unfold cell, has_value. destruct (r !! c) as [v|]; simpl; [eauto | congruence].
Qed.

Lemma dropna_Ok subset df out :
  dropna subset df = Ok out →
  df_columns out = df_columns df ∧
  ∀ ir, ir ∈ df_rows out ↔
        ir ∈ df_rows df ∧ ∀ c, c ∈ subset → cell ir.2 c ≠ VNull.
Proof.
  unfold dropna. destruct (filter _ subset); [|discriminate].
  intros [= <-]; simpl. split; [done|]. intros ir.
  rewrite list_elem_of_filter, forallb_forall.
  split; intros [Hall Hin]; split; try done.
  - intros c Hc. apply list_elem_of_In, Hall in Hc.
    unfold notna in Hc. apply negb_true_iff, bool_decide_eq_false in Hc. done.
  - intros c Hc. apply list_elem_of_In, Hin in Hc.
    unfold notna. apply negb_true_iff, bool_decide_eq_false. done.
Qed.

Lemma mask_rows_elem {A} (xs : list A) mask x :
  x ∈ mask_rows xs mask → ∃ n, xs !! n = Some x ∧ mask !! n = Some true.
Proof.
  revert mask; induction xs as [|y xs IH]; intros [|b mask]; simpl;
    try (intros Hx; by apply elem_of_nil in Hx).
  destruct b.
  - intros [->|Hx]%elem_of_cons; [by exists 0%nat|].
    destruct (IH _ Hx) as (n & ? & ?). by exists (S n).
  - intros Hx. destruct (IH _ Hx) as (n & ? & ?). by exists (S n).
Qed.

Lemma filter_range_Ok df c lo hi out :
  filter_range df c lo hi = Ok out →
  df_columns out = df_columns df ∧
  ∀ ir, ir ∈ df_rows out →
        ir ∈ df_rows df ∧
        ∃ q, cell ir.2 c = VFin q ∧ (Qc_of_Z lo ≤ q)%Qc ∧ (q ≤ Qc_of_Z hi)%Qc.
Proof.
  unfold filter_range, getitem. case_bool_decide; [|discriminate].
  cbn [mbind result_bind]. intros Hf. inv_result. simpl. split; [done|].
  intros ir (n & Hn & Hmask)%mask_rows_elem.
  split; [by eapply list_elem_of_lookup_2|].
  apply lookup_zip_with_Some in Hmask as (b1 & b2 & Hb & Hge & Hle).
  apply mapMr_Forall2 in E, E0.
  eapply Forall2_lookup_r in E as (v1 & Hv1 & Hc1); [|done].
  eapply Forall2_lookup_r in E0 as (v2 & Hv2 & Hc2); [|done].
  rewrite list_lookup_fmap, Hn in Hv1, Hv2. simpl in Hv1, Hv2.
  injection Hv1 as <-. injection Hv2 as <-.
  symmetry in Hb. apply andb_true_iff in Hb as [-> ->].
  destruct (cell ir.2 c) as [|q|neg| |]; simpl in *; try discriminate.
  - exists q. injection Hc1 as Hc1. injection Hc2 as Hc2.
    apply bool_decide_eq_true in Hc1, Hc2. done.
  - destruct neg; discriminate.
Qed.

Lemma date_step_rows (rows : list (Z * gmap string value)) (parsed : list (option Z)) :
  filter (λ ir, forallb (λ c, notna (cell ir.2 c)) ["measurement_date"] = true)
         (zip_with (λ ir v, (ir.1, <["measurement_date" := v]> ir.2)) rows
                   (datetime_cell <$> parsed))
  = omap (λ x, keep_parsed x.1 x.2) (zip rows parsed).
Proof.
  revert parsed; induction rows as [|ir rows IH]; intros [|p parsed]; try done.
  change (zip (ir :: rows) (p :: parsed)) with ((ir, p) :: zip rows parsed).
  change (datetime_cell <$> p :: parsed)
    with (datetime_cell p :: (datetime_cell <$> parsed)).
  cbn [zip_with]. rewrite filter_cons. cbn [omap list_omap]. rewrite <- IH.
  destruct p as [t|]; cbn [keep_parsed mbind option_bind datetime_cell fst snd].
  - rewrite decide_True; [done|].
    cbn [forallb snd]. unfold cell. by rewrite lookup_insert_eq.
  - rewrite decide_False; [done|].
    cbn [forallb snd]. unfold cell. by rewrite lookup_insert_eq.
Qed.

Lemma convert_dates_present df out :
  "measurement_date" ∈ df_columns df →
  convert_dates df = Ok out →
  df_columns out = df_columns df ∧
  df_rows out = omap (λ x, keep_parsed x.1 x.2)
                     (zip (df_rows df) (to_datetime (date_column df))).
Proof.
  intros Hcol. unfold convert_dates, getitem, dropna, setitem.
  rewrite !bool_decide_eq_true_2 by done. cbn [mbind result_bind df_columns df_rows].
  rewrite filter_cons, filter_nil. rewrite decide_False by (intros Hn; by apply Hn).
  intros [= <-]. simpl. split; [done|]. apply date_step_rows.
Qed.

Lemma convert_dates_absent df out :
  "measurement_date" ∉ df_columns df → convert_dates df = Ok out → out = df.
Proof.
  intros Hcol. unfold convert_dates. rewrite bool_decide_eq_false_2 by done.
  congruence.
Qed.

Lemma kept_row_origin (rows : list (Z * gmap string value)) parsed ir :
  ir ∈ omap (λ x, keep_parsed x.1 x.2) (zip rows parsed) →
  ∃ n r0 t, rows !! n = Some (ir.1, r0) ∧ parsed !! n = Some (Some t)
            ∧ ir.2 = <["measurement_date" := VTime t]> r0.
Proof.
  intros ([[i r0] p] & Hin & Hk)%list_elem_of_omap.
  apply list_elem_of_lookup in Hin as [n Hn].
  apply lookup_zip_Some in Hn as [Hr Hp].
  destruct p as [t|]; simpl in Hk; [|discriminate]. injection Hk as <-.
  exists n, r0, t. done.
Qed.

Lemma convert_dates_row df out ir :
  convert_dates df = Ok out → ir ∈ df_rows out →
  ∃ r0, (ir.1, r0) ∈ df_rows df ∧
        ∀ c, c ≠ "measurement_date" → ir.2 !! c = r0 !! c.
Proof.
  intros Hc Hin. destruct (decide ("measurement_date" ∈ df_columns df)) as [Hcol|Hcol].
  - destruct (convert_dates_present _ _ Hcol Hc) as [_ Hrows].
    rewrite Hrows in Hin. apply kept_row_origin in Hin as (n & r0 & t & Hn & _ & ->).
    exists r0. split; [by eapply list_elem_of_lookup_2|].
    intros c Hne. by rewrite lookup_insert_ne.
  - apply convert_dates_absent in Hc as ->; [|done].
    exists ir.2. split; [by destruct ir|done].
Qed.

Lemma convert_dates_timestamp df out ir :
  "measurement_date" ∈ df_columns df →
  convert_dates df = Ok out → ir ∈ df_rows out → has_timestamp ir.2.
Proof.
  intros Hcol Hc Hin. destruct (convert_dates_present _ _ Hcol Hc) as [_ Hrows].
  rewrite Hrows in Hin. apply kept_row_origin in Hin as (n & r0 & t & _ & _ & ->).
  exists t. apply lookup_insert_eq.
Qed.

Lemma convert_dates_dropped df out n ir :
  "measurement_date" ∈ df_columns df →
  convert_dates df = Ok out →
  NoDup (df_rows df).*1 →
  df_rows df !! n = Some ir →
  to_datetime (date_column df) !! n = Some None →
  ir.1 ∉ (df_rows out).*1.
Proof.
  intros Hcol Hc Hnd Hn Hp Hin.
  destruct (convert_dates_present _ _ Hcol Hc) as [_ Hrows].
  apply list_elem_of_fmap in Hin as (ir' & Heq & Hin).
  rewrite Hrows in Hin. apply kept_row_origin in Hin as (n' & r0 & t & Hn' & Hp' & _).
  assert (n = n') as <-.
  { eapply NoDup_lookup; [exact Hnd| |].
    - by rewrite list_lookup_fmap, Hn.
    - rewrite list_lookup_fmap, Hn'. simpl. by rewrite Heq. }
  congruence.
Qed.

Lemma has_value_other (r r0 : gmap string value) c :
  r !! c = r0 !! c → cell r0 c ≠ VNull → has_value r c.
Proof. intros Heq Hc. apply cell_has_value. unfold cell in *. by rewrite Heq. Qed.

Lemma in_range_other (r r0 : gmap string value) c lo hi q :
  r !! c = r0 !! c → cell r0 c = VFin q →
  (Qc_of_Z lo ≤ q)%Qc → (q ≤ Qc_of_Z hi)%Qc → in_range r c lo hi.
Proof.
  intros Heq Hc ??. exists q. rewrite Heq. unfold cell in Hc.
  destruct (r0 !! c); simpl in Hc; [by subst | discriminate].
Qed.

Lemma drop_missing_floats df pre ir :
  drop_missing df "floats" = Ok pre → ir ∈ df_rows pre →
  cell ir.2 "float_id" ≠ VNull ∧
  (∃ q, cell ir.2 "latitude" = VFin q ∧ (Qc_of_Z (-90) ≤ q)%Qc ∧ (q ≤ Qc_of_Z 90)%Qc) ∧
  (∃ q, cell ir.2 "longitude" = VFin q ∧ (Qc_of_Z (-180) ≤ q)%Qc ∧ (q ≤ Qc_of_Z 180)%Qc).
Proof.
  unfold drop_missing. rewrite bool_decide_eq_true_2 by done.
  intros Hd Hin. inv_result.
  apply dropna_Ok in E as [_ Hna].
  apply filter_range_Ok in E0 as [_ Hlat].
  apply filter_range_Ok in Hd as [_ Hlon].
  destruct (Hlon _ Hin) as [Hin1 ?]. destruct (Hlat _ Hin1) as [Hin0 ?].
  apply Hna in Hin0 as [_ Hnn]. split_and!; [|done..].
  apply Hnn. apply list_elem_of_here.
Qed.

Lemma drop_missing_measurement df data_type pre ir :
  data_type ∈ ["temperature"; "salinity"; "oxygen"] →
  drop_missing df data_type = Ok pre → ir ∈ df_rows pre →
  "measurement_date" ∈ df_columns pre ∧ cell ir.2 "float_id" ≠ VNull.
Proof.
  intros Hk. unfold drop_missing.
  rewrite bool_decide_eq_false_2
    by (intros ->; apply list_elem_of_In in Hk; simpl in Hk;
        destruct Hk as [Hk|[Hk|[Hk|[]]]]; discriminate).
  rewrite bool_decide_eq_true_2 by done.
  intros Hd Hin. pose proof Hd as Hd'. apply dropna_Ok in Hd as [Hcols Hna].
  split.
  - rewrite Hcols. unfold dropna in Hd'.
    destruct (decide ("measurement_date" ∈ df_columns df)) as [|Hn]; [done|].
    rewrite !filter_cons, filter_nil in Hd'.
    rewrite (decide_True (P := "measurement_date" ∉ df_columns df)) in Hd' by done.
    case_decide; discriminate.
  - apply Hna in Hin as [_ Hnn]. apply Hnn. apply list_elem_of_here.
Qed.

Lemma drop_missing_columns df data_type pre :
  drop_missing df data_type = Ok pre → df_columns pre = df_columns df.
Proof.
  unfold drop_missing. repeat case_bool_decide; intros Hd; inv_result.
  - apply dropna_Ok in E as [E _]. apply filter_range_Ok in E0 as [E0 _].
    apply filter_range_Ok in Hd as [Hd _]. congruence.
  - by apply dropna_Ok in Hd as [-> _].
  - done.
Qed.

(** C1 (amended). Whenever [clean_data] returns a batch [out]: for kind
    'floats' every row of [out] has a non-null float_id, a latitude in
    [-90,90] and a longitude in [-180,180]; for kinds 'temperature',
    'salinity' and 'oxygen' every row has a non-null float_id and a
    measurement_date that is a timestamp; and for any kind, when the batch
    has a measurement_date column, [out] is exactly the rows (after the kind
    rules) whose date parsed, each with its date replaced by the timestamp,
    so a row whose date fails to parse is not in [out]; a batch without that
    column skips the date step and comes back as the kind rules left it. *)
Theorem C1_clean_data_postcondition df data_type out :
  clean_data df data_type = Ok out →
  ∃ pre, drop_missing df data_type = Ok pre ∧
    (data_type = "floats" → Forall (λ ir, float_row_ok ir.2) (df_rows out)) ∧
    (data_type ∈ ["temperature"; "salinity"; "oxygen"] →
       Forall (λ ir, measurement_row_ok ir.2) (df_rows out)) ∧
    ("measurement_date" ∈ df_columns df →
       df_rows out = omap (λ x, keep_parsed x.1 x.2)
                          (zip (df_rows pre) (to_datetime (date_column pre))) ∧
       Forall (λ ir, has_timestamp ir.2) (df_rows out) ∧
       (∀ n ir, NoDup (df_rows pre).*1 → df_rows pre !! n = Some ir →
                to_datetime (date_column pre) !! n = Some None →
                ir.1 ∉ (df_rows out).*1)) ∧
    ("measurement_date" ∉ df_columns df → out = pre).
Proof.
  unfold clean_data. intros Hc. inv_result. rename a into pre. exists pre.
  split; [done|]. pose proof (drop_missing_columns _ _ _ E) as Hcols.
  split_and!.
  - intros ->. apply list.Forall_forall. intros ir Hin.
    destruct (convert_dates_row _ _ _ Hc Hin) as (r0 & Hin0 & Hsame).
    destruct (drop_missing_floats _ _ _ E Hin0) as (Hid & (q1 & ? & ? & ?) & (q2 & ? & ? & ?)).
    split_and!.
    + eapply has_value_other; [apply Hsame|]; done.
    + eapply in_range_other; [apply Hsame|..]; done.
    + eapply in_range_other; [apply Hsame|..]; done.
  - intros Hk. apply list.Forall_forall. intros ir Hin.
    destruct (convert_dates_row _ _ _ Hc Hin) as (r0 & Hin0 & Hsame).
    destruct (drop_missing_measurement _ _ _ _ Hk E Hin0) as [Hcol Hid].
    split.
    + eapply has_value_other; [apply Hsame|]; done.
    + by eapply convert_dates_timestamp.
  - intros Hcol. rewrite <- Hcols in Hcol. split_and!.
    + by apply convert_dates_present.
    + apply list.Forall_forall. intros ir Hin. by eapply convert_dates_timestamp.
    + intros n ir ???. by eapply convert_dates_dropped.
  - intros Hcol. rewrite <- Hcols in Hcol. by apply convert_dates_absent.
Qed.

End validator.

Section validator_examples.
Import Pandas ValidatorSpec Examples.

Lemma C1_clean_data_postcondition_witness :
  @clean_data epoch_pandas floats_batch "floats" = Ok floats_cleaned ∧
  length (df_rows floats_cleaned) = 3%nat ∧
  ∃ pre, @drop_missing floats_batch "floats" = Ok pre ∧
    ("floats" = "floats" →
       Forall (λ ir, float_row_ok ir.2) (df_rows floats_cleaned)) ∧
    ("floats" ∈ ["temperature"; "salinity"; "oxygen"] →
       Forall (λ ir, measurement_row_ok ir.2) (df_rows floats_cleaned)) ∧
    ("measurement_date" ∈ df_columns floats_batch →
       df_rows floats_cleaned = omap (λ x, keep_parsed x.1 x.2)
                          (zip (df_rows pre)
                               (@to_datetime epoch_pandas (date_column pre))) ∧
       Forall (λ ir, has_timestamp ir.2) (df_rows floats_cleaned) ∧
       (∀ n ir, NoDup (df_rows pre).*1 → df_rows pre !! n = Some ir →
                @to_datetime epoch_pandas (date_column pre) !! n = Some None →
                ir.1 ∉ (df_rows floats_cleaned).*1)) ∧
    ("measurement_date" ∉ df_columns floats_batch → floats_cleaned = pre).
Proof.
  split; [vm_compute; reflexivity|]. split; [vm_compute; reflexivity|].
  apply (@C1_clean_data_postcondition epoch_pandas floats_batch "floats"
           floats_cleaned).
  vm_compute; reflexivity.
Defined.

(** C1 as stated fails: a floats batch read from a file without a
    measurement_date column passes [clean_data], and its surviving row
    carries no timestamp. *)
Lemma C1_counterexample_no_date_column :
  ∃ out, @clean_data epoch_pandas floats_without_dates "floats" = Ok out ∧
         df_rows out = df_rows floats_without_dates ∧
         ¬ Forall (λ ir, has_timestamp ir.2) (df_rows out).
Proof.
  eexists. split; [vm_compute; reflexivity|]. split; [reflexivity|].
  intros Hall. apply list.Forall_forall with (x := (0, list_to_map [ ("float_id", VStr "F1"); ("latitude", num 10); ("longitude", num 170) ])) in Hall.
  - destruct Hall as [t Ht]. vm_compute in Ht. discriminate.
  - apply list_elem_of_here.
Qed.

End validator_examples.

(** ** The importer *)

Section importer.
Import Pandas Sqlite OceanDb ImporterSpec.
Context `{PandasLib} `{SqliteLib}.

Lemma batches_only_refl s : batches_only s s.
Proof.
  repeat split. exists []. by rewrite app_nil_r.
Qed.

Lemma batches_only_trans s1 s2 s3 :
  batches_only s1 s2 → batches_only s2 s3 → batches_only s1 s3.
Proof.
  intros (? & ? & ? & evs1 & Ht1 & ?) (? & ? & ? & evs2 & Ht2 & ?).
  repeat split; try congruence.
  exists (evs1 ++ evs2). rewrite Ht2, Ht1, app_assoc. split; [done|].
  by apply Forall_app.
Qed.

Lemma batches_only_emit e s :
  batch_event e → batches_only s (emit e s).2.
Proof.
  intros He. repeat split. exists [e]. split; [done|]. by constructor.
Qed.

Lemma executemany_committed st data c :
  committed (executemany st data c).2 = committed c.
Proof.
  unfold executemany. destruct (prepare _ _); [|done].
  by destruct (forM_ _ _ _).
Qed.

Lemma conn_executemany_batches st data s :
  batches_only s (conn_executemany st data s).2.
Proof.
  unfold conn_executemany. unfold_M. cbn [conn].
  pose proof (executemany_committed st data (conn s)) as Hc.
  destruct (executemany st data (conn s)) as [r c'] eqn:E. simpl in Hc.
  assert (∀ r0 : result unit, batches_only s
            (r0, set_conn c' {| schema_sql := schema_sql s; csv_files := csv_files s;
                               conn := conn s;
                               trace := trace s ++ [Executemany (ins_table st) (length data)] |}).2)
    as Hb.
  { intros r0. repeat split; [done|]. exists [Executemany (ins_table st) (length data)].
    split; [done|]. by constructor. }
  destruct r; apply Hb.
Qed.

(** Sequencing two steps that each stay within [batches_only]. *)
Lemma bind_batches {A B} (m : M OceanDatabase A) (k : A → M OceanDatabase B) s :
  (∀ s0, batches_only s0 (m s0).2) →
  (∀ a s0, batches_only s0 (k a s0).2) →
  batches_only s ((m ≫= k) s).2.
Proof.
  intros Hm Hk. unfold mbind, M_bind. specialize (Hm s).
  destruct (m s) as [[a|e] s1]; simpl in *; [|done].
  eapply batches_only_trans; [done|apply Hk].
Qed.

Lemma mret_batches {A} (a : A) (s : OceanDatabase) :
  batches_only s ((mret a : M OceanDatabase A) s).2.
Proof. apply batches_only_refl. Qed.

(** The loop body, step by step. *)
Lemma import_chunk_unfold data_type rm chunk_num chunk total s :
  import_chunk data_type rm chunk_num chunk total s =
    match clean_data chunk data_type with
    | Raise e => (Raise e, s)
    | Ok cleaned =>
        match map_regions data_type rm cleaned with
        | Raise e => (Raise e, s)
        | Ok mapped =>
            match insert_chunk data_type mapped s with
            | (Raise e, s') => (Raise e, s')
            | (Ok _, s') =>
                (Ok (total + len mapped),
                 if bool_decide (chunk_num `mod` 10 = 0)
                 then (emit (LogProcessed (total + len mapped)) s').2
                 else s')
            end
        end
    end.
Proof.
  unfold import_chunk. unfold mbind at 1, M_bind at 1, lift at 1.
  destruct (clean_data chunk data_type) as [cleaned|e]; [|done].
  unfold mbind at 1, M_bind at 1, lift at 1.
  destruct (map_regions data_type rm cleaned) as [mapped|e]; [|done].
  unfold mbind at 1, M_bind at 1.
  destruct (insert_chunk data_type mapped s) as [[[]|e] s']; [|done].
  unfold_M. by case_bool_decide.
Qed.

Lemma insert_chunk_batches data_type chunk s :
  batches_only s (insert_chunk data_type chunk s).2.
Proof.
  unfold insert_chunk, insert_float_data, insert_temperature_data,
    insert_salinity_data, insert_oxygen_data.
  repeat case_bool_decide; try apply conn_executemany_batches.
  apply mret_batches.
Qed.

Lemma import_chunk_batches data_type rm chunk_num chunk total s :
  batches_only s (import_chunk data_type rm chunk_num chunk total s).2.
Proof.
  rewrite import_chunk_unfold.
  destruct (clean_data chunk data_type) as [cleaned|e]; [|apply batches_only_refl].
  destruct (map_regions data_type rm cleaned) as [mapped|e]; [|apply batches_only_refl].
  pose proof (insert_chunk_batches data_type mapped s) as Hins.
  destruct (insert_chunk data_type mapped s) as [[[]|e] s']; [|done].
  cbn [snd] in *. case_bool_decide; [|done].
  eapply batches_only_trans; [done|]. by apply batches_only_emit.
Qed.

Lemma import_chunks_batches data_type rm chunks : ∀ chunk_num total s,
  batches_only s (import_chunks data_type rm chunk_num chunks total s).2.
Proof.
  induction chunks as [|chunk chunks IH]; intros chunk_num total s; cbn [import_chunks].
  - apply mret_batches.
  - apply bind_batches; [intros; apply import_chunk_batches|].
    intros. apply IH.
Qed.

Lemma rollback_clean c c' :
  clean c → committed c' = committed c → rollback c' = c.
Proof.
  unfold clean, rollback. destruct c, c'; simpl. by intros -> ->.
Qed.

Lemma not_batch_commit evs : Forall batch_event evs → Commit ∉ evs.
Proof. intros Hall Hin. by eapply list.Forall_forall in Hall; [|done]. Qed.

Lemma not_batch_rollback evs : Forall batch_event evs → Rollback ∉ evs.
Proof. intros Hall Hin. by eapply list.Forall_forall in Hall; [|done]. Qed.

(** The [try] block, spelled out on an existing file. *)
Lemma import_body_unfold path data_type batch_size rm self read :
  csv_files self path = Some read →
  import_body path data_type batch_size rm self =
    match import_chunks data_type rm 0 (csv_chunks (read batch_size)) 0
            (started path data_type batch_size self) with
    | (Raise e, mid) => (Raise e, mid)
    | (Ok total, mid) =>
        match csv_error (read batch_size) with
        | Some e => (Raise e, mid)
        | None =>
            (Ok true,
             {| schema_sql := schema_sql mid; csv_files := csv_files mid;
                conn := commit (conn mid);
                trace := (trace mid ++ [Commit]) ++ [LogImported total data_type] |})
        end
    end.
Proof.
  intros Hf. unfold import_body. unfold_M. cbn [csv_files]. rewrite Hf.
  fold (started path data_type batch_size self).
  destruct (import_chunks _ _ _ _ _ _) as [[total|e] mid]; [|done].
  destruct (csv_error _); done.
Qed.

(** The whole method on an existing file: the handler turns an exception of
    the block into a rollback and [False]. *)
Lemma import_csv_data_unfold path data_type batch_size rm self :
  is_Some (csv_files self path) →
  import_csv_data path data_type batch_size rm self =
    match import_body path data_type batch_size rm self with
    | (Ok b, done) => (Ok b, done)
    | (Raise e, mid) =>
        (Ok false,
         {| schema_sql := schema_sql mid; csv_files := csv_files mid;
            conn := rollback (conn mid);
            trace := (trace mid ++ [LogImportError e]) ++ [Rollback] |})
    end.
Proof.
  intros Hf. unfold import_csv_data, try_except.
  unfold mbind at 1, M_bind at 1, gets at 1.
  rewrite bool_decide_eq_true_2 by done. cbn [negb].
  destruct (import_body _ _ _ _ _) as [[b|e] s']; [done|].
  unfold_M. done.
Qed.

Lemma rollback_committed c c' :
  committed c' = committed c → rollback c' = rollback c.
Proof. unfold rollback. by intros ->. Qed.

Lemma rollback_unchanged c : clean c → rollback c = c.
Proof. unfold clean, rollback. destruct c; simpl. by intros ->. Qed.

(** C4. On an existing file, whatever the state of the connection: if the
    [try] block of [import_csv_data] raises at any point (reading, cleaning,
    classifying, inserting), the method returns False instead of raising and
    rolls back once, which leaves the connection at its last commit: the
    writes of the file are undone, and so are the writes that were pending
    when the import began, so that the state at the start of the import is
    restored when nothing was pending then; if the block does not raise,
    the method returns True and commits exactly once, after every batch of
    the file has been processed.  (Batch events are inserts and progress
    lines only, see [not_batch_commit] and [not_batch_rollback].) *)
Theorem C4_import_atomic_per_file path data_type batch_size rm self read :
  csv_files self path = Some read →
  atomic_import path data_type batch_size rm self read.
Proof.
  intros Hf. unfold atomic_import.
  set (start := started path data_type batch_size self).
  set (loop := import_chunks data_type rm 0 (csv_chunks (read batch_size)) 0 start).
  pose proof (import_chunks_batches data_type rm (csv_chunks (read batch_size)) 0 0 start)
    as (_ & _ & Hcom & evs & Htr & Hevs).
  rewrite import_csv_data_unfold by eauto.
  rewrite (import_body_unfold _ _ _ _ _ _ Hf).
  fold start loop in Hcom, Htr |- *.
  assert (∀ mid, committed (conn mid) = committed (conn self) →
            rollback (conn mid) = rollback (conn self) ∧
            (clean (conn self) → rollback (conn mid) = conn self)) as Hback.
  { intros mid Hc. split; [by apply rollback_committed|].
    intros Hclean. by apply rollback_clean. }
  destruct loop as [[total|e] mid] eqn:Hloop; simpl in *.
  - destruct (csv_error (read batch_size)) as [e|] eqn:Herr.
    + eexists _, evs. cbn. split; [reflexivity|]. simpl.
      destruct (Hback mid Hcom) as [Hr Hc]. split; [done|]. split; [done|].
      split; [|done]. rewrite Htr. by rewrite <- !app_assoc.
    + exists total, mid, evs. split_and!; try done.
      rewrite Htr. by rewrite <- !app_assoc.
  - eexists _, evs. cbn. split; [reflexivity|]. simpl.
    destruct (Hback mid Hcom) as [Hr Hc]. split; [done|]. split; [done|].
    split; [|done]. rewrite Htr. by rewrite <- !app_assoc.
Qed.

(** C5. For a path with no file behind it and any data kind,
    [import_csv_data] returns False (it does not raise); the connection, and
    so every table, is untouched; and the only thing that happens is the
    "CSV file not found" log line: no read of the file, no insert, no commit
    and no rollback. *)
Theorem C5_missing_file path data_type batch_size rm self :
  csv_files self path = None →
  ∃ self',
    import_csv_data path data_type batch_size rm self = (Ok false, self') ∧
    conn self' = conn self ∧
    trace self' = trace self ++ [LogCsvNotFound path].
Proof.
  intros Hf. unfold import_csv_data. unfold_M. rewrite Hf.
  rewrite bool_decide_eq_false_2 by (by intros [? ?]). cbn [negb].
  eexists. split; [reflexivity|]. done.
Qed.

(** *** A kind outside the four *)

Lemma convert_dates_total df : ∃ out, convert_dates df = Ok out.
Proof.
  unfold convert_dates, getitem, dropna, setitem.
  case_bool_decide as Hcol; [|eauto].
  cbn [mbind result_bind df_columns].
  rewrite filter_cons, filter_nil, decide_False by (intros Hn; by apply Hn).
  eauto.
Qed.

Lemma clean_data_unknown_kind data_type df :
  data_type ∉ known_kinds → ∃ out, clean_data df data_type = Ok out.
Proof.
  intros Hk. unfold clean_data, drop_missing.
  rewrite bool_decide_eq_false_2
    by (intros ->; apply Hk; apply list_elem_of_here).
  rewrite bool_decide_eq_false_2.
  - apply convert_dates_total.
  - intros Hin. apply Hk. by apply list_elem_of_further.
Qed.

Lemma insert_chunk_unknown_kind data_type chunk :
  data_type ∉ known_kinds → insert_chunk data_type chunk = mret tt.
Proof.
  intros Hk. unfold insert_chunk.
  assert (∀ k, k ∈ known_kinds → bool_decide (data_type = k) = false) as Hne.
  { intros k Hin. apply bool_decide_eq_false_2. by intros ->. }
  rewrite !Hne by (unfold known_kinds; repeat first
    [apply list_elem_of_here | apply list_elem_of_further]).
  done.
Qed.

Lemma map_regions_unknown_kind data_type rm chunk :
  data_type ∉ known_kinds → map_regions data_type rm chunk = Ok chunk.
Proof.
  intros Hk. unfold map_regions.
  rewrite (bool_decide_eq_false_2 (data_type = "floats"))
    by (intros ->; apply Hk, list_elem_of_here).
  by rewrite andb_false_r.
Qed.

Lemma import_chunk_unknown_kind data_type rm chunk_num chunk total s :
  data_type ∉ known_kinds →
  ∃ s' evs,
    import_chunk data_type rm chunk_num chunk total s
      = (Ok (total + cleaned_len data_type chunk), s') ∧
    csv_files s' = csv_files s ∧ conn s' = conn s ∧
    trace s' = trace s ++ evs ∧ Forall progress_event evs.
Proof.
  intros Hk. rewrite import_chunk_unfold. unfold cleaned_len.
  destruct (clean_data_unknown_kind _ chunk Hk) as [out ->].
  rewrite map_regions_unknown_kind, insert_chunk_unknown_kind by done.
  unfold_M. case_bool_decide.
  - eexists _, [LogProcessed _]. split; [reflexivity|]. simpl.
    split_and!; try done. by constructor.
  - eexists _, []. split; [reflexivity|]. simpl. rewrite app_nil_r. done.
Qed.

Lemma import_chunks_unknown_kind data_type rm chunks :
  data_type ∉ known_kinds →
  ∀ chunk_num total s,
  ∃ s' evs,
    import_chunks data_type rm chunk_num chunks total s
      = (Ok (total + cleaned_total data_type chunks), s') ∧
    csv_files s' = csv_files s ∧ conn s' = conn s ∧
    trace s' = trace s ++ evs ∧ Forall progress_event evs.
Proof.
  intros Hk. induction chunks as [|chunk chunks IH]; intros chunk_num total s;
    cbn [import_chunks cleaned_total foldr].
  - exists s, []. rewrite Z.add_0_r, app_nil_r. done.
  - destruct (import_chunk_unknown_kind _ rm chunk_num chunk total s Hk)
      as (s1 & evs1 & Hrun1 & Hf1 & Hc1 & Ht1 & He1).
    destruct (IH (chunk_num + 1) (total + cleaned_len data_type chunk) s1)
      as (s2 & evs2 & Hrun2 & Hf2 & Hc2 & Ht2 & He2).
    exists s2, (evs1 ++ evs2). unfold mbind, M_bind. rewrite Hrun1, Hrun2.
    fold (cleaned_total data_type chunks).
    split; [by rewrite Z.add_assoc|].
    split_and!; try congruence.
    + by rewrite Ht2, Ht1, app_assoc.
    + by apply Forall_app.
Qed.

(** C9. For a data kind outside floats, temperature, salinity and oxygen
    and a file that exists and reads without error, [import_csv_data]
    returns True; the tables the connection sees are unchanged; the total
    it reports is the sum of the cleaned batches' lengths; and apart from
    progress lines nothing happens between the read and the commit: no
    [executemany] is issued. *)
Theorem C9_unknown_kind_import path data_type batch_size rm self read :
  data_type ∉ known_kinds →
  csv_files self path = Some read →
  csv_error (read batch_size) = None →
  ∃ self' evs,
    import_csv_data path data_type batch_size rm self = (Ok true, self') ∧
    current (conn self') = current (conn self) ∧
    trace self' =
      trace (started path data_type batch_size self) ++ evs ++
      [ Commit;
        LogImported (cleaned_total data_type (csv_chunks (read batch_size)))
                    data_type ] ∧
    Forall progress_event evs.
Proof.
  intros Hk Hf Herr. rewrite import_csv_data_unfold by eauto.
  rewrite (import_body_unfold _ _ _ _ _ _ Hf).
  destruct (import_chunks_unknown_kind data_type rm (csv_chunks (read batch_size)) Hk
              0 0 (started path data_type batch_size self))
    as (mid & evs & -> & _ & Hc & Ht & He).
  rewrite Herr. eexists _, evs. split; [reflexivity|]. simpl.
  rewrite Hc, Ht. split_and!; try done.
  rewrite Z.add_0_l. cbn [started trace]. by rewrite <- !app_assoc.
Qed.

(** *** The basic schema *)

Lemma setup_database_fallback self :
  schema_sql self = None →
  (∀ table, table ∈ ["argo_floats"; "temperature_data"; "salinity_data"; "oxygen_data"] →
            current (conn self) !! table = None) →
  ∃ self', setup_database self = (Ok tt, self') ∧
           clean (conn self') ∧
           fallback_in_effect (current (conn self')).
Proof.
  intros Hs Hnone.
  unfold setup_database, try_except, read_schema, create_basic_schema. unfold_M.
  rewrite Hs. cbn. eexists. split; [reflexivity|]. split; [done|]. simpl.
  unfold basic_schema, create_table_if_not_exists.
  rewrite (Hnone "argo_floats") by (repeat first [apply list_elem_of_here | apply list_elem_of_further]).
  rewrite lookup_insert_ne by done.
  rewrite (Hnone "temperature_data") by (repeat first [apply list_elem_of_here | apply list_elem_of_further]).
  repeat split.
  - eexists. rewrite lookup_insert_ne by done. rewrite lookup_insert_eq. done.
  - eexists. rewrite lookup_insert_eq. done.
  - rewrite !lookup_insert_ne by done. apply Hnone.
    repeat first [apply list_elem_of_here | apply list_elem_of_further].
  - rewrite !lookup_insert_ne by done. apply Hnone.
    repeat first [apply list_elem_of_here | apply list_elem_of_further].
Qed.

(** The columns the insert statements name and the basic tables lack. *)
Lemma fallback_missing_columns :
  filter (λ c, c ∉ cd_name <$> basic_argo_floats) (ins_columns insert_floats)
    = ["platform_number"; "cycle_number"] ∧
  filter (λ c, c ∉ cd_name <$> basic_temperature_data) (ins_columns insert_temperature)
    = ["quality_flag"; "pressure_dbar"].
Proof. split; vm_compute; reflexivity. Qed.

Lemma prepare_fallback db st :
  fallback_in_effect db →
  st ∈ [insert_floats; insert_temperature; insert_salinity; insert_oxygen] →
  ∃ msg, prepare db st = Raise (OperationalError msg).
Proof.
  intros ((ta & Ha & Hca) & (tt & Ht & Hct) & Hs & Ho) Hst.
  apply list_elem_of_In in Hst. simpl in Hst.
  destruct Hst as [<-|[<-|[<-|[<-|[]]]]]; unfold prepare; simpl.
  - rewrite Ha. unfold column_names. rewrite Hca. vm_compute. eauto.
  - rewrite Ht. unfold column_names. rewrite Hct. vm_compute. eauto.
  - rewrite Hs. eauto.
  - rewrite Ho. eauto.
Qed.

Lemma conn_executemany_fallback st data s :
  fallback_in_effect (current (conn s)) →
  st ∈ [insert_floats; insert_temperature; insert_salinity; insert_oxygen] →
  ∃ e s', conn_executemany st data s = (Raise e, s').
Proof.
  intros Hfb Hst. destruct (prepare_fallback _ _ Hfb Hst) as [msg Hp].
  unfold conn_executemany, executemany. unfold_M. cbn [conn]. rewrite Hp. eauto.
Qed.

Lemma insert_chunk_known data_type df :
  data_type ∈ known_kinds →
  ∃ st data,
    st ∈ [insert_floats; insert_temperature; insert_salinity; insert_oxygen] ∧
    insert_chunk data_type df = conn_executemany st data.
Proof.
  intros Hk. apply list_elem_of_In in Hk. simpl in Hk.
  destruct Hk as [<-|[<-|[<-|[<-|[]]]]].
  - exists insert_floats, (tuples float_tuple df).
    split; [|reflexivity]. apply list_elem_of_here.
  - exists insert_temperature, (tuples temperature_tuple df).
    split; [|reflexivity]. apply list_elem_of_further, list_elem_of_here.
  - exists insert_salinity, (tuples salinity_tuple df).
    split; [|reflexivity]. do 2 apply list_elem_of_further. apply list_elem_of_here.
  - exists insert_oxygen, (tuples oxygen_tuple df).
    split; [|reflexivity]. do 3 apply list_elem_of_further. apply list_elem_of_here.
Qed.

Lemma import_chunk_fallback data_type rm chunk_num chunk total s :
  data_type ∈ known_kinds →
  fallback_in_effect (current (conn s)) →
  ∃ e s', import_chunk data_type rm chunk_num chunk total s = (Raise e, s').
Proof.
  intros Hk Hfb. rewrite import_chunk_unfold.
  destruct (clean_data chunk data_type) as [cleaned|e]; [|eauto].
  destruct (map_regions data_type rm cleaned) as [mapped|e]; [|eauto].
  destruct (insert_chunk_known data_type mapped Hk) as (st & data & Hst & ->).
  destruct (conn_executemany_fallback st data s Hfb Hst) as (e & s' & ->).
  eauto.
Qed.

(** C10. With the basic schema in effect (what [setup_database] creates
    when the schema script is missing, see [setup_database_fallback]), an
    import of any of the four kinds from a file that yields at least one
    batch returns False and ends rolled back: the insert statement does not
    compile, see [prepare_fallback] and [fallback_missing_columns]. *)
Theorem C10_fallback_schema_import_fails path data_type batch_size rm self read :
  data_type ∈ known_kinds →
  fallback_in_effect (current (conn self)) →
  csv_files self path = Some read →
  csv_chunks (read batch_size) ≠ [] →
  ∃ self',
    import_csv_data path data_type batch_size rm self = (Ok false, self') ∧
    conn self' = rollback (conn self).
Proof.
  intros Hk Hfb Hf Hne. rewrite import_csv_data_unfold by eauto.
  rewrite (import_body_unfold _ _ _ _ _ _ Hf).
  pose proof (import_chunks_batches data_type rm (csv_chunks (read batch_size)) 0 0
                (started path data_type batch_size self)) as (_ & _ & Hcom & _).
  destruct (csv_chunks (read batch_size)) as [|chunk chunks]; [done|].
  cbn [import_chunks] in *. unfold mbind at 1, M_bind at 1 in Hcom.
  unfold mbind at 1, M_bind at 1.
  destruct (import_chunk_fallback data_type rm 0 chunk 0
              (started path data_type batch_size self) Hk Hfb) as (e & s1 & Hrun).
  rewrite Hrun in Hcom |- *. eexists. split; [reflexivity|]. simpl in *.
  unfold rollback. by rewrite Hcom.
Qed.

End importer.

(** ** The query layer *)

Section queries.
Import Sqlite OceanDb QuerySpec.
Context `{SqliteLib}.

Lemma table_map_known data_type :
  data_type ∈ measurement_kinds →
  table_map !! data_type = Some (data_type +:+ "_data").
Proof.
  intros Hk. apply list_elem_of_In in Hk. simpl in Hk.
  destruct Hk as [<-|[<-|[<-|[]]]]; reflexivity.
Qed.

Lemma table_map_unknown data_type :
  data_type ∉ measurement_kinds → table_map !! data_type = None.
Proof.
  intros Hk. unfold table_map. apply not_elem_of_list_to_map_1.
  intros Hin. apply Hk. exact Hin.
Qed.

Lemma find_table_raise db table e :
  find_table db table = Raise e → ∃ msg, e = OperationalError msg.
Proof. unfold find_table. destruct (db !! table); intros [= <-]; eauto. Qed.

Lemma require_column_raise t c e :
  require_column t c = Raise e → ∃ msg, e = OperationalError msg.
Proof. unfold require_column. case_bool_decide; intros [= <-]; eauto. Qed.

Lemma bind_int_raise n e :
  bind_int n = Raise e → ∃ msg, e = OverflowError msg.
Proof. unfold bind_int. case_bool_decide; intros [= <-]; eauto. Qed.

(** The query itself fails only the way sqlite3 does: on a missing table or
    column, or on a limit that is no 64-bit integer. *)
Lemma measurement_query_raise db table float_id start_date end_date region limit e :
  measurement_query db table float_id start_date end_date region limit = Raise e →
  (∃ msg, e = OperationalError msg) ∨ (∃ msg, e = OverflowError msg).
Proof.
  unfold measurement_query.
  destruct (find_table db table) as [td|e0] eqn:Htd; cbn [mbind result_bind];
    [|intros [= <-]; left; by eapply find_table_raise].
  destruct (require_column td "measurement_date") as [[]|e0] eqn:Hmd;
    cbn [mbind result_bind]; [|intros [= <-]; left; by eapply require_column_raise].
  destruct (if truthy_str float_id || truthy_str region
            then require_column td "float_id" else Ok ()) as [[]|e0] eqn:Hfid;
    cbn [mbind result_bind].
  2:{ intros [= <-]. left.
      destruct (_ || _); [by eapply require_column_raise|discriminate]. }
  destruct (truthy_str region).
  - destruct (find_table db "argo_floats") as [af|e0] eqn:Haf; cbn [mbind result_bind];
      [|intros [= <-]; left; by eapply find_table_raise].
    destruct (require_column af "float_id") as [[]|e0] eqn:H1;
      cbn [mbind result_bind]; [|intros [= <-]; left; by eapply require_column_raise].
    destruct (require_column af "ocean_region") as [[]|e0] eqn:H2;
      cbn [mbind result_bind]; [|intros [= <-]; left; by eapply require_column_raise].
    destruct (bind_int limit) as [n|e0] eqn:Hn; cbn [mbind result_bind];
      [discriminate|]. intros [= <-]. right. by eapply bind_int_raise.
  - cbn [mbind result_bind].
    destruct (bind_int limit) as [n|e0] eqn:Hn; cbn [mbind result_bind];
      [discriminate|]. intros [= <-]. right. by eapply bind_int_raise.
Qed.

(** C6. For a data_type outside temperature, salinity and oxygen,
    [get_measurement_data] raises ValueError("Invalid data type: ...") at
    once, whatever the other arguments and the store (so it returns nothing,
    in particular no empty list); for a data_type among the three it goes on
    to run the query on that kind's table, and never raises a ValueError:
    the only exceptions left are the store's own. *)
Theorem C6_unknown_measurement_kind self data_type float_id start_date end_date
    region limit :
  (data_type ∉ measurement_kinds →
     get_measurement_data self data_type float_id start_date end_date region limit
       = Raise (ValueError ("Invalid data type: " +:+ data_type))) ∧
  (data_type ∈ measurement_kinds →
     get_measurement_data self data_type float_id start_date end_date region limit
       = match measurement_query (current (conn self)) (data_type +:+ "_data")
                 float_id start_date end_date region limit with
         | Ok (columns, rows) => Ok (dict_zip columns <$> rows)
         | Raise e => Raise e
         end ∧
     ∀ msg, get_measurement_data self data_type float_id start_date end_date
              region limit ≠ Raise (ValueError msg)).
Proof.
  split; intros Hk; unfold get_measurement_data.
  - by rewrite table_map_unknown.
  - rewrite table_map_known by done. split; [done|].
    intros msg. destruct (measurement_query _ _ _ _ _ _ _) as [[cols rows]|e] eqn:Hq;
      [discriminate|].
    apply measurement_query_raise in Hq as [[msg' ->]|[msg' ->]]; discriminate.
Qed.

(** C8. For every data_type other than 'floats', every region and every
    state, [get_statistics] raises AttributeError: the name
    [get_measurement_statistics] it looks up is neither a method of the
    class nor an attribute of the instance. *)
Theorem C8_measurement_statistics_unreachable self data_type region :
  data_type ≠ "floats" →
  get_statistics self data_type region =
    Raise (AttributeError
      "'OceanDatabase' object has no attribute 'get_measurement_statistics'") ∧
  "get_measurement_statistics" ∉ class_methods ++ instance_attributes.
Proof.
  intros Hk. unfold get_statistics. rewrite bool_decide_eq_false_2 by done.
  split; [reflexivity|]. by apply (bool_decide_unpack _).
Qed.

Lemma remove_dups_constant (x : value) (l : list value) :
  l ≠ [] → Forall (λ y, y = x) l → remove_dups l = [x].
Proof.
  induction l as [|y l IH]; [done|]. intros _ Hall.
  apply Forall_cons in Hall as [-> Hall]. cbn [remove_dups].
  destruct l as [|z l].
  - case_decide as Hin; [by apply elem_of_nil in Hin|done].
  - case_decide as Hin.
    + by apply IH.
    + exfalso. apply Hin. apply Forall_cons in Hall as [-> _].
      apply list_elem_of_here.
Qed.

Lemma filter_filter_same {A} (P : A → Prop) `{∀ x, Decision (P x)} (l : list A) :
  filter P (filter P l) = filter P l.
Proof.
  induction l as [|x l IH]; [done|]. rewrite filter_cons.
  destruct (decide (P x)); [|done]. rewrite filter_cons, decide_True by done.
  by rewrite IH.
Qed.

Lemma insert_desc_elem {A} (key : A → value) x y l :
  y ∈ insert_desc key x l ↔ y = x ∨ y ∈ l.
Proof.
  induction l as [|z l IH]; cbn [insert_desc].
  - rewrite list_elem_of_singleton. rewrite elem_of_nil. tauto.
  - destruct (value_leb (key z) (key x)).
    + by rewrite elem_of_cons.
    + rewrite !elem_of_cons, IH. tauto.
Qed.

Lemma order_by_desc_elem {A} (key : A → value) y l :
  y ∈ order_by_desc key l ↔ y ∈ l.
Proof.
  unfold order_by_desc. induction l as [|x l IH]; [done|].
  cbn [foldr]. rewrite insert_desc_elem, elem_of_cons, IH. done.
Qed.

Lemma insert_desc_perm {A} (key : A → value) x l : insert_desc key x l ≡ₚ x :: l.
Proof.
  induction l as [|y l IH]; cbn [insert_desc]; [done|].
  destruct (value_leb (key y) (key x)); [done|]. rewrite IH. apply Permutation_swap.
Qed.

Lemma order_by_desc_perm {A} (key : A → value) l : order_by_desc key l ≡ₚ l.
Proof.
  unfold order_by_desc. induction l as [|x l IH]; [done|].
  cbn [foldr]. by rewrite insert_desc_perm, IH.
Qed.

Lemma group_keys_perm keys : group_keys keys ≡ₚ remove_dups keys.
Proof. unfold group_keys. by rewrite reverse_Permutation, order_by_desc_perm. Qed.

Lemma elem_of_group_keys keys g : g ∈ group_keys keys ↔ g ∈ keys.
Proof. by rewrite group_keys_perm, elem_of_remove_dups. Qed.

Lemma NoDup_group_keys keys : NoDup (group_keys keys).
Proof. rewrite group_keys_perm. apply NoDup_remove_dups. Qed.

Lemma group_keys_constant (x : value) (l : list value) :
  l ≠ [] → Forall (λ y, y = x) l → group_keys l = [x].
Proof.
  intros Hne Hall. unfold group_keys. by rewrite (remove_dups_constant x).
Qed.

Lemma float_statistics_query_ok self t region :
  float_table self t →
  float_statistics_query (current (conn self)) region =
    let rows := if truthy_str region
                then floats_in (t_rows t) (VStr (default "" region))
                else t_rows t in
    Ok (group_row rows <$> group_keys ((λ r, field r "ocean_region") <$> rows)).
Proof.
  intros (Ht & Hs & Hr). unfold float_statistics_query, find_table, require_column.
  rewrite Ht. cbn [mbind result_bind].
  rewrite !bool_decide_eq_true_2 by done. done.
Qed.

(** C7. With the float table in place: for a requested region (a non-empty
    string) [get_float_statistics] returns the bare dict of the three counts
    over the stored floats of that region, all three 0 when no row matches;
    with no region it returns a dict with the single key 'regions' holding
    one entry (region, total, active, inactive) per distinct stored
    region. *)
Theorem C7_float_statistics_shape self t :
  float_table self t →
  (∀ region, region ≠ "" →
     get_float_statistics self (Some region)
       = Ok (PDict (summary (floats_in (t_rows t) (VStr region)))) ∧
     (floats_in (t_rows t) (VStr region) = [] →
        get_float_statistics self (Some region)
          = Ok (PDict [ ("total_floats", PInt 0); ("active_floats", PInt 0);
                        ("inactive_floats", PInt 0) ]))) ∧
  (∃ regions,
     get_float_statistics self None
       = Ok (PDict [ ("regions", PList (region_entry (t_rows t) <$> regions)) ]) ∧
     NoDup regions ∧
     ∀ g, g ∈ regions ↔ ∃ r, r ∈ t_rows t ∧ field r "ocean_region" = g).
Proof.
  intros Ht. split.
  - intros region Hne.
    assert (get_float_statistics self (Some region)
            = Ok (PDict (summary (floats_in (t_rows t) (VStr region))))) as Heq.
    { unfold get_float_statistics. rewrite (float_statistics_query_ok _ _ _ Ht).
      assert (truthy_str (Some region) = true) as ->.
      { unfold truthy_str. by rewrite bool_decide_eq_false_2. }
      cbn [mbind result_bind default from_option]. cbv zeta.
      change (id region) with region.
      destruct (floats_in (t_rows t) (VStr region)) as [|r rows'] eqn:Hrows; [done|].
      rewrite (group_keys_constant (VStr region)).
      - cbn [fmap list_fmap group_row fst snd]. unfold summary.
        fold (floats_in (r :: rows') (VStr region)).
        assert (floats_in (r :: rows') (VStr region) = r :: rows') as ->.
        { rewrite <- Hrows. unfold floats_in. apply filter_filter_same. }
        done.
      - done.
      - apply list.Forall_forall. intros g (r0 & -> & Hin)%list_elem_of_fmap.
        rewrite <- Hrows in Hin. unfold floats_in in Hin.
        by apply list_elem_of_filter in Hin as [? _]. }
    split; [done|]. intros Hnone. by rewrite Heq, Hnone.
  - exists (group_keys ((λ r, field r "ocean_region") <$> t_rows t)).
    split_and!.
    + unfold get_float_statistics. rewrite (float_statistics_query_ok _ _ _ Ht).
      cbn [truthy_str mbind result_bind]. cbv zeta. do 4 f_equal.
      rewrite <- list_fmap_compose. done.
    + apply NoDup_group_keys.
    + intros g. rewrite elem_of_group_keys, list_elem_of_fmap.
      split; intros (r & ? & ?); eauto.
Qed.

End queries.

(** ** Re-import *)

Section reimport.
Import Pandas Sqlite OceanDb ValidatorSpec ImporterSpec QuerySpec UpsertSpec.
Import ReimportSpec TwiceSpec StoreSpec.
Context `{PandasLib} `{SqliteLib}.

Lemma occ_app k l1 l2 : occ k (l1 ++ l2) = (occ k l1 + occ k l2)%nat.
Proof. unfold occ. by rewrite filter_app, length_app. Qed.

Lemma same_schema_trans t1 t2 t3 :
  same_schema t1 t2 → same_schema t2 t3 → same_schema t1 t3.
Proof. intros [? ?] [? ?]. split; congruence. Qed.

Lemma setitem_row df c col ir :
  ir ∈ df_rows (setitem df c col) →
  ∃ r0 v, (ir.1, r0) ∈ df_rows df ∧ ir.2 = <[c := v]> r0.
Proof.
  unfold setitem. cbn [df_rows]. intros Hin.
  apply list_elem_of_lookup in Hin as [n Hn].
  apply lookup_zip_with_Some in Hn as ([i r0] & v & -> & Hr & _).
  exists r0, v. split; [|done]. by eapply list_elem_of_lookup_2.
Qed.

(** The connection an import leaves behind, by what the loop did. *)
Lemma import_csv_data_conn path data_type batch_size rm s read :
  csv_files s path = Some read →
  let loop := import_chunks data_type rm 0 (csv_chunks (read batch_size)) 0
                (started path data_type batch_size s) in
  let s' := (import_csv_data path data_type batch_size rm s).2 in
  csv_files s' = csv_files s ∧
  committed (conn loop.2) = committed (conn s) ∧
  conn s' = if is_ok loop.1 && bool_decide (csv_error (read batch_size) = None)
            then commit (conn loop.2) else rollback (conn loop.2).
Proof.
  intros Hf loop s'. subst s'.
  pose proof (import_chunks_batches data_type rm (csv_chunks (read batch_size)) 0 0
                (started path data_type batch_size s)) as (_ & Hfiles & Hcom & _).
  fold loop in Hfiles, Hcom.
  rewrite import_csv_data_unfold by eauto.
  rewrite (import_body_unfold _ _ _ _ _ _ Hf). fold loop.
  destruct loop as [[total|e] mid]; cbn [fst snd is_ok andb] in *; [|done].
  destruct (csv_error (read batch_size)); done.
Qed.

Lemma import_csv_data_missing path data_type batch_size rm s :
  csv_files s path = None →
  let s' := (import_csv_data path data_type batch_size rm s).2 in
  csv_files s' = csv_files s ∧ conn s' = conn s.
Proof.
  intros Hf. unfold import_csv_data. unfold_M. rewrite Hf.
  by rewrite bool_decide_eq_false_2 by (by intros [? ?]).
Qed.

Lemma insert_chunk_kind data_type df :
  insert_chunk data_type df =
    match kind_insert data_type with
    | Some (st, tuple) => conn_executemany st (tuples tuple df)
    | None => mret tt
    end.
Proof. unfold insert_chunk, kind_insert. by repeat case_bool_decide. Qed.

Lemma prepare_Ok db st t : prepare db st = Ok t → db !! ins_table st = Some t.
Proof.
  unfold prepare. destruct (db !! ins_table st); [|done].
  destruct (filter _ _); [|done]. by intros [= ->].
Qed.

Lemma conn_executemany_conn st data s :
  conn (conn_executemany st data s).2 = (executemany st data (conn s)).2.
Proof.
  unfold conn_executemany. unfold_M. cbn [conn].
  by destruct (executemany st data (conn s)) as [[[]|e] c'].
Qed.

Lemma emit_conn e s : conn (emit e s).2 = conn s.
Proof. done. Qed.

(** *** Rows that reach the insert with a timestamp *)

Lemma clean_data_dated data_type chunk out ir :
  data_type ∈ measurement_kinds ∨
    (data_type = "floats" ∧ "measurement_date" ∈ df_columns chunk) →
  clean_data chunk data_type = Ok out → ir ∈ df_rows out → has_timestamp ir.2.
Proof.
  intros Hk Hc Hin. unfold clean_data in Hc. inv_result.
  destruct (convert_dates_row _ _ _ Hc Hin) as (r0 & Hin0 & _).
  eapply convert_dates_timestamp; [|exact Hc|exact Hin].
  destruct Hk as [Hk|[-> Hcol]].
  - by destruct (drop_missing_measurement _ _ _ _ Hk E Hin0) as [? _].
  - by rewrite (drop_missing_columns _ _ _ E).
Qed.

Lemma map_regions_dated data_type rm cleaned mapped :
  map_regions data_type rm cleaned = Ok mapped →
  (∀ ir, ir ∈ df_rows cleaned → has_timestamp ir.2) →
  (∀ ir, ir ∈ df_rows mapped → has_timestamp ir.2) ∧
  length (df_rows mapped) = length (df_rows cleaned).
Proof.
  unfold map_regions. intros Hm Hall.
  destruct (truthy_mapping rm && bool_decide (data_type = "floats"));
    [|by injection Hm as <-].
  assert (∀ col ir, ir ∈ df_rows (setitem cleaned "ocean_region" col) →
                    has_timestamp ir.2) as Hset.
  { intros col ir (r0 & v & Hin0 & ->)%setitem_row.
    destruct (Hall _ Hin0) as [t Ht]. exists t. by rewrite lookup_insert_ne. }
  unfold add_ocean_region in Hm. destruct (df_rows cleaned) as [|p rows] eqn:Hrows.
  - destruct frame_setitem_raises; [discriminate|]. injection Hm as <-.
    split; [apply Hset|]. unfold setitem. cbn [df_rows]. by rewrite Hrows.
  - inv_result. split; [apply Hset|].
    apply mapMr_Forall2, Forall2_length in E.
    unfold setitem. cbn [df_rows]. rewrite Hrows.
    by rewrite length_zip_with_l_eq.
Qed.

Lemma mapMr_bind_param_time params t :
  VTime t ∈ params → ∃ msg, mapMr bind_param params = Raise (ProgrammingError msg).
Proof.
  induction params as [|v params IH]; intros Hin; [by apply elem_of_nil in Hin|].
  cbn [mapMr]. destruct v; cbn [bind_param mbind result_bind]; [| | | |by eexists].
  all: apply elem_of_cons in Hin as [Heq|Hin]; [discriminate|].
  all: destruct (IH Hin) as [msg ->]; by eexists.
Qed.

Lemma kind_tuple_dated data_type st tuple r :
  kind_insert data_type = Some (st, tuple) →
  has_timestamp r → ∃ t, VTime t ∈ tuple r.
Proof.
  intros Hk [t Ht]. exists t. unfold kind_insert in Hk.
  repeat case_bool_decide; try discriminate; injection Hk as <- <-;
    unfold float_tuple, temperature_tuple, salinity_tuple, oxygen_tuple, row_get;
    rewrite Ht; cbn [default from_option];
    repeat first [apply list_elem_of_here | apply list_elem_of_further].
Qed.

(** A call of [executemany] whose rows all carry a timestamp: the
    connection is left as it was, and the call returns only when there is
    no row. *)
Lemma executemany_dated st data c :
  (∀ params, params ∈ data → ∃ t, VTime t ∈ params) →
  (executemany st data c).2 = c ∧
  (is_ok (executemany st data c).1 = true → data = []).
Proof.
  intros Hall. unfold executemany.
  destruct (prepare (current c) st) as [t|e] eqn:Hp; [|done].
  apply prepare_Ok in Hp.
  assert ({| committed := committed c;
             current := <[ins_table st := t]> (current c) |} = c) as Hsame.
  { rewrite insert_id by done. by destruct c. }
  destruct data as [|params data].
  - cbn. done.
  - destruct (Hall params) as [t0 Ht0]; [apply list_elem_of_here|].
    destruct (mapMr_bind_param_time _ _ Ht0) as [msg Hb].
    cbn [forM_]. unfold mbind, M_bind, execute_insert. rewrite Hb. cbn. done.
Qed.

Lemma insert_chunk_dated data_type df s :
  data_type ∈ known_kinds →
  (∀ ir, ir ∈ df_rows df → has_timestamp ir.2) →
  conn (insert_chunk data_type df s).2 = conn s ∧
  (is_ok (insert_chunk data_type df s).1 = true → df_rows df = []).
Proof.
  intros Hk Hall. rewrite insert_chunk_kind.
  destruct (kind_insert data_type) as [[st tuple]|] eqn:Hki.
  2:{ exfalso. unfold kind_insert in Hki. apply list_elem_of_In in Hk.
      cbn in Hk. destruct Hk as [<-|[<-|[<-|[<-|[]]]]]; discriminate. }
  assert (∀ params, params ∈ tuples tuple df → ∃ t, VTime t ∈ params) as Hd.
  { intros params Hin. apply list_elem_of_In, in_map_iff in Hin as (ir & <- & Hin).
    eapply kind_tuple_dated; [done|]. by apply Hall, list_elem_of_In. }
  destruct (executemany_dated st _ (conn s) Hd) as [Hc Hok].
  rewrite conn_executemany_conn. split; [done|].
  unfold conn_executemany. unfold_M. cbn [conn].
  destruct (executemany st (tuples tuple df) (conn s)) as [[[]|e] c']; [|done].
  intros _. specialize (Hok eq_refl). unfold tuples in Hok.
  by apply map_eq_nil in Hok.
Qed.

Lemma dated_known data_type chunks : dated data_type chunks → data_type ∈ known_kinds.
Proof.
  intros [Hk|[-> _]]; [|apply list_elem_of_here].
  apply list_elem_of_further. exact Hk.
Qed.

(** One batch of such a file: the connection is left as it was, and the
    batch is processed without an exception only when no row of it passed
    cleaning. *)
Lemma import_chunk_dated data_type rm chunk_num chunk total s :
  dated data_type [chunk] →
  conn (import_chunk data_type rm chunk_num chunk total s).2 = conn s ∧
  ∀ total', (import_chunk data_type rm chunk_num chunk total s).1 = Ok total' →
            total' = total ∧ cleaned_len data_type chunk = 0.
Proof.
  intros Hd. pose proof (dated_known _ _ Hd) as Hk.
  rewrite import_chunk_unfold. unfold cleaned_len.
  destruct (clean_data chunk data_type) as [cleaned|e] eqn:Hc; [|done].
  assert (∀ ir, ir ∈ df_rows cleaned → has_timestamp ir.2) as Hall.
  { intros ir. apply (clean_data_dated data_type chunk); [|done].
    destruct Hd as [?|[-> Hcols]]; [by left|right]. split; [done|].
    by apply Forall_cons in Hcols as [? _]. }
  destruct (map_regions data_type rm cleaned) as [mapped|e] eqn:Hm; [|done].
  destruct (map_regions_dated _ _ _ _ Hm Hall) as [Hall' Hlen].
  destruct (insert_chunk_dated data_type mapped s Hk Hall') as [Hconn Hok].
  destruct (insert_chunk data_type mapped s) as [[[]|e] s']; cbn [fst snd] in *;
    [|done].
  specialize (Hok eq_refl). split.
  - case_bool_decide; [|done]. by rewrite emit_conn.
  - intros total' [= <-]. unfold len. rewrite Hok in Hlen. cbn in Hlen.
    rewrite Hok. cbn. split; [lia|]. rewrite <- Hlen. done.
Qed.

Lemma import_chunks_dated data_type rm chunks :
  dated data_type chunks →
  ∀ chunk_num total s,
  conn (import_chunks data_type rm chunk_num chunks total s).2 = conn s ∧
  ∀ total', (import_chunks data_type rm chunk_num chunks total s).1 = Ok total' →
            total' = total ∧ cleaned_total data_type chunks = 0.
Proof.
  induction chunks as [|chunk chunks IH]; intros Hd chunk_num total s;
    cbn [import_chunks cleaned_total foldr].
  - split; [done|]. by intros total' [= <-].
  - assert (dated data_type [chunk] ∧ dated data_type chunks) as [Hd1 Hd2].
    { destruct Hd as [?|[-> Hcols]]; [by split; left|].
      apply Forall_cons in Hcols as [? ?]. split; right; split; try done.
      by constructor. }
    unfold mbind, M_bind.
    destruct (import_chunk_dated data_type rm chunk_num chunk total s Hd1)
      as [Hc1 Ht1].
    destruct (import_chunk data_type rm chunk_num chunk total s) as [[t1|e] s1];
      cbn [fst snd] in *; [|done].
    destruct (Ht1 t1 eq_refl) as [-> Hlen].
    destruct (IH Hd2 (chunk_num + 1) total s1) as [Hc2 Ht2].
    split; [congruence|]. intros total' Hrun.
    destruct (Ht2 total' Hrun) as [-> Htot].
    fold (cleaned_total data_type chunks). split; [done|lia].
Qed.

(** An import of such a file stores nothing: it returns True only when no
    row of the file passed cleaning, and the commit then keeps what the
    connection saw before; otherwise it returns False and rolls back. *)
Lemma dated_import_conn path data_type batch_size rm s read :
  csv_files s path = Some read →
  dated data_type (csv_chunks (read batch_size)) →
  ∃ b s',
    import_csv_data path data_type batch_size rm s = (Ok b, s') ∧
    csv_files s' = csv_files s ∧
    conn s' = (if b then commit (conn s) else rollback (conn s)) ∧
    (b = true → cleaned_total data_type (csv_chunks (read batch_size)) = 0).
Proof.
  intros Hf Hd.
  destruct (import_chunks_dated data_type rm _ Hd 0 0
              (started path data_type batch_size s)) as [Hconn Htot].
  pose proof (import_chunks_batches data_type rm (csv_chunks (read batch_size)) 0 0
                (started path data_type batch_size s)) as (_ & Hfiles & _).
  rewrite import_csv_data_unfold by eauto.
  rewrite (import_body_unfold _ _ _ _ _ _ Hf).
  destruct (import_chunks _ _ _ _ _ _) as [[total|e] mid]; cbn [fst snd] in *.
  - destruct (Htot total eq_refl) as [_ Hzero].
    destruct (csv_error (read batch_size)).
    + eexists false, _. split; [reflexivity|]. cbn. by rewrite Hconn.
    + eexists true, _. split; [reflexivity|]. cbn. by rewrite Hconn.
  - eexists false, _. split; [reflexivity|]. cbn. by rewrite Hconn.
Qed.

Lemma commit_clean c : clean c → commit c = c.
Proof. unfold clean, commit. destruct c; simpl. by intros ->. Qed.

(** C3 (what the code does on a file with dates).  [clean_data] turns every
    measurement_date into a pandas Timestamp, which sqlite3 cannot bind, so
    the first row handed to [executemany] raises.  On a connection without
    pending writes, for a measurement file or a floats file with a
    measurement_date column: one import and two imports both leave the
    connection, and with it the row count of every table, exactly as it was
    before; and whenever at least one row of the file passes cleaning, both
    imports return False.  The second import of a temperature file thus
    adds no second copy of the rows, and the first one stores none. *)
Theorem C3_dated_reimport_stores_nothing path data_type batch_size rm s read :
  csv_files s path = Some read →
  dated data_type (csv_chunks (read batch_size)) →
  clean (conn s) →
  conn (once path data_type batch_size rm s) = conn s ∧
  conn (twice path data_type batch_size rm s) = conn s ∧
  (∀ table, stored table (once path data_type batch_size rm s) = stored table s ∧
            stored table (twice path data_type batch_size rm s) = stored table s) ∧
  (0 < cleaned_total data_type (csv_chunks (read batch_size)) →
     (import_csv_data path data_type batch_size rm s).1 = Ok false ∧
     (import_csv_data path data_type batch_size rm
        (once path data_type batch_size rm s)).1 = Ok false).
Proof.
  intros Hf Hd Hclean.
  assert (∀ s0, csv_files s0 path = Some read → clean (conn s0) →
            csv_files (once path data_type batch_size rm s0) = csv_files s0 ∧
            conn (once path data_type batch_size rm s0) = conn s0 ∧
            (0 < cleaned_total data_type (csv_chunks (read batch_size)) →
               (import_csv_data path data_type batch_size rm s0).1 = Ok false))
    as Hone.
  { intros s0 Hf0 Hc0. unfold once.
    destruct (dated_import_conn path data_type batch_size rm s0 read Hf0 Hd)
      as (b & s' & -> & Hfiles & Hconn & Hb). cbn [fst snd].
    split; [done|]. split.
    - rewrite Hconn. destruct b; [by apply commit_clean|by apply rollback_unchanged].
    - intros Hpos. destruct b; [|done]. specialize (Hb eq_refl). lia. }
  destruct (Hone s Hf Hclean) as (Hf1 & Hc1 & Hr1).
  destruct (Hone (once path data_type batch_size rm s)) as (Hf2 & Hc2 & Hr2).
  { by rewrite Hf1. }
  { by rewrite Hc1. }
  unfold twice. rewrite Hc2, Hc1. split_and!; try done.
  - intros table. unfold stored. by rewrite Hc2, Hc1.
  - intros Hpos. split; [by apply Hr1|by apply Hr2].
Qed.

End reimport.

(** ** Worked examples *)

Section worked_examples.
Import Pandas Sqlite OceanDb ImporterSpec QuerySpec TwiceSpec Examples Worlds.

#[local] Existing Instance epoch_pandas.
#[local] Existing Instance plain_sqlite.

Lemma profiles_dated : dated "temperature" (csv_chunks (read_profiles 1000)).
Proof. left. by apply (bool_decide_unpack _). Qed.

Lemma C3_dated_reimport_stores_nothing_witness :
  csv_files full_world "profiles.csv" = Some read_profiles ∧
  dated "temperature" (csv_chunks (read_profiles 1000)) ∧
  clean (conn full_world) ∧
  conn (once "profiles.csv" "temperature" 1000 None full_world) = conn full_world ∧
  conn (twice "profiles.csv" "temperature" 1000 None full_world) = conn full_world ∧
  (∀ table,
     stored table (once "profiles.csv" "temperature" 1000 None full_world)
       = stored table full_world ∧
     stored table (twice "profiles.csv" "temperature" 1000 None full_world)
       = stored table full_world) ∧
  (0 < cleaned_total "temperature" (csv_chunks (read_profiles 1000)) →
     (import_csv_data "profiles.csv" "temperature" 1000 None full_world).1
       = Ok false ∧
     (import_csv_data "profiles.csv" "temperature" 1000 None
        (once "profiles.csv" "temperature" 1000 None full_world)).1 = Ok false).
Proof.
  split; [reflexivity|]. split; [exact profiles_dated|]. split; [reflexivity|].
  apply (C3_dated_reimport_stores_nothing "profiles.csv" "temperature" 1000 None
           full_world read_profiles).
  - reflexivity.
  - exact profiles_dated.
  - reflexivity.
Defined.

(** The temperature file of three good rows, imported once and twice into
    the empty full database: no row is stored either time. *)
Example temperature_file_stores_nothing :
  cleaned_total "temperature" (csv_chunks (read_profiles 1000)) = 3 ∧
  import_csv_data "profiles.csv" "temperature" 1000 None full_world
    = (Ok false,
       {| schema_sql := None; csv_files := disk; conn := conn full_world;
          trace := [ LogStart "temperature" "profiles.csv";
                     ReadCsv "profiles.csv" 1000;
                     Executemany "temperature_data" 3;
                     LogImportError
                       (ProgrammingError
                          "Error binding parameter: type 'Timestamp' is not supported");
                     Rollback ] |}) ∧
  stored "temperature_data" (once "profiles.csv" "temperature" 1000 None full_world)
    = 0%nat ∧
  stored "temperature_data" (twice "profiles.csv" "temperature" 1000 None full_world)
    = 0%nat.
Proof. repeat split; vm_compute; reflexivity. Qed.

(** The same file taken as a floats file. *)
Example floats_file_stores_nothing :
  cleaned_total "floats" (csv_chunks (read_profiles 1000)) = 3 ∧
  (import_csv_data "profiles.csv" "floats" 1000 None full_world).1 = Ok false ∧
  stored "argo_floats" (once "profiles.csv" "floats" 1000 None full_world) = 0%nat ∧
  stored "argo_floats" (twice "profiles.csv" "floats" 1000 None full_world) = 0%nat.
Proof. repeat split; vm_compute; reflexivity. Qed.

Lemma C4_import_atomic_per_file_witness :
  (csv_files full_world "positions.csv" = Some read_positions ∧
   atomic_import "positions.csv" "floats" 1000 None full_world read_positions) ∧
  (csv_files pending_world "truncated.csv" = Some read_truncated ∧
   atomic_import "truncated.csv" "floats" 1000 None pending_world read_truncated).
Proof.
  split.
  - split; [reflexivity|].
    apply (C4_import_atomic_per_file "positions.csv" "floats" 1000 None full_world
             read_positions); reflexivity.
  - split; [reflexivity|].
    apply (C4_import_atomic_per_file "truncated.csv" "floats" 1000 None pending_world
             read_truncated); reflexivity.
Defined.

(** A floats file without dates is stored and committed. *)
Example positions_file_committed :
  (import_csv_data "positions.csv" "floats" 1000 None full_world).1 = Ok true ∧
  trace (once "positions.csv" "floats" 1000 None full_world)
    = [ LogStart "floats" "positions.csv"; ReadCsv "positions.csv" 1000;
        Executemany "argo_floats" 2; LogProcessed 2; Commit;
        LogImported 2 "floats" ] ∧
  stored "argo_floats" (once "positions.csv" "floats" 1000 None full_world) = 2%nat ∧
  clean (conn (once "positions.csv" "floats" 1000 None full_world)).
Proof. repeat split; vm_compute; reflexivity. Qed.

(** The same rows from a file that breaks off are rolled back. *)
Example truncated_file_rolled_back :
  import_csv_data "truncated.csv" "floats" 1000 None full_world
    = (Ok false,
       {| schema_sql := None; csv_files := disk; conn := conn full_world;
          trace := [ LogStart "floats" "truncated.csv"; ReadCsv "truncated.csv" 1000;
                     Executemany "argo_floats" 2; LogProcessed 2;
                     LogImportError (ParserError "unexpected end of data");
                     Rollback ] |}).
Proof. vm_compute. reflexivity. Qed.

Lemma pending_floats_before : stored "argo_floats" pending_world = 2%nat.
Proof. vm_compute. reflexivity. Qed.

Lemma pending_floats_after :
  stored "argo_floats" (once "profiles.csv" "temperature" 1000 None pending_world)
    = 0%nat.
Proof. vm_compute. reflexivity. Qed.

Lemma pending_import_fails :
  (import_csv_data "profiles.csv" "temperature" 1000 None pending_world).1
    = Ok false.
Proof. vm_compute. reflexivity. Qed.

Lemma pending_world_file : csv_files pending_world "profiles.csv" = Some read_profiles.
Proof. vm_compute. reflexivity. Qed.

(** The two floats that [insert_float_data] left pending are gone after an
    import that fails: the connection is not what it was when the import
    began. *)
Lemma C4_counterexample_pending_writes :
  csv_files pending_world "profiles.csv" = Some read_profiles ∧
  stored "argo_floats" pending_world = 2%nat ∧
  (import_csv_data "profiles.csv" "temperature" 1000 None pending_world).1
    = Ok false ∧
  stored "argo_floats" (once "profiles.csv" "temperature" 1000 None pending_world)
    = 0%nat ∧
  conn (once "profiles.csv" "temperature" 1000 None pending_world)
    ≠ conn pending_world.
Proof.
  split; [exact pending_world_file|]. split; [exact pending_floats_before|].
  split; [exact pending_import_fails|]. split; [exact pending_floats_after|].
  intros Heq. pose proof pending_floats_before as Hbefore.
  pose proof pending_floats_after as Hafter.
  unfold stored in Hbefore, Hafter. rewrite Heq in Hafter.
  rewrite Hbefore in Hafter. discriminate.
Qed.

Lemma C5_missing_file_witness :
  csv_files full_world "nowhere.csv" = None ∧
  ∃ self',
    import_csv_data "nowhere.csv" "salinity" 1000 None full_world = (Ok false, self') ∧
    conn self' = conn full_world ∧
    trace self' = trace full_world ++ [LogCsvNotFound "nowhere.csv"].
Proof.
  split; [reflexivity|].
  apply (C5_missing_file "nowhere.csv" "salinity" 1000 None full_world).
  reflexivity.
Defined.

Lemma pressure_unknown : "pressure" ∉ known_kinds.
Proof. by apply (bool_decide_unpack _). Qed.

Lemma C9_unknown_kind_import_witness :
  ("pressure" ∉ known_kinds) ∧
  csv_files full_world "profiles.csv" = Some read_profiles ∧
  csv_error (read_profiles 1000) = None ∧
  ∃ self' evs,
    import_csv_data "profiles.csv" "pressure" 1000 None full_world = (Ok true, self') ∧
    current (conn self') = current (conn full_world) ∧
    trace self' =
      trace (started "profiles.csv" "pressure" 1000 full_world) ++ evs ++
      [ Commit;
        LogImported (cleaned_total "pressure" (csv_chunks (read_profiles 1000)))
                    "pressure" ] ∧
    Forall progress_event evs.
Proof.
  split; [exact pressure_unknown|]. split; [reflexivity|]. split; [reflexivity|].
  apply (C9_unknown_kind_import "profiles.csv" "pressure" 1000 None full_world
           read_profiles).
  - exact pressure_unknown.
  - reflexivity.
  - reflexivity.
Defined.

Example unknown_kind_counts_three_rows :
  cleaned_total "pressure" (csv_chunks (read_profiles 1000)) = 3.
Proof. vm_compute. reflexivity. Qed.

Lemma fallback_world_schema :
  clean (conn fallback_world) ∧ fallback_in_effect (current (conn fallback_world)).
Proof.
  destruct (setup_database_fallback (world ∅)) as (self' & Hrun & Hclean & Hfb).
  - reflexivity.
  - intros table _. apply lookup_empty.
  - unfold fallback_world. rewrite Hrun. done.
Qed.

Lemma temperature_known : "temperature" ∈ known_kinds.
Proof. by apply (bool_decide_unpack _). Qed.

Lemma C10_fallback_schema_import_fails_witness :
  "temperature" ∈ known_kinds ∧
  fallback_in_effect (current (conn fallback_world)) ∧
  csv_files fallback_world "profiles.csv" = Some read_profiles ∧
  csv_chunks (read_profiles 1000) ≠ [] ∧
  ∃ self',
    import_csv_data "profiles.csv" "temperature" 1000 None fallback_world
      = (Ok false, self') ∧
    conn self' = rollback (conn fallback_world).
Proof.
  split; [exact temperature_known|]. split; [exact (proj2 fallback_world_schema)|].
  split; [reflexivity|]. split; [discriminate|].
  apply (C10_fallback_schema_import_fails "profiles.csv" "temperature" 1000 None
           fallback_world read_profiles).
  - exact temperature_known.
  - exact (proj2 fallback_world_schema).
  - reflexivity.
  - discriminate.
Defined.

Lemma C6_unknown_measurement_kind_witness :
  (("pressure" ∉ measurement_kinds) ∧
   get_measurement_data full_world "pressure" None None None None 1000
     = Raise (ValueError "Invalid data type: pressure")) ∧
  ("temperature" ∈ measurement_kinds ∧
   get_measurement_data stocked_world "temperature" None None None None 1000 = Ok []).
Proof.
  assert ("pressure" ∉ measurement_kinds) as Hp by (by apply (bool_decide_unpack _)).
  assert ("temperature" ∈ measurement_kinds) as Ht by (by apply (bool_decide_unpack _)).
  split.
  - split; [exact Hp|].
    exact (proj1 (C6_unknown_measurement_kind full_world "pressure"
                    None None None None 1000) Hp).
  - split; [exact Ht|].
    rewrite (proj1 (proj2 (C6_unknown_measurement_kind stocked_world "temperature"
                             None None None None 1000) Ht)).
    vm_compute. reflexivity.
Defined.

Lemma stocked_float_table : float_table stocked_world stocked_floats.
Proof.
  split; [vm_compute; reflexivity|].
  split; apply (bool_decide_unpack _); vm_compute; exact I.
Qed.

Lemma C7_float_statistics_shape_witness :
  float_table stocked_world stocked_floats ∧
  get_float_statistics stocked_world (Some "Arctic Ocean")
    = Ok (PDict [ ("total_floats", PInt 1); ("active_floats", PInt 1);
                  ("inactive_floats", PInt 0) ]) ∧
  get_float_statistics stocked_world (Some "Indian Ocean")
    = Ok (PDict [ ("total_floats", PInt 0); ("active_floats", PInt 0);
                  ("inactive_floats", PInt 0) ]) ∧
  ∃ regions,
    get_float_statistics stocked_world None
      = Ok (PDict [ ("regions",
                     PList (region_entry (t_rows stocked_floats) <$> regions)) ]) ∧
    NoDup regions ∧
    ∀ g, g ∈ regions ↔ ∃ r, r ∈ t_rows stocked_floats ∧ field r "ocean_region" = g.
Proof.
  pose proof (C7_float_statistics_shape stocked_world stocked_floats
                stocked_float_table) as [Hone Hall].
  split; [exact stocked_float_table|]. split_and!.
  - rewrite (proj1 (Hone "Arctic Ocean" ltac:(discriminate))).
    vm_compute. reflexivity.
  - apply (proj2 (Hone "Indian Ocean" ltac:(discriminate))).
    vm_compute. reflexivity.
  - exact Hall.
Defined.

Lemma C8_measurement_statistics_unreachable_witness :
  "temperature" ≠ "floats" ∧
  get_statistics stocked_world "temperature" (Some "Arctic Ocean") =
    Raise (AttributeError
      "'OceanDatabase' object has no attribute 'get_measurement_statistics'") ∧
  "get_measurement_statistics" ∉ class_methods ++ instance_attributes.
Proof.
  split; [discriminate|].
  apply (C8_measurement_statistics_unreachable stocked_world "temperature"
           (Some "Arctic Ocean")).
  discriminate.
Defined.

End worked_examples.

(** * Further properties of the code *)

(** ** The region classifier *)

Section region_extras.
Import Region RegionSpec.

Lemma between_true lo q hi :
  between lo (FFin q) hi = true →
  (inject_Z lo <= this q)%Q ∧ (this q <= inject_Z hi)%Q.
Proof.
  unfold between, int_le, le_int. rewrite andb_true_iff, !bool_decide_eq_true.
  done.
Qed.

Lemma between_false lo q hi :
  between lo (FFin q) hi = false →
  (this q < inject_Z lo)%Q ∨ (inject_Z hi < this q)%Q.
Proof.
  unfold between, int_le, le_int. rewrite andb_false_iff, !bool_decide_eq_false.
  unfold Qcle. cbn [this Qc_of_Z]. intros [Hn|Hn]; [left|right]; lra.
Qed.

Lemma int_le_true k q : int_le k (FFin q) = true → (inject_Z k <= this q)%Q.
Proof. unfold int_le. by rewrite bool_decide_eq_true. Qed.

Lemma int_le_false k q : int_le k (FFin q) = false → (this q < inject_Z k)%Q.
Proof.
  unfold int_le. rewrite bool_decide_eq_false. unfold Qcle. cbn [this Qc_of_Z].
  lra.
Qed.

Lemma le_int_true q k : le_int (FFin q) k = true → (this q <= inject_Z k)%Q.
Proof. unfold le_int. by rewrite bool_decide_eq_true. Qed.

Lemma le_int_false q k : le_int (FFin q) k = false → (inject_Z k < this q)%Q.
Proof.
  unfold le_int. rewrite bool_decide_eq_false. unfold Qcle. cbn [this Qc_of_Z].
  lra.
Qed.

(** Case analysis on the five tests at a finite position, with each outcome
    turned into inequalities on rationals. *)
Ltac region_tests_finite p q :=
  unfold get_ocean_region;
  destruct (between (-30) (FFin p) 60) eqn:Hlat60;
  destruct (between (-180) (FFin q) (-30)) eqn:Hatl;
  destruct (between 30 (FFin q) 180) eqn:Hpac;
  destruct (between (-30) (FFin p) 30) eqn:Hlat30;
  destruct (between 20 (FFin q) 120) eqn:Hind;
  destruct (int_le 60 (FFin p)) eqn:Hnorth;
  destruct (le_int (FFin p) (-30)) eqn:Hsouth;
  cbn [andb];
  repeat match goal with
  | H : between _ _ _ = true |- _ => apply between_true in H as [? ?]
  | H : between _ _ _ = false |- _ => apply between_false in H
  | H : int_le _ _ = true |- _ => apply int_le_true in H
  | H : int_le _ _ = false |- _ => apply int_le_false in H
  | H : le_int _ _ = true |- _ => apply le_int_true in H
  | H : le_int _ _ = false |- _ => apply le_int_false in H
  end.

Ltac to_Q :=
  unfold valid_position, within in *;
  unfold Qcle, Qclt in *; cbn [this Qc_of_Z] in *; unfold inject_Z in *.

Ltac split_ors :=
  repeat match goal with
  | H : _ ∧ _ |- _ => destruct H
  | H : _ ∨ _ |- _ => destruct H
  end.

Ltac solve_Q := to_Q; split_ors; first [lra | exfalso; lra].

(** X1. On a position that passes [clean_data] (latitude in [-90,90],
    longitude in [-180,180]) the label is "Unknown" exactly in the block
    -30 < lat < 60, -30 < lon < 30 between the Atlantic and the Pacific box,
    less the part of it the Indian test reaches (lat <= 30 and lon >= 20). *)
Theorem X1_unknown_region_valid_positions p q :
  valid_position p q →
  get_ocean_region (FFin p) (FFin q) = "Unknown" ↔
  (Qc_of_Z (-30) < p)%Qc ∧ (p < Qc_of_Z 60)%Qc ∧
  (Qc_of_Z (-30) < q)%Qc ∧ (q < Qc_of_Z 30)%Qc ∧
  ¬ ((p ≤ Qc_of_Z 30)%Qc ∧ (Qc_of_Z 20 ≤ q)%Qc).
Proof.
  intros Hvalid. split.
  - region_tests_finite p q; try discriminate; intros _;
      to_Q; split_ors; repeat split; try lra; intros [? ?]; lra.
  - intros (? & ? & ? & ? & Hn).
    region_tests_finite p q; try reflexivity; exfalso;
      to_Q; split_ors; try lra; apply Hn; split; lra.
Qed.


(** Case analysis when at most one coordinate is finite. *)
Ltac region_tests_partial :=
  lazymatch goal with
  | |- context [get_ocean_region (FFin _) (FFin _)] => fail
  | H : context [get_ocean_region (FFin _) (FFin _)] |- _ => fail
  | _ => idtac
  end;
  unfold get_ocean_region, between, int_le, le_int;
  repeat case_bool_decide; cbn [andb negb].

(** X2. The Indian test comes after the Pacific one, which takes every
    longitude from 30 on: the label is "Indian Ocean" exactly for finite
    coordinates with -30 <= lat <= 30 and 20 <= lon < 30. *)
Theorem X2_indian_ocean_strip lat lon :
  get_ocean_region lat lon = "Indian Ocean" ↔
  ∃ p q, lat = FFin p ∧ lon = FFin q ∧ within (-30) p 30 ∧
         (Qc_of_Z 20 ≤ q)%Qc ∧ (q < Qc_of_Z 30)%Qc.
Proof.
  split.
  - destruct lat as [|n1|p], lon as [|n2|q]; try destruct n1; try destruct n2;
      try (region_tests_partial; discriminate).
    region_tests_finite p q; try discriminate; intros _; exists p, q;
      to_Q; split_ors; repeat split; lra.
  - intros (p & q & Hlat & Hlon & ? & ? & ?). subst lat lon.
    region_tests_finite p q; try reflexivity; exfalso; solve_Q.
Qed.


(** X3. Every position of the Indian box (-30 <= lat <= 30,
    20 <= lon <= 120) with a longitude of 30 or more is labelled
    "Pacific Ocean". *)
Theorem X3_indian_box_mostly_pacific p q :
  within (-30) p 30 → within 30 q 120 →
  get_ocean_region (FFin p) (FFin q) = "Pacific Ocean".
Proof.
  intros ? ?. region_tests_finite p q; try reflexivity; exfalso; solve_Q.
Qed.

(** X4. Outside the latitude band [-30, 60] the longitude plays no part,
    whatever it is (a number, NaN or an infinity): north of 60 the label is
    "Arctic Ocean", south of -30 it is "Southern Ocean". *)
Theorem X4_polar_caps p lon :
  ¬ within (-30) p 60 →
  get_ocean_region (FFin p) lon
  = if bool_decide (Qc_of_Z 60 < p)%Qc then "Arctic Ocean" else "Southern Ocean".
Proof.
  intros Hout.
  assert ((Qc_of_Z 60 < p)%Qc ∨ (p < Qc_of_Z (-30))%Qc) as Hside.
  { destruct (Qclt_le_dec (Qc_of_Z 60) p) as [?|Hle]; [by left|right].
    apply Qcnot_le_lt. intros Hge. apply Hout. by split. }
  clear Hout. case_bool_decide as Hd.
  - clear Hside. destruct lon as [|n|q]; try destruct n.
    1-3: region_tests_partial; try reflexivity; exfalso; solve_Q.
    region_tests_finite p q; try reflexivity; exfalso; solve_Q.
  - destruct Hside as [?|Hs]; [done|]. clear Hd.
    destruct lon as [|n|q]; try destruct n.
    1-3: region_tests_partial; try reflexivity; exfalso; solve_Q.
    region_tests_finite p q; try reflexivity; exfalso; solve_Q.
Qed.

(** X5. On the parallels 60 and -30 themselves the boxes come before the
    polar tests: the label is Atlantic or Pacific wherever such a box
    reaches, and between the boxes it is "Arctic Ocean" at latitude 60 and,
    at latitude -30, "Indian Ocean" from longitude 20 on and
    "Southern Ocean" below. *)
Theorem X5_boundary_parallels p q :
  p = Qc_of_Z 60 ∨ p = Qc_of_Z (-30) →
  (within (-180) q (-30) → get_ocean_region (FFin p) (FFin q) = "Atlantic Ocean") ∧
  (within 30 q 180 → get_ocean_region (FFin p) (FFin q) = "Pacific Ocean") ∧
  ((Qc_of_Z (-30) < q)%Qc → (q < Qc_of_Z 30)%Qc →
   get_ocean_region (FFin p) (FFin q)
   = if bool_decide (p = Qc_of_Z 60) then "Arctic Ocean"
     else if bool_decide (Qc_of_Z 20 ≤ q)%Qc then "Indian Ocean"
     else "Southern Ocean").
Proof.
  intros Hp.
  assert (within 60 p 60 ∨ within (-30) p (-30)) as Hp'.
  { destruct Hp as [-> | ->]; [left|right]; split; apply Qcle_refl. }
  split_and!.
  - intros ?. region_tests_finite p q; try reflexivity; exfalso; solve_Q.
  - intros ?. region_tests_finite p q; try reflexivity; exfalso; solve_Q.
  - intros ? ?. case_bool_decide as Hd.
    + assert (within 60 p 60) as Hp60 by (subst p; split; apply Qcle_refl).
      clear Hp Hp' Hd.
      region_tests_finite p q; try reflexivity; exfalso; solve_Q.
    + assert (within (-30) p (-30)) as Hp30.
      { destruct Hp as [? | ->]; [done|]. split; apply Qcle_refl. }
      clear Hp Hp' Hd. case_bool_decide as Hq.
      * region_tests_finite p q; try reflexivity; exfalso; solve_Q.
      * apply Qcnot_le_lt in Hq.
        region_tests_finite p q; try reflexivity; exfalso; solve_Q.
Qed.

(** X6. Coordinates that are not numbers: with a NaN latitude nothing
    matches and the label is "Unknown" for every longitude; with a NaN
    longitude no box matches, so only the polar tests decide; an infinite
    latitude is polar for every longitude. *)
Theorem X6_region_of_missing_coordinate :
  (∀ lon, get_ocean_region FNan lon = "Unknown") ∧
  (∀ lat, get_ocean_region lat FNan
          = if int_le 60 lat then "Arctic Ocean"
            else if le_int lat (-30) then "Southern Ocean" else "Unknown") ∧
  (∀ neg lon, get_ocean_region (FInf neg) lon
              = if neg then "Southern Ocean" else "Arctic Ocean").
Proof.
  split_and!.
  - intros lon. unfold get_ocean_region, between. simpl. reflexivity.
  - intros lat. unfold get_ocean_region, between. simpl.
    by rewrite !andb_false_r.
  - intros neg lon. unfold get_ocean_region, between. by destruct neg.
Qed.

End region_extras.

(** ** The validator *)

Section cleaning.
Import Pandas ValidatorSpec CleaningSpec.
Context `{PandasLib}.

Lemma dropna_rows subset df out :
  dropna subset df = Ok out →
  df_rows out = filter (λ ir, forallb (λ c, notna (cell ir.2 c)) subset = true)
                       (df_rows df).
Proof. unfold dropna. destruct (filter _ subset); [|done]. by intros [= <-]. Qed.

Lemma dropna_Raise subset df e :
  dropna subset df = Raise e →
  ∃ c, e = KeyError c ∧ c ∈ subset ∧ c ∉ df_columns df.
Proof.
  unfold dropna. destruct (filter _ subset) as [|c l] eqn:Hf; [done|].
  intros [= <-]. exists c. split; [done|].
  assert (c ∈ filter (λ c, c ∉ df_columns df) subset) as Hin
    by (rewrite Hf; apply list_elem_of_here).
  apply list_elem_of_filter in Hin. tauto.
Qed.

Lemma dropna_present subset df :
  (∀ c, c ∈ subset → c ∈ df_columns df) → ∃ out, dropna subset df = Ok out.
Proof.
  intros Hall. destruct (dropna subset df) as [out|e] eqn:Hd; [eauto|].
  apply dropna_Raise in Hd as (c & _ & Hc & Hn). by apply Hall in Hc.
Qed.

Lemma dropna_missing subset df c :
  c ∈ subset → c ∉ df_columns df →
  ∃ c', dropna subset df = Raise (KeyError c') ∧ c' ∈ subset ∧ c' ∉ df_columns df.
Proof.
  intros Hc Hn. destruct (dropna subset df) as [out|e] eqn:Hd.
  - unfold dropna in Hd.
    destruct (filter _ subset) as [|c' l] eqn:Hf; [|done].
    assert (c ∈ filter (λ c, c ∉ df_columns df) subset) as Hin
      by (by apply list_elem_of_filter).
    rewrite Hf in Hin. by apply elem_of_nil in Hin.
  - apply dropna_Raise in Hd as (c' & -> & ? & ?). eauto.
Qed.

Lemma mapMr_Raise {A B} (f : A → result B) xs e :
  mapMr f xs = Raise e → ∃ x, x ∈ xs ∧ f x = Raise e.
Proof.
  induction xs as [|x xs IH]; cbn [mapMr]; [done|].
  destruct (f x) as [y|e'] eqn:Hx; cbn [mbind result_bind].
  - destruct (mapMr f xs) as [ys|e'] eqn:Hxs; cbn [mbind result_bind]; [done|].
    intros [= <-]. destruct (IH eq_refl) as (x' & ? & ?).
    exists x'. split; [by apply list_elem_of_further|done].
  - intros [= <-]. exists x. split; [apply list_elem_of_here|done].
Qed.

Lemma mapMr_failing {A B} (f : A → result B) xs x e0 :
  x ∈ xs → f x = Raise e0 → (∀ y e, f y = Raise e → e = e0) →
  mapMr f xs = Raise e0.
Proof.
  intros Hin Hx Hsame. destruct (mapMr f xs) as [ys|e] eqn:Hm.
  - apply mapMr_Forall2 in Hm. apply list_elem_of_lookup in Hin as [n Hn].
    eapply Forall2_lookup_l in Hm as (y & _ & Hy); [|done]. congruence.
  - apply mapMr_Raise in Hm as (y & _ & Hy). f_equal. by eapply Hsame.
Qed.

Lemma ge_int_Raise v k e :
  ge_int v k = Raise e → text_cell v ∧ e = TypeError "'>=' not supported".
Proof. destruct v; simpl; try done; by intros [= <-]. Qed.

Lemma le_int_Raise v k e :
  le_int v k = Raise e → text_cell v ∧ e = TypeError "'<=' not supported".
Proof. destruct v; simpl; try done; by intros [= <-]. Qed.

Lemma ge_int_text v k :
  text_cell v → ge_int v k = Raise (TypeError "'>=' not supported").
Proof. by destruct v. Qed.

(** A range test fails on a missing column or on a text cell, and only
    then. *)
Lemma filter_range_Raise df c lo hi e :
  filter_range df c lo hi = Raise e →
  (e = KeyError c ∧ c ∉ df_columns df) ∨
  ∃ msg ir, e = TypeError msg ∧ ir ∈ df_rows df ∧ text_cell (cell ir.2 c).
Proof.
  unfold filter_range, getitem. case_bool_decide as Hc; cbn [mbind result_bind].
  - destruct (mapMr (λ v, ge_int v lo) _) as [ge|e1] eqn:Hge; cbn [mbind result_bind].
    + destruct (mapMr (λ v, le_int v hi) _) as [le|e2] eqn:Hle;
        cbn [mbind result_bind]; [done|].
      intros [= <-]. right.
      apply mapMr_Raise in Hle as (v & Hv & Hr).
      apply list_elem_of_fmap in Hv as (ir & -> & Hin).
      apply le_int_Raise in Hr as [Ht ->]. eauto.
    + intros [= <-]. right.
      apply mapMr_Raise in Hge as (v & Hv & Hr).
      apply list_elem_of_fmap in Hv as (ir & -> & Hin).
      apply ge_int_Raise in Hr as [Ht ->]. eauto.
  - intros [= <-]. by left.
Qed.

Lemma filter_range_text df c lo hi ir :
  c ∈ df_columns df → ir ∈ df_rows df → text_cell (cell ir.2 c) →
  filter_range df c lo hi = Raise (TypeError "'>=' not supported").
Proof.
  intros Hc Hin Ht. unfold filter_range, getitem.
  rewrite bool_decide_eq_true_2 by done. cbn [mbind result_bind].
  rewrite (mapMr_failing (λ v, ge_int v lo) _ (cell ir.2 c)
             (TypeError "'>=' not supported")); [reflexivity|..].
  - apply list_elem_of_fmap. by exists ir.
  - by apply ge_int_text.
  - intros y e He. by apply ge_int_Raise in He as [_ ->].
Qed.

Lemma sublist_elem {A} (l1 l2 : list A) x :
  l1 `sublist_of` l2 → x ∈ l1 → x ∈ l2.
Proof. intros Hs Hin. by eapply elem_of_sublist. Qed.

Lemma mask_rows_sublist {A} (xs : list A) mask : mask_rows xs mask `sublist_of` xs.
Proof.
  revert mask; induction xs as [|x xs IH]; intros [|b mask]; simpl;
    try apply sublist_nil_l.
  destruct b; [by apply sublist_skip|by apply sublist_cons].
Qed.

Lemma mask_rows_keeps {A} (xs : list A) mask n x :
  xs !! n = Some x → mask !! n = Some true → x ∈ mask_rows xs mask.
Proof.
  revert mask n; induction xs as [|y xs IH]; intros [|b mask] [|n]; simpl; try done.
  - intros [= ->] [= ->]. apply list_elem_of_here.
  - intros Hx Hm. destruct b; [apply list_elem_of_further|]; by eapply IH.
Qed.

Lemma filter_range_rows df c lo hi out :
  filter_range df c lo hi = Ok out → df_rows out `sublist_of` df_rows df.
Proof.
  unfold filter_range. intros Hf. inv_result. simpl. apply mask_rows_sublist.
Qed.

Lemma mapMr_length {A B} (f : A → result B) xs ys :
  mapMr f xs = Ok ys → length ys = length xs.
Proof. intros Hm%mapMr_Forall2. symmetry. by eapply Forall2_length. Qed.

(** A row whose cell is a number within the bounds passes the range test. *)
Lemma filter_range_keeps df c lo hi out ir q :
  filter_range df c lo hi = Ok out → ir ∈ df_rows df →
  cell ir.2 c = VFin q → (Qc_of_Z lo ≤ q)%Qc → (q ≤ Qc_of_Z hi)%Qc →
  ir ∈ df_rows out.
Proof.
  unfold filter_range, getitem. case_bool_decide; [|done].
  cbn [mbind result_bind]. intros Hf Hin Hc Hlo Hhi. inv_result. simpl.
  apply list_elem_of_lookup in Hin as [n Hn].
  apply mapMr_Forall2 in E, E0.
  eapply Forall2_lookup_l in E as (b1 & Hb1 & Hge);
    [|by rewrite list_lookup_fmap, Hn].
  eapply Forall2_lookup_l in E0 as (b2 & Hb2 & Hle);
    [|by rewrite list_lookup_fmap, Hn].
  simpl in Hge, Hle. rewrite Hc in Hge, Hle. simpl in Hge, Hle.
  rewrite bool_decide_eq_true_2 in Hge, Hle by done.
  injection Hge as <-. injection Hle as <-.
  eapply mask_rows_keeps; [done|].
  apply lookup_zip_with_Some. by exists true, true.
Qed.

Lemma cell_in_range r c lo hi :
  in_range r c lo hi →
  ∃ q, cell r c = VFin q ∧ (Qc_of_Z lo ≤ q)%Qc ∧ (q ≤ Qc_of_Z hi)%Qc.
Proof. intros (q & Hq & ?). exists q. unfold cell. by rewrite Hq. Qed.

Lemma cell_of_has_value r c : has_value r c → cell r c ≠ VNull.
Proof. intros (v & Hv & ?). unfold cell. by rewrite Hv. Qed.

Lemma dropna_keeps subset df out ir :
  dropna subset df = Ok out → ir ∈ df_rows df →
  (∀ c, c ∈ subset → cell ir.2 c ≠ VNull) → ir ∈ df_rows out.
Proof. intros Hd Hin Hall. apply dropna_Ok in Hd as [_ Hd]. by apply Hd. Qed.

Lemma omap_keep_parsed_index (rows : list (Z * gmap string value)) parsed :
  (omap (λ x, keep_parsed x.1 x.2) (zip rows parsed)).*1 `sublist_of` rows.*1.
Proof.
  revert parsed; induction rows as [|ir rows IH]; intros [|p parsed];
    try apply sublist_nil_l.
  change (zip (ir :: rows) (p :: parsed)) with ((ir, p) :: zip rows parsed).
  cbn [omap list_omap]. destruct p as [t|]; cbn [keep_parsed mbind option_bind fst snd].
  - cbn [fmap list_fmap fst]. apply sublist_skip, IH.
  - cbn [fmap list_fmap fst]. apply sublist_cons, IH.
Qed.

Lemma convert_dates_index df out :
  convert_dates df = Ok out → (df_rows out).*1 `sublist_of` (df_rows df).*1.
Proof.
  intros Hc. destruct (decide ("measurement_date" ∈ df_columns df)) as [Hcol|Hcol].
  - destruct (convert_dates_present _ _ Hcol Hc) as [_ ->].
    apply omap_keep_parsed_index.
  - by apply convert_dates_absent in Hc as ->.
Qed.

Lemma convert_dates_columns df out :
  convert_dates df = Ok out → df_columns out = df_columns df.
Proof.
  intros Hc. destruct (decide ("measurement_date" ∈ df_columns df)) as [Hcol|Hcol].
  - by destruct (convert_dates_present _ _ Hcol Hc) as [-> _].
  - by apply convert_dates_absent in Hc as ->.
Qed.

Lemma drop_missing_rows df data_type pre :
  drop_missing df data_type = Ok pre → df_rows pre `sublist_of` df_rows df.
Proof.
  unfold drop_missing. repeat case_bool_decide; intros Hd; inv_result.
  - apply dropna_rows in E. apply filter_range_rows in E0, Hd.
    etrans; [exact Hd|]. etrans; [exact E0|]. rewrite E. apply sublist_filter.
  - apply dropna_rows in Hd as ->. apply sublist_filter.
  - done.
Qed.

(** X7. [clean_data] only selects: the batch it returns has the columns of
    the batch it was given, its rows are rows of that batch in their
    original order (none is invented, duplicated or moved), and a kept row
    differs from its source in no cell other than measurement_date. *)
Theorem X7_clean_data_selects df data_type out :
  clean_data df data_type = Ok out →
  df_columns out = df_columns df ∧
  (df_rows out).*1 `sublist_of` (df_rows df).*1 ∧
  ∀ ir, ir ∈ df_rows out →
    ∃ r0, (ir.1, r0) ∈ df_rows df ∧
          ∀ c, c ≠ "measurement_date" → ir.2 !! c = r0 !! c.
Proof.
  unfold clean_data. intros Hc. inv_result. split_and!.
  - apply convert_dates_columns in Hc. apply drop_missing_columns in E. congruence.
  - etrans; [by apply convert_dates_index|].
    by eapply fmap_sublist, drop_missing_rows.
  - intros ir Hin. destruct (convert_dates_row _ _ _ Hc Hin) as (r0 & Hr0 & Hsame).
    exists r0. split; [|done].
    eapply sublist_elem; [by eapply drop_missing_rows|done].
Qed.

(** X8. A batch that lacks a column the rules of its kind name (float_id,
    latitude or longitude for floats; float_id or measurement_date for
    temperature, salinity and oxygen) is not cleaned: [clean_data] raises
    KeyError for such a missing column. *)
Theorem X8_clean_data_missing_column df data_type c :
  c ∈ required_columns data_type → c ∉ df_columns df →
  ∃ c', clean_data df data_type = Raise (KeyError c') ∧
        c' ∈ required_columns data_type ∧ c' ∉ df_columns df.
Proof.
  unfold required_columns, clean_data, drop_missing. intros Hc Hn.
  repeat case_bool_decide; [| |by apply elem_of_nil in Hc].
  - destruct (dropna_missing _ df c Hc Hn) as (c' & -> & ? & ?). eauto.
  - destruct (dropna_missing _ df c Hc Hn) as (c' & -> & ? & ?). eauto.
Qed.

(** X9. In a floats batch with the three required columns, one row that
    reaches a range test with text in the tested coordinate (a latitude
    that is text, or a longitude that is text next to a valid latitude)
    makes [clean_data] raise TypeError for the whole batch: the row is not
    dropped, the batch is lost. *)
Theorem X9_clean_data_text_coordinate df ir :
  (∀ c, c ∈ required_columns "floats" → c ∈ df_columns df) →
  ir ∈ df_rows df → text_coordinate ir.2 →
  ∃ msg, clean_data df "floats" = Raise (TypeError msg).
Proof.
  intros Hcols Hin (Hid & Hcoord).
  unfold clean_data, drop_missing. rewrite bool_decide_eq_true_2 by done.
  destruct (dropna_present ["float_id"; "latitude"; "longitude"] df Hcols)
    as [d1 Hd1].
  rewrite Hd1. cbn [mbind result_bind].
  pose proof Hd1 as [Hc1 _]%dropna_Ok.
  assert ("latitude" ∈ df_columns d1 ∧ "longitude" ∈ df_columns d1) as [Hlatc Hlonc].
  { rewrite Hc1. split; apply Hcols; by apply (bool_decide_unpack _). }
  destruct Hcoord as [[Hlat Hlon]|[Hlat Hlon]].
  - assert (ir ∈ df_rows d1) as Hin1.
    { eapply dropna_keeps; [done..|]. intros c.
      rewrite !elem_of_cons. intros [->|[->|[->|?%elem_of_nil]]]; try done.
      intros Heq. by rewrite Heq in Hlat. }
    rewrite (filter_range_text d1 "latitude" _ _ ir) by done. eauto.
  - destruct (cell_in_range _ _ _ _ Hlat) as (q & Hq & Hlo & Hhi).
    assert (ir ∈ df_rows d1) as Hin1.
    { eapply dropna_keeps; [done..|]. intros c.
      rewrite !elem_of_cons. intros [->|[->|[->|?%elem_of_nil]]]; try done.
      - by rewrite Hq.
      - intros Heq. by rewrite Heq in Hlon. }
    destruct (filter_range d1 "latitude" (-90) 90) as [d2|e] eqn:Hd2;
      cbn [mbind result_bind].
    + pose proof Hd2 as [Hc2 _]%filter_range_Ok.
      rewrite (filter_range_text d2 "longitude" _ _ ir); [eauto|congruence| |done].
      by eapply filter_range_keeps.
    + apply filter_range_Raise in Hd2 as [[_ ?]|(msg & ? & -> & _)]; [done|eauto].
Qed.

(** X10. [clean_data] fails in two ways only: with KeyError for a column
    the rules of the kind name and the batch lacks, or, for floats, with
    TypeError when some row holds text in its latitude or longitude.  In
    particular the date step never raises, and a kind outside the four
    never fails. *)
Theorem X10_clean_data_failures df data_type e :
  clean_data df data_type = Raise e →
  (∃ c, e = KeyError c ∧ c ∈ required_columns data_type ∧ c ∉ df_columns df) ∨
  (∃ msg ir, e = TypeError msg ∧ data_type = "floats" ∧ ir ∈ df_rows df ∧
             (text_cell (cell ir.2 "latitude") ∨ text_cell (cell ir.2 "longitude"))).
Proof.
  unfold clean_data. destruct (drop_missing df data_type) as [pre|e'] eqn:Hd;
    cbn [mbind result_bind].
  - destruct (convert_dates_total pre) as [out ->]. done.
  - intros [= ->]. revert Hd. unfold drop_missing, required_columns.
    repeat case_bool_decide; [| |done].
    + destruct (dropna _ df) as [d1|] eqn:Hd1; cbn [mbind result_bind].
      * pose proof Hd1 as [Hc1 _]%dropna_Ok.
        pose proof (dropna_rows _ _ _ Hd1) as Hr1.
        assert (df_rows d1 `sublist_of` df_rows df) as Hs1
          by (rewrite Hr1; apply sublist_filter).
        assert (∀ c, c ∈ ["float_id"; "latitude"; "longitude"] → c ∈ df_columns df)
          as Hcols.
        { intros c Hc. destruct (decide (c ∈ df_columns df)) as [|Hn]; [done|].
          destruct (dropna_missing _ df c Hc Hn) as (? & ? & _). congruence. }
        destruct (filter_range d1 "latitude" (-90) 90) as [d2|] eqn:Hd2;
          cbn [mbind result_bind].
        -- pose proof Hd2 as [Hc2 _]%filter_range_Ok.
           pose proof (filter_range_rows _ _ _ _ _ Hd2) as Hs2.
           intros [[_ Hn]|(msg & ir & -> & Hin & Ht)]%filter_range_Raise.
           ++ exfalso. apply Hn. rewrite Hc2, Hc1. apply Hcols.
              by apply (bool_decide_unpack _).
           ++ right. exists msg, ir. split_and!; [done..| |by right].
              eapply sublist_elem; [exact Hs1|].
              eapply sublist_elem; [exact Hs2|done].
        -- intros [= <-].
           apply filter_range_Raise in Hd2 as [[_ Hn]|(msg & ir & -> & Hin & Ht)].
           ++ exfalso. apply Hn. rewrite Hc1. apply Hcols.
              by apply (bool_decide_unpack _).
           ++ right. exists msg, ir. split_and!; [done..| |by left].
              eapply sublist_elem; [exact Hs1|done].
      * intros [= <-]. left. apply dropna_Raise in Hd1 as (c & -> & ? & ?). eauto.
    + intros Hd1. left. apply dropna_Raise in Hd1 as (c & -> & ? & ?). eauto.
Qed.

(** X11. No good row is lost: when [clean_data] returns, a row of the
    batch that meets the rules of its kind passes them; without a
    measurement_date column it is in the result as it is, and with one it
    is in the result, with its timestamp, whenever its date parses. *)
Theorem X11_clean_data_keeps_good_rows df data_type out ir :
  clean_data df data_type = Ok out →
  ir ∈ df_rows df →
  (data_type = "floats" → float_row_ok ir.2) →
  (data_type ∈ ["temperature"; "salinity"; "oxygen"] →
     has_value ir.2 "float_id" ∧ has_value ir.2 "measurement_date") →
  ∃ pre n,
    drop_missing df data_type = Ok pre ∧
    df_rows pre !! n = Some ir ∧
    ("measurement_date" ∉ df_columns df → ir ∈ df_rows out) ∧
    ∀ t, "measurement_date" ∈ df_columns df →
         to_datetime (date_column pre) !! n = Some (Some t) →
         (ir.1, <["measurement_date" := VTime t]> ir.2) ∈ df_rows out.
Proof.
  unfold clean_data. intros Hc Hin Hfloat Hmeas. inv_result.
  rename a into pre. rename E into Hpre.
  assert (ir ∈ df_rows pre) as Hin1.
  { revert Hpre. unfold drop_missing. repeat case_bool_decide; intros Hd; inv_result.
    - destruct (Hfloat ltac:(done)) as (Hid & Hlat & Hlon).
      destruct (cell_in_range _ _ _ _ Hlat) as (p & Hp & ? & ?).
      destruct (cell_in_range _ _ _ _ Hlon) as (q & Hq & ? & ?).
      eapply filter_range_keeps; [done| |done..].
      eapply filter_range_keeps; [done| |done..].
      eapply dropna_keeps; [done..|]. intros c.
      rewrite !elem_of_cons. intros [->|[->|[->|?%elem_of_nil]]]; try done.
      + by apply cell_of_has_value.
      + by rewrite Hp.
      + by rewrite Hq.
    - destruct (Hmeas ltac:(done)) as [Hid Hdate].
      eapply dropna_keeps; [done..|]. intros c.
      rewrite !elem_of_cons. intros [->|[->|?%elem_of_nil]]; try done;
        by apply cell_of_has_value.
    - done. }
  apply list_elem_of_lookup in Hin1 as [n Hn].
  exists pre, n. split_and!; [done..| |].
  - intros Hcol. apply convert_dates_absent in Hc as ->.
    + by eapply list_elem_of_lookup_2.
    + by rewrite (drop_missing_columns _ _ _ Hpre).
  - intros t Hcol Ht.
    rewrite <- (drop_missing_columns _ _ _ Hpre) in Hcol.
    destruct (convert_dates_present _ _ Hcol Hc) as [_ ->].
    apply list_elem_of_omap. exists (ir, Some t). split; [|done].
    eapply list_elem_of_lookup_2. apply lookup_zip_Some. split; done.
Qed.

End cleaning.

(** ** The importer and the schema *)

Section store.
Import Pandas Sqlite OceanDb ValidatorSpec ImporterSpec QuerySpec UpsertSpec.
Import ReimportSpec TwiceSpec StoreSpec.
Context `{PandasLib} `{SqliteLib}.

Lemma written_table_kind_insert data_type :
  written_table data_type = (λ x, ins_table x.1) <$> kind_insert data_type.
Proof. unfold written_table, kind_insert. by repeat case_bool_decide. Qed.

(** One execution of an insert: it fails and leaves the table alone, or it
    builds a row, drops the stored rows that clash with it and appends it;
    a plain INSERT succeeds only when no stored row clashes. *)
Lemma insert_row_cases st params t :
  (∃ e, insert_row st params t = (Raise e, t)) ∨
  ∃ new,
    insert_row st params t =
      (Ok tt, {| t_columns := t_columns t; t_unique := t_unique t;
                 t_rows := filter (λ old, conflicts (t_unique t) new old = false)
                                  (t_rows t) ++ [new];
                 t_seq := t_seq t + 1 |}) ∧
    (ins_replace st = false →
       filter (λ old, conflicts (t_unique t) new old = false) (t_rows t) = t_rows t).
Proof.
  unfold insert_row. destruct (mapMr _ (t_columns t)) as [vals|e]; [|eauto].
  set (new := list_to_map (zip (column_names t) vals) : gmap string value).
  destruct (existsb (conflicts (t_unique t) new) (t_rows t)) eqn:Hex;
    destruct (ins_replace st) eqn:Hrep; cbn [andb negb]; eauto.
  - right. exists new. split; [done|]. discriminate.
  - right. exists new. split; [done|]. done.
  - right. exists new. split; [done|]. intros _.
    induction (t_rows t) as [|old rows IH]; [done|].
    cbn [existsb] in Hex. apply orb_false_iff in Hex as [Hold Hex].
    rewrite filter_cons, decide_True by done. f_equal. by apply IH.
Qed.

(** A row whose values cannot be bound leaves the table alone. *)
Lemma execute_insert_rel (T : Table → Table → Prop) st params t :
  (∀ t, T t t) → (∀ params t, T t (insert_row st params t).2) →
  T t (execute_insert st params t).2.
Proof.
  intros Hrefl Hrow. unfold execute_insert.
  destruct (mapMr bind_param params); [apply Hrow|apply Hrefl].
Qed.

(** A relation on tables that every single insert respects is respected by
    a whole [executemany], whatever its outcome. *)
Lemma insert_rows_rel (T : Table → Table → Prop) st data :
  (∀ t, T t t) → (∀ t1 t2 t3, T t1 t2 → T t2 t3 → T t1 t3) →
  (∀ params t, T t (insert_row st params t).2) →
  ∀ t, T t (forM_ data (execute_insert st) t).2.
Proof.
  intros Hrefl Htrans Hrow. induction data as [|params data IH]; intros t.
  - apply Hrefl.
  - cbn [forM_]. unfold mbind, M_bind.
    pose proof (execute_insert_rel T st params t Hrefl Hrow) as Hone.
    destruct (execute_insert st params t) as [[[]|e] t1]; cbn [snd] in *; [|done].
    eapply Htrans; [done|apply IH].
Qed.

Lemma tables_evolve_refl T w db : (∀ t, T t t) → tables_evolve T w db db.
Proof. intros Hrefl name. destruct (db !! name); [|done]. by split. Qed.

Lemma tables_evolve_trans T w db1 db2 db3 :
  (∀ t1 t2 t3, T t1 t2 → T t2 t3 → T t1 t3) →
  tables_evolve T w db1 db2 → tables_evolve T w db2 db3 →
  tables_evolve T w db1 db3.
Proof.
  intros Htrans H12 H23 name. specialize (H12 name). specialize (H23 name).
  destruct (db1 !! name), (db2 !! name), (db3 !! name); try done.
  destruct H12 as [? Ho1], H23 as [? Ho2]. split; [by eapply Htrans|].
  intros Hw. rewrite Ho2, Ho1; done.
Qed.

Lemma executemany_evolve (T : Table → Table → Prop) st data c :
  (∀ t, T t t) → (∀ t1 t2 t3, T t1 t2 → T t2 t3 → T t1 t3) →
  (∀ params t, T t (insert_row st params t).2) →
  tables_evolve T (Some (ins_table st)) (current c)
    (current (executemany st data c).2).
Proof.
  intros Hrefl Htrans Hrow. unfold executemany.
  destruct (prepare (current c) st) as [t|e] eqn:Hp;
    [|by apply tables_evolve_refl].
  apply prepare_Ok in Hp.
  pose proof (insert_rows_rel T st data Hrefl Htrans Hrow t) as HT.
  destruct (forM_ data (execute_insert st) t) as [r t']. cbn [snd current] in *.
  intros name. destruct (decide (name = ins_table st)) as [->|Hne].
  - rewrite Hp, lookup_insert_eq. split; [done|]. by intros [].
  - rewrite lookup_insert_ne by done. destruct (current c !! name); [|done].
    by split.
Qed.

Lemma insert_chunk_evolve (T : Table → Table → Prop) data_type df s :
  (∀ t, T t t) → (∀ t1 t2 t3, T t1 t2 → T t2 t3 → T t1 t3) →
  (∀ st tuple params t,
     kind_insert data_type = Some (st, tuple) → T t (insert_row st params t).2) →
  tables_evolve T (written_table data_type) (current (conn s))
    (current (conn (insert_chunk data_type df s).2)).
Proof.
  intros Hrefl Htrans Hrow. rewrite insert_chunk_kind, written_table_kind_insert.
  destruct (kind_insert data_type) as [[st tuple]|] eqn:Hk.
  - rewrite conn_executemany_conn. cbn [fmap option_fmap option_map fst].
    apply executemany_evolve; [done..|]. intros. by eapply Hrow.
  - by apply tables_evolve_refl.
Qed.

Lemma import_chunk_evolve (T : Table → Table → Prop) data_type rm chunk_num chunk
    total s :
  (∀ t, T t t) → (∀ t1 t2 t3, T t1 t2 → T t2 t3 → T t1 t3) →
  (∀ st tuple params t,
     kind_insert data_type = Some (st, tuple) → T t (insert_row st params t).2) →
  tables_evolve T (written_table data_type) (current (conn s))
    (current (conn (import_chunk data_type rm chunk_num chunk total s).2)).
Proof.
  intros Hrefl Htrans Hrow. rewrite import_chunk_unfold.
  destruct (clean_data chunk data_type) as [cleaned|e];
    [|by apply tables_evolve_refl].
  destruct (map_regions data_type rm cleaned) as [mapped|e];
    [|by apply tables_evolve_refl].
  pose proof (insert_chunk_evolve T data_type mapped s Hrefl Htrans Hrow) as Hins.
  destruct (insert_chunk data_type mapped s) as [[[]|e] s']; [|done].
  cbn [snd] in *. by case_bool_decide.
Qed.

Lemma import_chunks_evolve (T : Table → Table → Prop) data_type rm chunks :
  (∀ t, T t t) → (∀ t1 t2 t3, T t1 t2 → T t2 t3 → T t1 t3) →
  (∀ st tuple params t,
     kind_insert data_type = Some (st, tuple) → T t (insert_row st params t).2) →
  ∀ chunk_num total s,
  tables_evolve T (written_table data_type) (current (conn s))
    (current (conn (import_chunks data_type rm chunk_num chunks total s).2)).
Proof.
  intros Hrefl Htrans Hrow.
  induction chunks as [|chunk chunks IH]; intros chunk_num total s;
    cbn [import_chunks].
  - by apply tables_evolve_refl.
  - unfold mbind, M_bind.
    pose proof (import_chunk_evolve T data_type rm chunk_num chunk total s
                  Hrefl Htrans Hrow) as Hone.
    destruct (import_chunk data_type rm chunk_num chunk total s) as [[t1|e] s1];
      cbn [snd] in *; [|done].
    eapply tables_evolve_trans; [done..|apply IH].
Qed.

(** What an import does to the tables, from a connection without pending
    writes: whatever every single insert respects. *)
Lemma import_csv_data_evolve (T : Table → Table → Prop) path data_type batch_size
    rm self :
  (∀ t, T t t) → (∀ t1 t2 t3, T t1 t2 → T t2 t3 → T t1 t3) →
  (∀ st tuple params t,
     kind_insert data_type = Some (st, tuple) → T t (insert_row st params t).2) →
  clean (conn self) →
  tables_evolve T (written_table data_type) (current (conn self))
    (current (conn (import_csv_data path data_type batch_size rm self).2)).
Proof.
  intros Hrefl Htrans Hrow Hclean.
  destruct (csv_files self path) as [read|] eqn:Hf.
  - destruct (import_csv_data_conn path data_type batch_size rm self read Hf)
      as (_ & Hcom & ->).
    pose proof (import_chunks_evolve T data_type rm (csv_chunks (read batch_size))
                  Hrefl Htrans Hrow 0 0 (started path data_type batch_size self))
      as Hloop.
    destruct (_ && _); cbn [commit rollback current].
    + exact Hloop.
    + rewrite Hcom, <- Hclean. by apply tables_evolve_refl.
  - pose proof (import_csv_data_missing path data_type batch_size rm self Hf) as Hm.
    cbv zeta in Hm. destruct Hm as [_ ->].
    by apply tables_evolve_refl.
Qed.

Lemma insert_row_schema st params t : same_schema t (insert_row st params t).2.
Proof.
  destruct (insert_row_cases st params t) as [[e ->]|(new & -> & _)]; by split.
Qed.

(** X12. From a connection without pending writes, whatever the outcome
    of [import_csv_data]: no table is created or dropped, every table keeps
    its columns and its UNIQUE columns, and every table other than the one
    the data kind is written to is exactly what it was. *)
Theorem X12_import_keeps_schema path data_type batch_size rm self :
  clean (conn self) →
  tables_evolve same_schema (written_table data_type) (current (conn self))
    (current (conn (import_csv_data path data_type batch_size rm self).2)).
Proof.
  intros Hclean. apply import_csv_data_evolve; [| | |done].
  - by split.
  - apply same_schema_trans.
  - intros. apply insert_row_schema.
Qed.

Lemma conflicts_on_key U (new old : gmap string value) c v :
  c ∈ U → new !! c = Some v → v ≠ VNull → old !! c = Some v →
  conflicts U new old = true.
Proof.
  intros Hc Hnew Hv Hold. unfold conflicts. apply existsb_exists.
  exists c. split; [by apply list_elem_of_In|]. rewrite Hnew, Hold.
  rewrite bool_decide_eq_false_2 by done. by rewrite bool_decide_eq_true_2.
Qed.

Lemma occ_none k l : (∀ x, x ∈ l → x ≠ k) → occ k l = 0%nat.
Proof.
  unfold occ. induction l as [|x l IH]; intros Hall; [done|].
  rewrite filter_cons, decide_False by (apply Hall, list_elem_of_here).
  apply IH. intros y Hy. by apply Hall, list_elem_of_further.
Qed.

Lemma occ_fmap_filter {A} (f : A → option value) (P : A → Prop)
    `{∀ x, Decision (P x)} k (l : list A) :
  (occ k (f <$> filter P l) ≤ occ k (f <$> l))%nat.
Proof.
  unfold occ. induction l as [|x l IH]; [done|].
  rewrite filter_cons. destruct (decide (P x)); cbn [fmap list_fmap];
    rewrite !filter_cons; destruct (decide (f x = k)); cbn [length];
    fold (fmap f l); lia.
Qed.

Lemma insert_row_unique st params t :
  unique_ok t → unique_ok (insert_row st params t).2.
Proof.
  intros Hok.
  destruct (insert_row_cases st params t) as [[e ->]|(new & -> & _)]; [done|].
  cbn [snd]. intros c v Hc Hv. unfold table_keys. cbn [t_rows t_unique] in *.
  rewrite fmap_app, occ_app. cbn [fmap list_fmap].
  destruct (decide (new !! c = Some v)) as [Hnew|Hnew].
  - rewrite occ_none.
    + unfold occ. rewrite filter_cons, decide_True by done. done.
    + intros k (old & -> & Hold)%list_elem_of_fmap Hk.
      apply list_elem_of_filter in Hold as [Hno _].
      by rewrite (conflicts_on_key _ _ _ c v) in Hno.
  - unfold occ at 2. rewrite filter_cons, decide_False by done. cbn [length].
    pose proof (occ_fmap_filter (λ r : gmap string value, r !! c)
                  (λ old, conflicts (t_unique t) new old = false)
                  (Some v) (t_rows t)) as Hle.
    specialize (Hok c v Hc Hv). unfold table_keys in Hok.
    change (filter (λ k0, k0 = Some v) []) with (@nil (option value)).
    cbn [length]. lia.
Qed.

(** X13. An import keeps the UNIQUE constraints: if, on a connection
    without pending writes, no table holds a value that is not NULL twice in
    one of its UNIQUE columns, the same is true after [import_csv_data],
    whatever its outcome (for a float table keyed by float_id: never two
    rows with the same float_id). *)
Theorem X13_import_keeps_unique path data_type batch_size rm self :
  clean (conn self) →
  (∀ name t, current (conn self) !! name = Some t → unique_ok t) →
  ∀ name t,
    current (conn (import_csv_data path data_type batch_size rm self).2) !! name
      = Some t →
    unique_ok t.
Proof.
  intros Hclean Hall name t' Ht'.
  pose proof (import_csv_data_evolve (λ t t', unique_ok t → unique_ok t')
                path data_type batch_size rm self) as Hev.
  specialize (Hev (λ t Hu, Hu) (λ t1 t2 t3 H12 H23 Hu, H23 (H12 Hu))
                  (λ st tuple params t _, insert_row_unique st params t)
                  Hclean name).
  rewrite Ht' in Hev. destruct (current (conn self) !! name) as [t|] eqn:Ht; [|done].
  destruct Hev as [Hu _]. by eapply Hu, Hall.
Qed.

(** X14. An import of a measurement kind stores no row: [clean_data]
    leaves every row of such a file with a pandas Timestamp, which sqlite3
    cannot bind, so [executemany] raises on the first row it is handed.
    Whatever the state, the method returns True only when no row of the
    file passed cleaning, and its commit then keeps what the connection saw
    before the import; in every other case it returns False and the
    connection is rolled back to its last commit. *)
Theorem X14_measurement_import_stores_nothing path data_type batch_size rm self
    read :
  data_type ∈ measurement_kinds →
  csv_files self path = Some read →
  ∃ b self',
    import_csv_data path data_type batch_size rm self = (Ok b, self') ∧
    conn self' = (if b then commit (conn self) else rollback (conn self)) ∧
    (b = true → cleaned_total data_type (csv_chunks (read batch_size)) = 0).
Proof.
  intros Hk Hf.
  destruct (dated_import_conn path data_type batch_size rm self read Hf)
    as (b & self' & Hrun & _ & Hconn & Hb); [by left|].
  by exists b, self'.
Qed.

(** X16. The region step cannot fail on what [clean_data] hands it: for a
    floats batch with at least one row left and a truthy mapping, the step
    returns the same rows in the same order, each with ocean_region set to
    the label [get_ocean_region] gives for its own latitude and longitude,
    which are numbers within [-90,90] and [-180,180]. *)
Theorem X16_regions_after_cleaning df rm cleaned :
  clean_data df "floats" = Ok cleaned →
  truthy_mapping rm = true →
  df_rows cleaned ≠ [] →
  ∃ mapped,
    map_regions "floats" rm cleaned = Ok mapped ∧
    length (df_rows mapped) = length (df_rows cleaned) ∧
    ∀ n ir, df_rows mapped !! n = Some ir →
      ∃ r0 p q,
        df_rows cleaned !! n = Some (ir.1, r0) ∧
        ir.2 = <["ocean_region" := VStr (Region.get_ocean_region (FFin p) (FFin q))]> r0 ∧
        r0 !! "latitude" = Some (VFin p) ∧ r0 !! "longitude" = Some (VFin q) ∧
        (Qc_of_Z (-90) ≤ p)%Qc ∧ (p ≤ Qc_of_Z 90)%Qc ∧
        (Qc_of_Z (-180) ≤ q)%Qc ∧ (q ≤ Qc_of_Z 180)%Qc.
Proof.
  intros Hclean Hrm Hne. unfold map_regions. rewrite Hrm. cbn [andb].
  rewrite bool_decide_eq_true_2 by done.
  assert (∀ ir, ir ∈ df_rows cleaned →
            ∃ p q, ir.2 !! "latitude" = Some (VFin p) ∧
                   ir.2 !! "longitude" = Some (VFin q) ∧
                   (Qc_of_Z (-90) ≤ p)%Qc ∧ (p ≤ Qc_of_Z 90)%Qc ∧
                   (Qc_of_Z (-180) ≤ q)%Qc ∧ (q ≤ Qc_of_Z 180)%Qc) as Hrows.
  { intros ir Hin. unfold clean_data in Hclean. inv_result.
    destruct (convert_dates_row _ _ _ Hclean Hin) as (r0 & Hin0 & Hsame).
    destruct (drop_missing_floats _ _ _ E Hin0)
      as (_ & (p & Hp & ? & ?) & (q & Hq & ? & ?)).
    exists p, q. rewrite !Hsame by done. cbn [snd] in *. unfold cell in Hp, Hq.
    destruct (r0 !! "latitude") as [v1|]; cbn in Hp; [|done].
    destruct (r0 !! "longitude") as [v2|]; cbn in Hq; [|done].
    by subst. }
  unfold add_ocean_region. destruct (df_rows cleaned) as [|ir0 rows0] eqn:Hdf; [done|].
  rewrite <- Hdf in *. clear Hdf Hne ir0 rows0.
  set (f := λ ir : Z * gmap string value,
              lat ← row_item ir.2 "latitude";
              lon ← row_item ir.2 "longitude";
              lat ← as_float lat;
              lon ← as_float lon;
              Ok (VStr (Region.get_ocean_region lat lon))).
  assert (∃ regions, mapMr f (df_rows cleaned) = Ok regions ∧
            Forall2 (λ ir v, ∃ p q,
                       v = VStr (Region.get_ocean_region (FFin p) (FFin q)) ∧
                       ir.2 !! "latitude" = Some (VFin p) ∧
                       ir.2 !! "longitude" = Some (VFin q) ∧
                       (Qc_of_Z (-90) ≤ p)%Qc ∧ (p ≤ Qc_of_Z 90)%Qc ∧
                       (Qc_of_Z (-180) ≤ q)%Qc ∧ (q ≤ Qc_of_Z 180)%Qc)
                    (df_rows cleaned) regions) as (regions & -> & Hall).
  { induction (df_rows cleaned) as [|ir rows IH]; [by exists []|].
    destruct IH as (regions & Hm & Hall).
    { intros ir' Hin. by apply Hrows, list_elem_of_further. }
    destruct (Hrows ir (list_elem_of_here _ _)) as (p & q & Hp & Hq & Hb).
    exists (VStr (Region.get_ocean_region (FFin p) (FFin q)) :: regions).
    split.
    - cbn [mapMr]. rewrite Hm. unfold f at 1, row_item. by rewrite Hp, Hq.
    - constructor; [|done]. by exists p, q. }
  cbn [mbind result_bind]. eexists. split; [reflexivity|].
  unfold setitem. cbn [df_rows]. split.
  - rewrite length_zip_with. apply Forall2_length in Hall. lia.
  - intros n ir Hn.
    apply lookup_zip_with_Some in Hn as ([i r0] & v & -> & Hr & Hv).
    destruct (Forall2_lookup_lr _ _ _ _ _ _ Hall Hr Hv)
      as (p & q & -> & Hp & Hq & ? & ? & ? & ?).
    exists r0, p, q. by split_and!.
Qed.

End store.

Section schema.
Import Pandas Sqlite OceanDb StoreSpec.
Context `{PandasLib} `{SqliteLib}.

Lemma create_table_keeps name cols unique db n t :
  db !! n = Some t →
  create_table_if_not_exists name cols unique db !! n = Some t.
Proof.
  intros Hn. unfold create_table_if_not_exists.
  destruct (db !! name) eqn:Hname; [done|].
  rewrite lookup_insert_ne; [done|]. intros <-. congruence.
Qed.

Lemma create_table_names name cols unique db n :
  is_Some (create_table_if_not_exists name cols unique db !! n)
  ↔ is_Some (db !! n) ∨ n = name.
Proof.
  unfold create_table_if_not_exists. destruct (db !! name) eqn:Hname.
  - split; [by left|]. intros [?| ->]; [done|]. by rewrite Hname.
  - destruct (decide (n = name)) as [->|Hne].
    + rewrite lookup_insert_eq. split; [by right|eauto].
    + rewrite lookup_insert_ne by done. split; [by left|]. by intros [?|?].
Qed.

Lemma create_table_again name cols unique db :
  create_table_if_not_exists name cols unique
    (create_table_if_not_exists name cols unique db)
  = create_table_if_not_exists name cols unique db.
Proof.
  unfold create_table_if_not_exists at 1.
  destruct (create_table_if_not_exists name cols unique db !! name) eqn:Hn; [done|].
  exfalso. assert (is_Some (create_table_if_not_exists name cols unique db !! name))
    as [? ?] by (apply create_table_names; by right). congruence.
Qed.

Lemma basic_schema_again db : basic_schema (basic_schema db) = basic_schema db.
Proof.
  unfold basic_schema.
  set (db1 := create_table_if_not_exists "argo_floats" basic_argo_floats [] db).
  set (db2 := create_table_if_not_exists "temperature_data" basic_temperature_data [] db1).
  assert (create_table_if_not_exists "argo_floats" basic_argo_floats [] db2 = db2)
    as ->.
  { unfold create_table_if_not_exists at 1.
    assert (is_Some (db1 !! "argo_floats")) as [t Ht]
      by (apply create_table_names; by right).
    assert (db2 !! "argo_floats" = Some t) as ->; [|done].
    by apply create_table_keeps. }
  apply create_table_again.
Qed.

Lemma create_basic_schema_run self :
  create_basic_schema self =
    (Ok tt,
     {| schema_sql := schema_sql self; csv_files := csv_files self;
        conn := {| committed := basic_schema (current (conn self));
                   current := basic_schema (current (conn self)) |};
        trace := trace self ++ [Commit] |}).
Proof. reflexivity. Qed.

(** X17. [create_basic_schema] never touches what is there: it returns,
    leaves nothing pending, every table the connection saw is still there
    with its columns and rows, the tables afterwards are those plus
    argo_floats and temperature_data, and calling it again changes nothing
    on the connection. *)
Theorem X17_create_basic_schema_keeps_tables self :
  ∃ self',
    create_basic_schema self = (Ok tt, self') ∧
    clean (conn self') ∧
    (∀ name t, current (conn self) !! name = Some t →
               current (conn self') !! name = Some t) ∧
    (∀ name, is_Some (current (conn self') !! name)
             ↔ is_Some (current (conn self) !! name)
               ∨ name ∈ ["argo_floats"; "temperature_data"]) ∧
    ∃ self'', create_basic_schema self' = (Ok tt, self'') ∧ conn self'' = conn self'.
Proof.
  rewrite create_basic_schema_run.
  eexists. split; [reflexivity|]. cbn [conn current committed].
  split_and!.
  - done.
  - intros name t Ht. unfold basic_schema. by do 2 apply create_table_keeps.
  - intros name. unfold basic_schema. rewrite !create_table_names, !elem_of_cons.
    rewrite elem_of_nil. tauto.
  - rewrite create_basic_schema_run. eexists. split; [reflexivity|].
    cbn [conn current]. by rewrite basic_schema_again.
Qed.

Lemma blank_statements_skip (pieces : list string) s :
  Forall (λ piece, strip_is_empty piece = true) pieces →
  forM_ pieces (λ statement, if strip_is_empty statement then mret tt
                             else conn_execute_ddl statement) s
  = (Ok tt, s).
Proof.
  induction 1 as [|piece pieces Hp _ IH]; [done|].
  cbn [forM_]. rewrite Hp. unfold mbind, M_bind, mret at 1, M_ret at 1. apply IH.
Qed.

(** X18. A schema script that exists but holds no statement (every piece
    between semicolons is blank): [setup_database] executes nothing and
    reports success, the fallback schema is not used, and so a database
    that had no float table still has none: [get_float_data] raises. *)
Theorem X18_setup_database_blank_script self script :
  schema_sql self = Some script →
  Forall (λ piece, strip_is_empty piece = true) (split_semicolon script) →
  ∃ self',
    setup_database self = (Ok tt, self') ∧
    conn self' = commit (conn self) ∧
    trace self' = trace self ++ [Commit; LogSchemaCreated] ∧
    ∀ region status limit offset,
      current (conn self) !! "argo_floats" = None →
      get_float_data self' region status limit offset
        = Raise (OperationalError "no such table: argo_floats").
Proof.
  intros Hs Hblank. unfold setup_database, try_except, read_schema.
  unfold mbind at 1, M_bind at 1. unfold mbind at 1, M_bind at 1, gets at 1.
  rewrite Hs. unfold mret at 1, M_ret at 1. unfold mbind at 1, M_bind at 1.
  rewrite (blank_statements_skip _ _ Hblank). unfold_M.
  eexists. split; [reflexivity|]. cbn [conn trace]. split_and!.
  - done.
  - cbn. by rewrite <- app_assoc.
  - intros region status limit offset Hnone.
    unfold get_float_data, float_query, find_table. cbn.
    by rewrite Hnone.
Qed.

End schema.

(** ** The query layer *)

Section listing.
Import Sqlite OceanDb ListingSpec.

Lemma value_leb_total a b : value_leb a b = true ∨ value_leb b a = true.
Proof.
  destruct a as [|p|n1|s1|t1], b as [|q|n2|s2|t2]; simpl; auto.
  - destruct (Qclt_le_dec q p) as [Hlt|Hle].
    + right. apply bool_decide_eq_true. by apply Qclt_le_weak.
    + left. by apply bool_decide_eq_true.
  - destruct n2; auto.
  - destruct n1; auto.
  - destruct n1, n2; auto.
  - apply String.leb_total.
  - destruct (Z.le_ge_cases t1 t2); [left|right]; apply bool_decide_eq_true; lia.
Qed.

Lemma insert_desc_length {A} (key : A → value) x l :
  length (insert_desc key x l) = S (length l).
Proof.
  induction l as [|z l IH]; simpl; [done|].
  destruct (value_leb _ _); simpl; by rewrite ?IH.
Qed.

Lemma order_by_desc_length {A} (key : A → value) l :
  length (order_by_desc key l) = length l.
Proof.
  unfold order_by_desc. induction l as [|x l IH]; simpl; [done|].
  by rewrite insert_desc_length, IH.
Qed.

Lemma insert_desc_sorted {A} (key : A → value) x l :
  Sorted (λ a b, value_leb (key b) (key a) = true) l →
  Sorted (λ a b, value_leb (key b) (key a) = true) (insert_desc key x l).
Proof.
  induction 1 as [|z l Hs IH Hhd]; simpl.
  - repeat constructor.
  - destruct (value_leb (key z) (key x)) eqn:Hzx.
    + constructor; [by constructor|]. by constructor.
    + constructor; [done|].
      destruct l as [|w l]; simpl in *.
      * constructor. destruct (value_leb_total (key z) (key x)); congruence.
      * destruct (value_leb (key w) (key x)).
        -- constructor. destruct (value_leb_total (key z) (key x)); congruence.
        -- constructor. by inversion Hhd.
Qed.

Lemma order_by_desc_sorted {A} (key : A → value) l :
  Sorted (λ a b, value_leb (key b) (key a) = true) (order_by_desc key l).
Proof.
  unfold order_by_desc. induction l as [|x l IH]; simpl; [constructor|].
  by apply insert_desc_sorted.
Qed.

Lemma Sorted_descending {A} (key : A → value) l :
  Sorted (λ a b, value_leb (key b) (key a) = true) l → descending key l.
Proof.
  induction 1 as [|z l Hs IH Hhd]; intros i x y Hx Hy; [done|].
  destruct i as [|i]; simpl in *.
  - injection Hx as <-. destruct l; [done|]. simpl in Hy. injection Hy as <-.
    by inversion Hhd.
  - by eapply IH.
Qed.

Lemma descending_drop {A} (key : A → value) n l :
  descending key l → descending key (drop n l).
Proof.
  intros Hd i x y. rewrite !lookup_drop. replace (n + S i)%nat with (S (n + i)) by lia.
  apply Hd.
Qed.

Lemma descending_take {A} (key : A → value) n l :
  descending key l → descending key (take n l).
Proof.
  intros Hd i x y Hx Hy. apply lookup_take_Some in Hx as [Hx _].
  apply lookup_take_Some in Hy as [Hy _]. by eapply Hd.
Qed.

Lemma descending_limit_offset {A} (key : A → value) limit offset (l : list A) :
  descending key l → descending key (sql_limit limit (sql_offset offset l)).
Proof.
  intros Hd. unfold sql_limit, sql_offset. case_bool_decide.
  - by apply descending_take, descending_drop.
  - by apply descending_drop.
Qed.

Lemma descending_fmap {A B} (f : A → B) (key : B → value) l :
  descending (key ∘ f) l → descending key (f <$> l).
Proof.
  intros Hd i x y. rewrite !list_lookup_fmap.
  destruct (l !! i) as [a|] eqn:Ha, (l !! S i) as [b|] eqn:Hb; simpl; try done.
  intros [= <-] [= <-]. by eapply Hd.
Qed.

(** Looking a column up in the dict of a row. *)
Lemma list_to_map_function (f : string → value) (l : list (string * value)) c :
  (∀ k v, (k, v) ∈ l → v = f k) →
  (list_to_map l : gmap string value) !! c
  = if bool_decide (c ∈ l.*1) then Some (f c) else None.
Proof.
  induction l as [|[k v] l IH]; intros Hf.
  - rewrite bool_decide_eq_false_2 by apply not_elem_of_nil. apply lookup_empty.
  - cbn [list_to_map foldr fmap list_fmap fst]. destruct (decide (k = c)) as [->|Hne].
    + rewrite lookup_insert_eq, bool_decide_eq_true_2 by apply list_elem_of_here.
      f_equal. apply Hf, list_elem_of_here.
    + rewrite lookup_insert_ne by done. rewrite IH.
      * apply (f_equal (λ b : bool, if b then Some (f c) else None)).
        apply bool_decide_ext. rewrite elem_of_cons. split; [auto|].
        intros [?|?]; [congruence|done].
      * intros k' v' Hin. by apply Hf, list_elem_of_further.
Qed.

Lemma row_dict_lookup t r c :
  row_dict t r !! c
  = if bool_decide (c ∈ column_names t) then Some (field r c) else None.
Proof.
  unfold row_dict, dict_zip.
  rewrite (list_to_map_function (λ c, field r c)).
  - apply (f_equal (λ b : bool, if b then Some (field r c) else None)).
    apply bool_decide_ext.
    rewrite fmap_reverse, elem_of_reverse, fst_zip; [done|].
    by rewrite length_fmap.
  - intros k v Hin. rewrite elem_of_reverse in Hin.
    apply list_elem_of_lookup in Hin as [i Hi].
    apply lookup_zip_Some in Hi as [Hk Hv].
    rewrite list_lookup_fmap, Hk in Hv. simpl in Hv. congruence.
Qed.

Lemma row_dict_present t r c :
  c ∈ column_names t → row_dict t r !! c = Some (field r c).
Proof. intros Hin. by rewrite row_dict_lookup, bool_decide_eq_true_2. Qed.

Lemma sql_eq_str a s : sql_eq a (VStr s) = true ↔ a = VStr s.
Proof.
  unfold sql_eq. rewrite andb_true_iff, negb_true_iff, bool_decide_eq_false,
    bool_decide_eq_true. split; [tauto|]. intros ->. done.
Qed.

Lemma filter_float_matches region status (rows : list (gmap string value)) :
  (let rows := if truthy_str region
               then filter (λ r, sql_eq (field r "ocean_region")
                                        (VStr (default "" region)) = true) rows
               else rows in
   if truthy_str status
   then filter (λ r, sql_eq (field r "status")
                            (VStr (default "" status)) = true) rows
   else rows)
  = filter (float_matches region status) rows.
Proof.
  cbv zeta.
  cut (∀ b1 b2, truthy_str region = b1 → truthy_str status = b2 →
         (if b2
          then filter (λ r, sql_eq (field r "status")
                                   (VStr (default "" status)) = true)
                 (if b1
                  then filter (λ r, sql_eq (field r "ocean_region")
                                           (VStr (default "" region)) = true) rows
                  else rows)
          else if b1
               then filter (λ r, sql_eq (field r "ocean_region")
                                        (VStr (default "" region)) = true) rows
               else rows)
         = filter (float_matches region status) rows).
  { intros Hcut. by apply Hcut. }
  intros b1 b2 E1 E2. unfold float_matches. destruct b1, b2.
  - rewrite list_filter_filter. apply list_filter_iff. intros r.
    rewrite !sql_eq_str, E1, E2. tauto.
  - apply list_filter_iff. intros r. rewrite sql_eq_str, E1, E2. split; [|tauto].
    intros ?; split; [done|]. discriminate.
  - apply list_filter_iff. intros r. rewrite sql_eq_str, E1, E2. split; [|tauto].
    intros ?; split; [discriminate|done].
  - symmetry. induction rows as [|r rows IH]; [done|].
    rewrite filter_cons_True by (rewrite E1, E2; split; discriminate).
    by f_equal.
Qed.

Lemma bind_int_Ok n : int64 n → bind_int n = Ok n.
Proof. intros Hn. unfold bind_int. by rewrite bool_decide_eq_true_2. Qed.


(** The listing on a table that has the columns, for a limit and an offset
    that SQLite can hold: the matching rows, sorted, cut to the page, each
    as a dict. *)
Lemma get_float_data_rows self t region status limit offset :
  listable self t region status →
  int64 limit → int64 offset →
  get_float_data self region status limit offset =
    Ok (row_dict t <$>
          sql_limit limit
            (sql_offset offset
               (order_by_desc (λ r, field r "measurement_date")
                  (matching_floats t region status)))).
Proof.
  intros (Ht & Hd & Hr & Hs) Hlim Hoff.
  unfold get_float_data, float_query, find_table.
  rewrite Ht. cbn [mbind result_bind]. unfold require_column.
  rewrite (bool_decide_eq_true_2 _ Hd). cbn [mbind result_bind].
  unfold matching_floats. rewrite <- filter_float_matches. cbv zeta.
  destruct (truthy_str region) eqn:Er, (truthy_str status) eqn:Es;
    rewrite ?(bool_decide_eq_true_2 _ (Hr eq_refl)),
            ?(bool_decide_eq_true_2 _ (Hs eq_refl));
    cbn [mbind result_bind]; rewrite (bind_int_Ok _ Hlim); cbn [mbind result_bind];
    rewrite (bind_int_Ok _ Hoff); cbn [mbind result_bind];
    f_equal; by rewrite <- list_fmap_compose.
Qed.

Lemma elem_of_sql_limit {A} n (l : list A) x : x ∈ sql_limit n l → x ∈ l.
Proof.
  unfold sql_limit. case_bool_decide; [|done].
  intros Hin. apply list_elem_of_lookup in Hin as [i Hi].
  apply lookup_take_Some in Hi as [Hi _]. by eapply list_elem_of_lookup_2.
Qed.

Lemma elem_of_sql_offset {A} n (l : list A) x : x ∈ sql_offset n l → x ∈ l.
Proof.
  unfold sql_offset. intros Hin. apply list_elem_of_lookup in Hin as [i Hi].
  rewrite lookup_drop in Hi. by eapply list_elem_of_lookup_2.
Qed.

Lemma field_row_dict t r c :
  c ∈ column_names t → field (row_dict t r) c = field r c.
Proof. intros Hin. unfold field at 1. by rewrite row_dict_present. Qed.

(** X19. With the float table and the columns the call names in place,
    and a limit and an offset within the signed 64-bit integers,
    [get_float_data] returns, and every dict it returns is a stored float
    that passes the filters given (region and status, each only when it is
    a non-empty string), with exactly the table's columns as keys and the
    stored values under them. *)
Theorem X19_get_float_data_sound self t region status limit offset :
  listable self t region status →
  int64 limit → int64 offset →
  ∃ results,
    get_float_data self region status limit offset = Ok results ∧
    ∀ d, d ∈ results →
      ∃ r, r ∈ t_rows t ∧ float_matches region status r ∧
           ∀ c, d !! c = if bool_decide (c ∈ column_names t)
                         then Some (field r c) else None.
Proof.
  intros Hl Hlim Hoff. eexists. split; [by apply get_float_data_rows|].
  intros d (r & -> & Hin)%list_elem_of_fmap.
  apply elem_of_sql_limit, elem_of_sql_offset in Hin.
  rewrite order_by_desc_elem in Hin. unfold matching_floats in Hin.
  apply list_elem_of_filter in Hin as [Hm Hin].
  exists r. split_and!; [done..|]. intros c. apply row_dict_lookup.
Qed.

(** X20. The size of a page, for a limit and an offset within the signed
    64-bit integers: with [m] stored floats passing the filters,
    [get_float_data] returns min(limit, m - offset) dicts (0 when the
    offset is past the end); a negative limit is no limit and a negative
    offset is no offset. *)
Theorem X20_get_float_data_count self t region status limit offset :
  listable self t region status →
  int64 limit → int64 offset →
  ∃ results,
    get_float_data self region status limit offset = Ok results ∧
    let available :=
      (length (matching_floats t region status) - Z.to_nat offset)%nat in
    length results = if bool_decide (0 ≤ limit)
                     then (Z.to_nat limit `min` available)%nat
                     else available.
Proof.
  intros Hl Hlim Hoff. eexists. split; [by apply get_float_data_rows|]. cbv zeta.
  rewrite length_fmap. unfold sql_limit, sql_offset.
  case_bool_decide; rewrite ?length_take, length_drop, order_by_desc_length; done.
Qed.

(** X21. For a limit and an offset within the signed 64-bit integers, the
    dicts [get_float_data] returns come newest first: no entry has a
    measurement_date below that of the entry after it, in SQLite's order of
    values. *)
Theorem X21_get_float_data_descending self t region status limit offset :
  listable self t region status →
  int64 limit → int64 offset →
  ∃ results,
    get_float_data self region status limit offset = Ok results ∧
    descending (λ d, field d "measurement_date") results.
Proof.
  intros Hl Hlim Hoff. eexists. split; [by apply get_float_data_rows|].
  apply descending_fmap, descending_limit_offset.
  destruct Hl as (_ & Hd & _).
  intros i x y Hx Hy. unfold compose. rewrite !field_row_dict by done.
  revert i x y Hx Hy. apply Sorted_descending, order_by_desc_sorted.
Qed.

(** X22. Within the signed 64-bit integers, without an offset and with a
    limit that is negative or not below the number of floats passing the
    filters, [get_float_data] returns every such float exactly once. *)
Theorem X22_get_float_data_complete self t region status limit offset :
  listable self t region status →
  int64 limit → int64 offset →
  offset ≤ 0 →
  limit < 0 ∨ Z.of_nat (length (matching_floats t region status)) ≤ limit →
  ∃ results,
    get_float_data self region status limit offset = Ok results ∧
    results ≡ₚ row_dict t <$> matching_floats t region status.
Proof.
  intros Hl Hli Hoi Hoff Hlim. eexists. split; [by apply get_float_data_rows|].
  apply fmap_Permutation. unfold sql_offset.
  replace (Z.to_nat offset) with 0%nat by lia. rewrite drop_0.
  unfold sql_limit. case_bool_decide.
  - rewrite take_ge; [apply order_by_desc_perm|].
    rewrite order_by_desc_length. lia.
  - apply order_by_desc_perm.
Qed.





End listing.

Section measurements.
Import Sqlite OceanDb ListingSpec.
Context `{SqliteLib}.

Lemma dict_zip_snoc cols vals e g c :
  length cols = length vals →
  dict_zip (cols ++ [e]) (vals ++ [g]) !! c
  = if bool_decide (c = e) then Some g else dict_zip cols vals !! c.
Proof.
  intros Hlen. unfold dict_zip.
  rewrite zip_with_app by done. cbn [zip_with]. rewrite reverse_snoc.
  cbn [list_to_map foldr]. case_bool_decide as Hc.
  - subst. apply lookup_insert_eq.
  - by rewrite lookup_insert_ne.
Qed.

Lemma sql_ge_bound a b :
  sql_ge a b = true → a ≠ VNull ∧ b ≠ VNull ∧ value_leb b a = true.
Proof.
  unfold sql_ge. rewrite !andb_true_iff, !negb_true_iff, !bool_decide_eq_false.
  tauto.
Qed.

Lemma sql_le_bound a b :
  sql_le a b = true → a ≠ VNull ∧ b ≠ VNull ∧ value_leb a b = true.
Proof.
  unfold sql_le. rewrite !andb_true_iff, !negb_true_iff, !bool_decide_eq_false.
  tauto.
Qed.

Lemma sql_eq_join a b : sql_eq a b = true ↔ a ≠ VNull ∧ a = b.
Proof.
  unfold sql_eq. by rewrite andb_true_iff, negb_true_iff, bool_decide_eq_false,
    bool_decide_eq_true.
Qed.

(** The three optional filters of the measurement query, on the rows the
    FROM clause selected. *)
Lemma measurement_filters_elem {X} (row : X → gmap string value) table
    float_id start_date end_date (rows : list X) rx :
  rx ∈ (let rows := if truthy_str float_id
                    then filter (λ rx, sql_eq (field (row rx) "float_id")
                                              (VStr (default "" float_id)) = true) rows
                    else rows in
        let rows := if truthy_str start_date
                    then filter (λ rx, sql_ge (field (row rx) "measurement_date")
                                              (date_bound table (default "" start_date))
                                       = true) rows
                    else rows in
        if truthy_str end_date
        then filter (λ rx, sql_le (field (row rx) "measurement_date")
                                  (date_bound table (default "" end_date)) = true) rows
        else rows) →
  rx ∈ rows ∧ measurement_matches table float_id start_date end_date (row rx).
Proof.
  cbv zeta. unfold measurement_matches.
  destruct (truthy_str float_id), (truthy_str start_date), (truthy_str end_date);
    rewrite ?list_elem_of_filter; intros Hin; destruct_and?;
    repeat match goal with
    | H : sql_eq _ (VStr _) = true |- _ => apply sql_eq_str in H
    | H : sql_ge _ _ = true |- _ => apply sql_ge_bound in H
    | H : sql_le _ _ = true |- _ => apply sql_le_bound in H
    end; split_and!; try done.
Qed.

Lemma require_column_Ok t c u : require_column t c = Ok u → c ∈ column_names t.
Proof. unfold require_column. by case_bool_decide. Qed.

Lemma bind_int_inv n m : bind_int n = Ok m → m = n ∧ int64 n.
Proof. unfold bind_int. case_bool_decide; [|done]. by intros [= <-]. Qed.

(** What a returned result of [measurement_query] is made of. *)
Lemma measurement_query_Ok db table float_id start_date end_date region limit
    columns rows :
  measurement_query db table float_id start_date end_date region limit
    = Ok (columns, rows) →
  ∃ td (selected : list (gmap string value * list value)),
    db !! table = Some td ∧
    int64 limit ∧
    "measurement_date" ∈ column_names td ∧
    columns = column_names td
                ++ (if truthy_str region then ["ocean_region"] else []) ∧
    rows = (λ rx : gmap string value * list value,
              ((λ c, field rx.1 c) <$> column_names td) ++ rx.2)
           <$> sql_limit limit
                 (order_by_desc (λ rx, field rx.1 "measurement_date") selected) ∧
    ∀ rx, rx ∈ selected →
      rx.1 ∈ t_rows td ∧
      measurement_matches table float_id start_date end_date rx.1 ∧
      if truthy_str region
      then rx.2 = [VStr (default "" region)]
           ∧ joined_float db (default "" region) rx.1
      else rx.2 = [].
Proof.
  unfold measurement_query, find_table.
  destruct (db !! table) as [td|] eqn:Htd; cbn [mbind result_bind]; [|done].
  destruct (require_column td "measurement_date") as [[]|] eqn:Hd;
    cbn [mbind result_bind]; [|done].
  apply require_column_Ok in Hd.
  match goal with
  | |- context [if ?b then require_column td "float_id" else Ok ()] =>
      destruct (if b then require_column td "float_id" else Ok ()) as [[]|]
  end; cbn [mbind result_bind]; [|done].
  destruct (truthy_str region) eqn:Er.
  - destruct (db !! "argo_floats") as [af|] eqn:Haf; cbn [mbind result_bind]; [|done].
    destruct (require_column af "float_id") as [[]|]; cbn [mbind result_bind]; [|done].
    destruct (require_column af "ocean_region") as [[]|]; cbn [mbind result_bind]; [|done].
    destruct (bind_int limit) as [n|] eqn:Hn; cbn [mbind result_bind]; [|done].
    apply bind_int_inv in Hn as [-> Hn].
    intros [= <- <-]. eexists td, _. split_and!; [done..| |reflexivity|].
    { done. }
    intros rx Hin.
    apply (measurement_filters_elem fst table) in Hin as [Hin Hm].
    apply list_elem_of_bind in Hin as (r & Hin & Hr).
    apply list_elem_of_bind in Hin as (a & Hin & Ha).
    apply list_elem_of_singleton in Hin as ->. cbn [fst snd] in *.
    apply list_elem_of_filter in Ha as [[Hj Hg] Ha].
    apply sql_eq_join in Hj as [Hnn Hj]. apply sql_eq_str in Hg.
    split_and!; [done..|by rewrite Hg|].
    exists af, a. by split_and!.
  - cbn [mbind result_bind].
    destruct (bind_int limit) as [n|] eqn:Hn; cbn [mbind result_bind]; [|done].
    apply bind_int_inv in Hn as [-> Hn].
    intros [= <- <-]. eexists td, _. split_and!; [done..| |reflexivity|].
    { by rewrite app_nil_r. }
    intros rx Hin.
    apply (measurement_filters_elem fst table) in Hin as [Hin Hm].
    apply list_elem_of_fmap in Hin as (r & -> & Hr). by split_and!.
Qed.

Lemma get_measurement_data_Ok self data_type float_id start_date end_date region
    limit results :
  get_measurement_data self data_type float_id start_date end_date region limit
    = Ok results →
  ∃ table columns rows,
    table_map !! data_type = Some table ∧
    measurement_query (current (conn self)) table float_id start_date end_date
      region limit = Ok (columns, rows) ∧
    results = dict_zip columns <$> rows.
Proof.
  unfold get_measurement_data.
  destruct (table_map !! data_type) as [table|]; [|done].
  destruct (measurement_query _ _ _ _ _ _ _) as [[columns rows]|] eqn:Hq; [|done].
  intros [= <-]. by exists table, columns, rows.
Qed.

(** The dict of a selected row, column by column. *)
Lemma measurement_dict_lookup td (r : gmap string value) region c :
  dict_zip (column_names td ++ (if truthy_str region then ["ocean_region"] else []))
           (((λ c, field r c) <$> column_names td)
              ++ (if truthy_str region then [VStr (default "" region)] else []))
    !! c
  = if truthy_str region && bool_decide (c = "ocean_region")
    then Some (VStr (default "" region))
    else if bool_decide (c ∈ column_names td) then Some (field r c) else None.
Proof.
  destruct (truthy_str region).
  - rewrite dict_zip_snoc by (by rewrite length_fmap). cbn [andb].
    case_bool_decide; [done|]. apply (row_dict_lookup td).
  - rewrite !app_nil_r. apply (row_dict_lookup td).
Qed.

(** X24. Every dict [get_measurement_data] returns is a stored row of the
    table of the kind that passes the filters given: its float_id is the
    one asked for, its date is not NULL and lies between the two bounds,
    both inclusive, in SQLite's order of values (numbers before text), each
    bound read as the declared type of the date column has it, a numeric
    text as a number under the DATETIME of the basic schema; with a region,
    some stored float of that region has the row's float_id, and the dict
    has the extra key ocean_region holding the region asked for. *)
Theorem X24_get_measurement_data_sound self data_type float_id start_date end_date
    region limit results :
  get_measurement_data self data_type float_id start_date end_date region limit
    = Ok results →
  ∃ table td,
    table_map !! data_type = Some table ∧
    current (conn self) !! table = Some td ∧
    ∀ d, d ∈ results →
      ∃ r, r ∈ t_rows td ∧
           measurement_matches table float_id start_date end_date r ∧
           (truthy_str region = true →
              joined_float (current (conn self)) (default "" region) r) ∧
           ∀ c, d !! c =
                  if truthy_str region && bool_decide (c = "ocean_region")
                  then Some (VStr (default "" region))
                  else if bool_decide (c ∈ column_names td)
                       then Some (field r c) else None.
Proof.
  intros (table & columns & rows & Hmap & Hq & ->)%get_measurement_data_Ok.
  apply measurement_query_Ok in Hq as (td & selected & Htd & _ & Hd & -> & -> & Hsel).
  exists table, td. split_and!; [done..|].
  intros d (row & -> & Hrow)%list_elem_of_fmap.
  apply list_elem_of_fmap in Hrow as (rx & -> & Hrx).
  apply elem_of_sql_limit in Hrx. rewrite order_by_desc_elem in Hrx.
  destruct (Hsel rx Hrx) as (Hin & Hm & Hreg).
  exists rx.1. split_and!; [done..| |].
  - intros Er. rewrite Er in Hreg. tauto.
  - intros c. rewrite <- measurement_dict_lookup.
    destruct (truthy_str region); [destruct Hreg as [-> _]|rewrite Hreg]; done.
Qed.

(** X25. What [get_measurement_data] returns comes newest first and, for
    a limit that is not negative, holds at most [limit] dicts. *)
Theorem X25_get_measurement_data_page self data_type float_id start_date end_date
    region limit results :
  get_measurement_data self data_type float_id start_date end_date region limit
    = Ok results →
  descending (λ d, field d "measurement_date") results ∧
  (0 ≤ limit → Z.of_nat (length results) ≤ limit).
Proof.
  intros (table & columns & rows & Hmap & Hq & ->)%get_measurement_data_Ok.
  apply measurement_query_Ok in Hq as (td & selected & Htd & _ & Hd & -> & -> & Hsel).
  split.
  - apply descending_fmap, descending_fmap.
    assert (descending (λ rx : gmap string value * list value,
                          field rx.1 "measurement_date")
              (sql_limit limit
                 (order_by_desc (λ rx, field rx.1 "measurement_date") selected)))
      as Hdesc.
    { unfold sql_limit. case_bool_decide; [apply descending_take|];
        apply Sorted_descending, order_by_desc_sorted. }
    intros i x y Hx Hy. unfold compose.
    assert (∀ rx, rx ∈ selected →
              field (dict_zip
                       (column_names td
                          ++ (if truthy_str region then ["ocean_region"] else []))
                       (((λ c, field rx.1 c) <$> column_names td) ++ rx.2))
                    "measurement_date"
              = field rx.1 "measurement_date") as Hfield.
    { intros rx Hrx. destruct (Hsel rx Hrx) as (_ & _ & Hreg).
      unfold field at 1.
      replace rx.2 with (if truthy_str region
                         then [VStr (default "" region)] else [])
        by (destruct (truthy_str region); [by destruct Hreg as [-> _]|done]).
      rewrite measurement_dict_lookup.
      rewrite (bool_decide_eq_false_2 ("measurement_date" = "ocean_region")) by done.
      rewrite andb_false_r. by rewrite bool_decide_eq_true_2. }
    rewrite !Hfield.
    + by eapply Hdesc.
    + eapply order_by_desc_elem, elem_of_sql_limit, list_elem_of_lookup_2, Hx.
    + eapply order_by_desc_elem, elem_of_sql_limit, list_elem_of_lookup_2, Hy.
  - intros Hlim. rewrite !length_fmap. unfold sql_limit.
    rewrite bool_decide_eq_true_2 by done. rewrite length_take. lia.
Qed.

End measurements.

Section statistics.
Import Sqlite OceanDb QuerySpec ImporterSpec ListingSpec.
Context `{SqliteLib}.

Lemma sum_list_with_zero {A} (G : list A) : sum_list_with (λ _, 0%nat) G = 0%nat.
Proof. induction G; simpl; lia. Qed.

Lemma sum_list_with_add {A} (f g : A → nat) (G : list A) :
  sum_list_with (λ x, f x + g x)%nat G
  = (sum_list_with f G + sum_list_with g G)%nat.
Proof. induction G; simpl; lia. Qed.

Lemma sum_list_with_ext {A} (f g : A → nat) (G : list A) :
  (∀ x, x ∈ G → f x = g x) → sum_list_with f G = sum_list_with g G.
Proof.
  induction G as [|x G IH]; intros Hfg; [done|]. cbn [sum_list_with].
  rewrite Hfg by apply list_elem_of_here. rewrite IH; [done|].
  intros y Hy. by apply Hfg, list_elem_of_further.
Qed.

Lemma sum_list_with_indicator (v : value) (G : list value) :
  NoDup G → v ∈ G →
  sum_list_with (λ g, if decide (v = g) then 1 else 0)%nat G = 1%nat.
Proof.
  induction 1 as [|g G Hnotin Hnd IH]; [by intros ?%elem_of_nil|].
  intros Hin. cbn [sum_list_with]. case_decide as Hv.
  - subst. rewrite (sum_list_with_ext _ (λ _, 0%nat)).
    + by rewrite sum_list_with_zero.
    + intros g' Hg'. rewrite decide_False; [done|]. by intros <-.
  - apply elem_of_cons in Hin as [?|Hin]; [done|]. by rewrite IH.
Qed.

(** Grouping is a partition: the groups of all keys add up to the list. *)
Lemma sum_groups {A} (f : A → value) (G : list value) (l : list A) :
  NoDup G → (∀ x, x ∈ l → f x ∈ G) →
  sum_list_with (λ g, length (filter (λ x, f x = g) l)) G = length l.
Proof.
  intros Hnd. induction l as [|x l IH]; intros Hin.
  - apply sum_list_with_zero.
  - rewrite (sum_list_with_ext _
               (λ g, (if decide (f x = g) then 1 else 0)
                     + length (filter (λ x, f x = g) l))%nat).
    + rewrite sum_list_with_add, sum_list_with_indicator, IH; [done| |done|].
      * intros y Hy. by apply Hin, list_elem_of_further.
      * apply Hin, list_elem_of_here.
    + intros g _. rewrite filter_cons. by case_decide.
Qed.

Lemma count_status_disjoint rows :
  0 ≤ count_status "active" rows ∧ 0 ≤ count_status "inactive" rows ∧
  count_status "active" rows + count_status "inactive" rows
    ≤ Z.of_nat (length rows).
Proof.
  unfold count_status. split_and!; [lia..|].
  induction rows as [|r rows IH]; [done|].
  rewrite !filter_cons. repeat case_decide; cbn [length]; try lia. congruence.
Qed.

(** X26. In the per-region answer of [get_float_statistics] the totals
    of the regions add up to the number of stored floats (each float is
    counted in exactly one entry), no entry is empty, and in every entry
    active + inactive <= total (a float with any other status, or none,
    counts in the total only). *)
Theorem X26_float_statistics_totals self t :
  float_table self t →
  ∃ regions,
    get_float_statistics self None
      = Ok (PDict [ ("regions", PList (region_entry (t_rows t) <$> regions)) ]) ∧
    sum_list_with (λ g, length (floats_in (t_rows t) g)) regions
      = length (t_rows t) ∧
    ∀ g, g ∈ regions →
      floats_in (t_rows t) g ≠ [] ∧
      0 ≤ count_status "active" (floats_in (t_rows t) g) ∧
      0 ≤ count_status "inactive" (floats_in (t_rows t) g) ∧
      count_status "active" (floats_in (t_rows t) g)
        + count_status "inactive" (floats_in (t_rows t) g)
        ≤ Z.of_nat (length (floats_in (t_rows t) g)).
Proof.
  intros Ht. exists (group_keys ((λ r, field r "ocean_region") <$> t_rows t)).
  split_and!.
  - unfold get_float_statistics. rewrite (float_statistics_query_ok _ _ _ Ht).
    cbn [truthy_str mbind result_bind]. cbv zeta. do 4 f_equal.
    by rewrite <- list_fmap_compose.
  - unfold floats_in. apply sum_groups; [apply NoDup_group_keys|].
    intros r Hr. rewrite elem_of_group_keys, list_elem_of_fmap. eauto.
  - intros g Hg. split; [|apply count_status_disjoint].
    apply elem_of_group_keys, list_elem_of_fmap in Hg as (r & -> & Hr).
    intros Hnil.
    assert (r ∈ floats_in (t_rows t) (field r "ocean_region")) as Hin
      by (by apply list_elem_of_filter).
    rewrite Hnil in Hin. by apply elem_of_nil in Hin.
Qed.

(** X27. An empty string is no filter: in [get_float_data],
    [get_measurement_data] and [get_float_statistics] every optional string
    argument given as [''] has the effect of [None]; in particular
    [get_float_statistics('')] answers with the per-region list, and rows
    whose region is the empty string cannot be asked for. *)
Theorem X27_empty_string_is_no_filter self :
  (∀ status limit offset,
     get_float_data self (Some "") status limit offset
     = get_float_data self None status limit offset) ∧
  (∀ region limit offset,
     get_float_data self region (Some "") limit offset
     = get_float_data self region None limit offset) ∧
  (∀ data_type start_date end_date region limit,
     get_measurement_data self data_type (Some "") start_date end_date region limit
     = get_measurement_data self data_type None start_date end_date region limit) ∧
  (∀ data_type float_id end_date region limit,
     get_measurement_data self data_type float_id (Some "") end_date region limit
     = get_measurement_data self data_type float_id None end_date region limit) ∧
  (∀ data_type float_id start_date region limit,
     get_measurement_data self data_type float_id start_date (Some "") region limit
     = get_measurement_data self data_type float_id start_date None region limit) ∧
  (∀ data_type float_id start_date end_date limit,
     get_measurement_data self data_type float_id start_date end_date (Some "") limit
     = get_measurement_data self data_type float_id start_date end_date None limit) ∧
  get_float_statistics self (Some "") = get_float_statistics self None.
Proof. split_and!; reflexivity. Qed.





End statistics.

(** ** Worked examples *)

Import Pandas Sqlite OceanDb ValidatorSpec ImporterSpec QuerySpec UpsertSpec
  ReimportSpec TwiceSpec Examples Worlds.
Import Region RegionSpec CleaningSpec StoreSpec ListingSpec Samples.

#[local] Existing Instance epoch_pandas.
#[local] Existing Instance plain_sqlite.

(** *** The classifier *)

Lemma gulf_of_guinea_valid : valid_position (Qc_of_Z 10) (Qc_of_Z 0).
Proof. repeat split; by vm_compute. Qed.

Lemma X1_unknown_region_valid_positions_witness :
  valid_position (Qc_of_Z 10) (Qc_of_Z 0) ∧
  (get_ocean_region (FFin (Qc_of_Z 10)) (FFin (Qc_of_Z 0)) = "Unknown" ↔
   (Qc_of_Z (-30) < Qc_of_Z 10)%Qc ∧ (Qc_of_Z 10 < Qc_of_Z 60)%Qc ∧
   (Qc_of_Z (-30) < Qc_of_Z 0)%Qc ∧ (Qc_of_Z 0 < Qc_of_Z 30)%Qc ∧
   ¬ ((Qc_of_Z 10 ≤ Qc_of_Z 30)%Qc ∧ (Qc_of_Z 20 ≤ Qc_of_Z 0)%Qc)).
Proof.
  split; [exact gulf_of_guinea_valid|].
  exact (X1_unknown_region_valid_positions (Qc_of_Z 10) (Qc_of_Z 0)
           gulf_of_guinea_valid).
Defined.

Example gulf_of_guinea_unknown :
  get_ocean_region (coord 10) (coord 0) = "Unknown".
Proof. vm_compute. reflexivity. Qed.

Lemma bay_of_bengal_box :
  within (-30) (Qc_of_Z 15) 30 ∧ within 30 (Qc_of_Z 88) 120.
Proof. repeat split; by vm_compute. Qed.

Lemma X3_indian_box_mostly_pacific_witness :
  within (-30) (Qc_of_Z 15) 30 ∧ within 30 (Qc_of_Z 88) 120 ∧
  get_ocean_region (FFin (Qc_of_Z 15)) (FFin (Qc_of_Z 88)) = "Pacific Ocean".
Proof.
  split; [exact (proj1 bay_of_bengal_box)|].
  split; [exact (proj2 bay_of_bengal_box)|].
  exact (X3_indian_box_mostly_pacific (Qc_of_Z 15) (Qc_of_Z 88)
           (proj1 bay_of_bengal_box) (proj2 bay_of_bengal_box)).
Defined.

Lemma north_of_the_band : ¬ within (-30) (Qc_of_Z 75) 60.
Proof. intros [_ Hle]. by vm_compute in Hle. Qed.

Lemma X4_polar_caps_witness :
  ¬ within (-30) (Qc_of_Z 75) 60 ∧
  get_ocean_region (FFin (Qc_of_Z 75)) FNan
  = if bool_decide (Qc_of_Z 60 < Qc_of_Z 75)%Qc
    then "Arctic Ocean" else "Southern Ocean".
Proof.
  split; [exact north_of_the_band|].
  exact (X4_polar_caps (Qc_of_Z 75) FNan north_of_the_band).
Defined.

Lemma X5_boundary_parallels_witness :
  (Qc_of_Z (-30) = Qc_of_Z 60 ∨ Qc_of_Z (-30) = Qc_of_Z (-30)) ∧
  (within (-180) (Qc_of_Z 25) (-30) →
     get_ocean_region (FFin (Qc_of_Z (-30))) (FFin (Qc_of_Z 25)) = "Atlantic Ocean") ∧
  (within 30 (Qc_of_Z 25) 180 →
     get_ocean_region (FFin (Qc_of_Z (-30))) (FFin (Qc_of_Z 25)) = "Pacific Ocean") ∧
  ((Qc_of_Z (-30) < Qc_of_Z 25)%Qc → (Qc_of_Z 25 < Qc_of_Z 30)%Qc →
   get_ocean_region (FFin (Qc_of_Z (-30))) (FFin (Qc_of_Z 25))
   = if bool_decide (Qc_of_Z (-30) = Qc_of_Z 60) then "Arctic Ocean"
     else if bool_decide (Qc_of_Z 20 ≤ Qc_of_Z 25)%Qc then "Indian Ocean"
     else "Southern Ocean").
Proof.
  split; [right; reflexivity|].
  apply (X5_boundary_parallels (Qc_of_Z (-30)) (Qc_of_Z 25)).
  right; reflexivity.
Defined.

(** *** The validator *)

Lemma floats_batch_cleaned : clean_data floats_batch "floats" = Ok floats_cleaned.
Proof. vm_compute. reflexivity. Qed.

Lemma X7_clean_data_selects_witness :
  clean_data floats_batch "floats" = Ok floats_cleaned ∧
  df_columns floats_cleaned = df_columns floats_batch ∧
  (df_rows floats_cleaned).*1 `sublist_of` (df_rows floats_batch).*1 ∧
  ∀ ir, ir ∈ df_rows floats_cleaned →
    ∃ r0, (ir.1, r0) ∈ df_rows floats_batch ∧
          ∀ c, c ≠ "measurement_date" → ir.2 !! c = r0 !! c.
Proof.
  split; [exact floats_batch_cleaned|].
  exact (X7_clean_data_selects floats_batch "floats" floats_cleaned
           floats_batch_cleaned).
Defined.

Lemma longitude_required : "longitude" ∈ required_columns "floats".
Proof. apply (bool_decide_unpack _). vm_compute. exact I. Qed.

Lemma longitude_missing : "longitude" ∉ df_columns floats_without_longitude.
Proof. apply (bool_decide_unpack _). vm_compute. exact I. Qed.

Lemma X8_clean_data_missing_column_witness :
  ("longitude" ∈ required_columns "floats") ∧
  ("longitude" ∉ df_columns floats_without_longitude) ∧
  ∃ c', clean_data floats_without_longitude "floats" = Raise (KeyError c') ∧
        c' ∈ required_columns "floats" ∧ c' ∉ df_columns floats_without_longitude.
Proof.
  split; [exact longitude_required|]. split; [exact longitude_missing|].
  exact (X8_clean_data_missing_column floats_without_longitude "floats" "longitude"
           longitude_required longitude_missing).
Defined.

Lemma text_batch_columns c :
  c ∈ required_columns "floats" → c ∈ df_columns text_latitude_batch.
Proof. intros Hc. exact Hc. Qed.

Lemma text_row_in_batch : text_row ∈ df_rows text_latitude_batch.
Proof. apply list_elem_of_further, list_elem_of_here. Qed.

Lemma text_row_coordinate : text_coordinate text_row.2.
Proof.
  split; [by vm_compute|]. left. split; [by vm_compute|by vm_compute].
Qed.

Lemma X9_clean_data_text_coordinate_witness :
  (∀ c, c ∈ required_columns "floats" → c ∈ df_columns text_latitude_batch) ∧
  text_row ∈ df_rows text_latitude_batch ∧
  text_coordinate text_row.2 ∧
  ∃ msg, clean_data text_latitude_batch "floats" = Raise (TypeError msg).
Proof.
  split; [exact text_batch_columns|]. split; [exact text_row_in_batch|].
  split; [exact text_row_coordinate|].
  exact (X9_clean_data_text_coordinate text_latitude_batch text_row
           text_batch_columns text_row_in_batch text_row_coordinate).
Defined.

Lemma text_batch_fails :
  clean_data text_latitude_batch "floats" = Raise (TypeError "'>=' not supported").
Proof. vm_compute. reflexivity. Qed.

Lemma X10_clean_data_failures_witness :
  clean_data text_latitude_batch "floats"
    = Raise (TypeError "'>=' not supported") ∧
  ((∃ c, TypeError "'>=' not supported" = KeyError c ∧
         c ∈ required_columns "floats" ∧ c ∉ df_columns text_latitude_batch) ∨
   (∃ msg ir, TypeError "'>=' not supported" = TypeError msg ∧
              "floats" = "floats" ∧ ir ∈ df_rows text_latitude_batch ∧
              (text_cell (cell ir.2 "latitude") ∨ text_cell (cell ir.2 "longitude")))).
Proof.
  split; [exact text_batch_fails|].
  exact (X10_clean_data_failures text_latitude_batch "floats" _ text_batch_fails).
Defined.

Lemma good_float_in_batch : good_float ∈ df_rows floats_batch.
Proof. apply list_elem_of_here. Qed.

Lemma good_float_ok : "floats" = "floats" → float_row_ok good_float.2.
Proof.
  intros _. split_and!.
  - exists (VStr "F1"). split; [vm_compute; reflexivity|done].
  - exists (Qc_of_Z 10). split; [vm_compute; reflexivity|]. split; by vm_compute.
  - exists (Qc_of_Z 170). split; [vm_compute; reflexivity|]. split; by vm_compute.
Qed.

Lemma floats_not_measurement :
  "floats" ∈ ["temperature"; "salinity"; "oxygen"] →
  has_value good_float.2 "float_id" ∧ has_value good_float.2 "measurement_date".
Proof.
  intros Hin. exfalso. revert Hin. apply (bool_decide_unpack _). vm_compute. exact I.
Qed.

Lemma X11_clean_data_keeps_good_rows_witness :
  clean_data floats_batch "floats" = Ok floats_cleaned ∧
  good_float ∈ df_rows floats_batch ∧
  ∃ pre n,
    drop_missing floats_batch "floats" = Ok pre ∧
    df_rows pre !! n = Some good_float ∧
    ("measurement_date" ∉ df_columns floats_batch →
       good_float ∈ df_rows floats_cleaned) ∧
    ∀ t, "measurement_date" ∈ df_columns floats_batch →
         to_datetime (date_column pre) !! n = Some (Some t) →
         (good_float.1, <["measurement_date" := VTime t]> good_float.2)
           ∈ df_rows floats_cleaned.
Proof.
  split; [exact floats_batch_cleaned|]. split; [exact good_float_in_batch|].
  apply (X11_clean_data_keeps_good_rows floats_batch "floats" floats_cleaned good_float).
  - exact floats_batch_cleaned.
  - exact good_float_in_batch.
  - exact good_float_ok.
  - exact floats_not_measurement.
Defined.

(** *** The importer and the schema *)

Lemma X12_import_keeps_schema_witness :
  clean (conn full_world) ∧
  tables_evolve same_schema (written_table "floats") (current (conn full_world))
    (current (conn (import_csv_data "positions.csv" "floats" 1000 None full_world).2)).
Proof.
  split; [reflexivity|].
  apply (X12_import_keeps_schema "positions.csv" "floats" 1000 None full_world).
  reflexivity.
Defined.

Lemma full_world_unique name t :
  current (conn full_world) !! name = Some t → unique_ok t.
Proof.
  unfold full_world, world, full_db, create_table_if_not_exists. cbn [conn current].
  rewrite lookup_empty, lookup_insert_ne, lookup_empty by done.
  intros [[_ <-]|[_ [[_ <-]|[_ Ht]]%lookup_insert_Some]]%lookup_insert_Some.
  - intros c v _ _. cbn. lia.
  - intros c v _ _. cbn. lia.
  - by rewrite lookup_empty in Ht.
Qed.

Lemma X13_import_keeps_unique_witness :
  clean (conn full_world) ∧
  (∀ name t, current (conn full_world) !! name = Some t → unique_ok t) ∧
  ∀ name t,
    current (conn (import_csv_data "positions.csv" "floats" 1000 None full_world).2)
      !! name = Some t →
    unique_ok t.
Proof.
  split; [reflexivity|]. split; [exact full_world_unique|].
  apply (X13_import_keeps_unique "positions.csv" "floats" 1000 None full_world).
  - reflexivity.
  - exact full_world_unique.
Defined.

(** The second reading of float F1 has replaced the first. *)
Example stocked_float_ids :
  table_keys "float_id" stocked_floats = [Some (VStr "F2"); Some (VStr "F1")].
Proof. vm_compute. reflexivity. Qed.

Lemma stocked_world_file : csv_files stocked_world "profiles.csv" = Some read_profiles.
Proof. vm_compute. reflexivity. Qed.

Lemma temperature_kind : "temperature" ∈ measurement_kinds.
Proof. by apply (bool_decide_unpack _). Qed.

Lemma X14_measurement_import_stores_nothing_witness :
  "temperature" ∈ measurement_kinds ∧
  csv_files stocked_world "profiles.csv" = Some read_profiles ∧
  ∃ b self',
    import_csv_data "profiles.csv" "temperature" 1000 None stocked_world
      = (Ok b, self') ∧
    conn self' = (if b then commit (conn stocked_world)
                  else rollback (conn stocked_world)) ∧
    (b = true → cleaned_total "temperature" (csv_chunks (read_profiles 1000)) = 0).
Proof.
  split; [exact temperature_kind|]. split; [exact stocked_world_file|].
  exact (X14_measurement_import_stores_nothing "profiles.csv" "temperature" 1000 None
           stocked_world read_profiles temperature_kind stocked_world_file).
Defined.

(** Three rows pass cleaning and none is stored. *)
Example temperature_import_fails :
  cleaned_total "temperature" (csv_chunks (read_profiles 1000)) = 3 ∧
  (import_csv_data "profiles.csv" "temperature" 1000 None stocked_world).1
    = Ok false ∧
  stored "temperature_data"
    (once "profiles.csv" "temperature" 1000 None stocked_world) = 0%nat.
Proof. repeat split; vm_compute; reflexivity. Qed.

Example profiled_counts :
  row_count (current (conn profiled_world)) "temperature_data" = 3%nat ∧
  row_count (current (conn profiled_world)) "argo_floats" = 2%nat.
Proof. split; vm_compute; reflexivity. Qed.

Lemma floats_cleaned_rows : df_rows floats_cleaned ≠ [].
Proof.
  assert (length (df_rows floats_cleaned) = 3%nat) as Hlen
    by (vm_compute; reflexivity).
  intros Hnil. rewrite Hnil in Hlen. discriminate.
Qed.

Lemma X16_regions_after_cleaning_witness :
  clean_data floats_batch "floats" = Ok floats_cleaned ∧
  truthy_mapping (Some [("regions", "on")]) = true ∧
  df_rows floats_cleaned ≠ [] ∧
  ∃ mapped,
    map_regions "floats" (Some [("regions", "on")]) floats_cleaned = Ok mapped ∧
    length (df_rows mapped) = length (df_rows floats_cleaned) ∧
    ∀ n ir, df_rows mapped !! n = Some ir →
      ∃ r0 p q,
        df_rows floats_cleaned !! n = Some (ir.1, r0) ∧
        ir.2 = <["ocean_region" := VStr (get_ocean_region (FFin p) (FFin q))]> r0 ∧
        r0 !! "latitude" = Some (VFin p) ∧ r0 !! "longitude" = Some (VFin q) ∧
        (Qc_of_Z (-90) ≤ p)%Qc ∧ (p ≤ Qc_of_Z 90)%Qc ∧
        (Qc_of_Z (-180) ≤ q)%Qc ∧ (q ≤ Qc_of_Z 180)%Qc.
Proof.
  split; [exact floats_batch_cleaned|]. split; [reflexivity|].
  split; [exact floats_cleaned_rows|].
  apply (X16_regions_after_cleaning floats_batch (Some [("regions", "on")])
           floats_cleaned).
  - exact floats_batch_cleaned.
  - reflexivity.
  - exact floats_cleaned_rows.
Defined.

Lemma blank_script_pieces :
  Forall (λ piece, strip_is_empty piece = true) (split_semicolon blank_script).
Proof. repeat constructor. Qed.

Lemma X18_setup_database_blank_script_witness :
  schema_sql blank_world = Some blank_script ∧
  Forall (λ piece, strip_is_empty piece = true) (split_semicolon blank_script) ∧
  ∃ self',
    setup_database blank_world = (Ok tt, self') ∧
    conn self' = commit (conn blank_world) ∧
    trace self' = trace blank_world ++ [Commit; LogSchemaCreated] ∧
    ∀ region status limit offset,
      current (conn blank_world) !! "argo_floats" = None →
      get_float_data self' region status limit offset
        = Raise (OperationalError "no such table: argo_floats").
Proof.
  split; [reflexivity|]. split; [exact blank_script_pieces|].
  apply (X18_setup_database_blank_script blank_world blank_script).
  - reflexivity.
  - exact blank_script_pieces.
Defined.

(** *** The query layer *)

Lemma stocked_listable region status :
  listable stocked_world stocked_floats region status.
Proof.
  split; [vm_compute; reflexivity|].
  split_and!; try intros _; apply (bool_decide_unpack _); vm_compute; exact I.
Qed.

Lemma int64_1000 : int64 1000.
Proof. unfold int64. lia. Qed.

Lemma int64_0 : int64 0.
Proof. unfold int64. lia. Qed.

Lemma int64_1 : int64 1.
Proof. unfold int64. lia. Qed.

Lemma int64_minus_1 : int64 (-1).
Proof. unfold int64. lia. Qed.

Lemma X19_get_float_data_sound_witness :
  listable stocked_world stocked_floats (Some "Arctic Ocean") None ∧
  int64 1000 ∧ int64 0 ∧
  ∃ results,
    get_float_data stocked_world (Some "Arctic Ocean") None 1000 0 = Ok results ∧
    ∀ d, d ∈ results →
      ∃ r, r ∈ t_rows stocked_floats ∧
           float_matches (Some "Arctic Ocean") None r ∧
           ∀ c, d !! c = if bool_decide (c ∈ column_names stocked_floats)
                         then Some (field r c) else None.
Proof.
  split; [apply stocked_listable|]. split; [exact int64_1000|].
  split; [exact int64_0|].
  exact (X19_get_float_data_sound stocked_world stocked_floats (Some "Arctic Ocean")
           None 1000 0 (stocked_listable _ _) int64_1000 int64_0).
Defined.

Example arctic_floats_listed :
  (λ d, field d "float_id")
    <$> listed (get_float_data stocked_world (Some "Arctic Ocean") None 1000 0)
  = [VStr "F1"].
Proof. vm_compute. reflexivity. Qed.

Lemma X20_get_float_data_count_witness :
  listable stocked_world stocked_floats None (Some "active") ∧
  int64 1 ∧ int64 0 ∧
  ∃ results,
    get_float_data stocked_world None (Some "active") 1 0 = Ok results ∧
    let available :=
      (length (matching_floats stocked_floats None (Some "active")) - Z.to_nat 0)%nat in
    length results = if bool_decide (0 ≤ 1)
                     then (Z.to_nat 1 `min` available)%nat
                     else available.
Proof.
  split; [apply stocked_listable|]. split; [exact int64_1|].
  split; [exact int64_0|].
  exact (X20_get_float_data_count stocked_world stocked_floats None (Some "active")
           1 0 (stocked_listable _ _) int64_1 int64_0).
Defined.

Lemma X21_get_float_data_descending_witness :
  listable stocked_world stocked_floats None None ∧
  int64 1000 ∧ int64 0 ∧
  ∃ results,
    get_float_data stocked_world None None 1000 0 = Ok results ∧
    descending (λ d, field d "measurement_date") results.
Proof.
  split; [apply stocked_listable|]. split; [exact int64_1000|].
  split; [exact int64_0|].
  exact (X21_get_float_data_descending stocked_world stocked_floats None None
           1000 0 (stocked_listable _ _) int64_1000 int64_0).
Defined.

Lemma X22_get_float_data_complete_witness :
  listable stocked_world stocked_floats None None ∧
  int64 (-1) ∧ int64 0 ∧
  0 ≤ 0 ∧
  (-1 < 0 ∨ Z.of_nat (length (matching_floats stocked_floats None None)) ≤ -1) ∧
  ∃ results,
    get_float_data stocked_world None None (-1) 0 = Ok results ∧
    results ≡ₚ row_dict stocked_floats <$> matching_floats stocked_floats None None.
Proof.
  split; [apply stocked_listable|]. split; [exact int64_minus_1|].
  split; [exact int64_0|]. split; [lia|]. split; [left; lia|].
  apply (X22_get_float_data_complete stocked_world stocked_floats None None (-1) 0
           (stocked_listable _ _) int64_minus_1 int64_0).
  - lia.
  - left. lia.
Defined.

Example no_table_before_no_limit :
  get_float_data (world ∅) None None (2 ^ 63) 0
    = Raise (OperationalError "no such table: argo_floats") ∧
  get_float_data stocked_world None None (2 ^ 63) 0
    = Raise (OverflowError "Python int too large to convert to SQLite INTEGER") ∧
  get_float_data stocked_world None None 1000 (- 2 ^ 63 - 1)
    = Raise (OverflowError "Python int too large to convert to SQLite INTEGER").
Proof. repeat split; vm_compute; reflexivity. Qed.

Lemma arctic_temperatures_run :
  get_measurement_data profiled_world "temperature" None None None
    (Some "Arctic Ocean") 10 = Ok arctic_temperatures.
Proof. vm_compute. reflexivity. Qed.

Lemma since_2025_run :
  get_measurement_data profiled_world "temperature" None (Some "2025") None None 10
    = Ok since_2025.
Proof. vm_compute. reflexivity. Qed.

Lemma X24_get_measurement_data_sound_witness :
  get_measurement_data profiled_world "temperature" None (Some "2025") None None 10
    = Ok since_2025 ∧
  ∃ table td,
    table_map !! "temperature" = Some table ∧
    current (conn profiled_world) !! table = Some td ∧
    ∀ d, d ∈ since_2025 →
      ∃ r, r ∈ t_rows td ∧
           measurement_matches table None (Some "2025") None r ∧
           (truthy_str None = true →
              joined_float (current (conn profiled_world)) (default "" None) r) ∧
           ∀ c, d !! c =
                  if truthy_str None && bool_decide (c = "ocean_region")
                  then Some (VStr (default "" None))
                  else if bool_decide (c ∈ column_names td)
                       then Some (field r c) else None.
Proof.
  split; [exact since_2025_run|].
  exact (X24_get_measurement_data_sound profiled_world "temperature" None
           (Some "2025") None None 10 since_2025 since_2025_run).
Defined.

(** The bound 2025 is a number to a DATETIME column, and every text sorts
    after every number: all three readings of January 2024 are at or after
    it, and none is at or before it. *)
Example numeric_date_bound :
  (λ d, (field d "float_id", field d "measurement_date")) <$> since_2025
  = [ (VStr "F1", VStr "2024-01-07"); (VStr "F2", VStr "2024-01-06");
      (VStr "F1", VStr "2024-01-05") ] ∧
  get_measurement_data profiled_world "temperature" None None (Some "2025") None 10
  = Ok [] ∧
  (λ d, (field d "float_id", field d "measurement_date"))
    <$> listed (get_measurement_data profiled_world "temperature" None
                  (Some "2024-01-06") None None 10)
  = [ (VStr "F1", VStr "2024-01-07"); (VStr "F2", VStr "2024-01-06") ].
Proof. repeat split; vm_compute; reflexivity. Qed.

Example arctic_temperatures_listed :
  (λ d, (field d "float_id", field d "temperature_celsius", field d "ocean_region"))
    <$> arctic_temperatures
  = [ (VStr "F1", num 2, VStr "Arctic Ocean");
      (VStr "F1", num 12, VStr "Arctic Ocean") ].
Proof. vm_compute. reflexivity. Qed.

Lemma X25_get_measurement_data_page_witness :
  get_measurement_data profiled_world "temperature" None None None
    (Some "Arctic Ocean") 10 = Ok arctic_temperatures ∧
  descending (λ d, field d "measurement_date") arctic_temperatures ∧
  (0 ≤ 10 → Z.of_nat (length arctic_temperatures) ≤ 10).
Proof.
  split; [exact arctic_temperatures_run|].
  exact (X25_get_measurement_data_page profiled_world "temperature" None None None
           (Some "Arctic Ocean") 10 arctic_temperatures arctic_temperatures_run).
Defined.

Lemma X26_float_statistics_totals_witness :
  float_table stocked_world stocked_floats ∧
  ∃ regions,
    get_float_statistics stocked_world None
      = Ok (PDict [ ("regions",
                     PList (region_entry (t_rows stocked_floats) <$> regions)) ]) ∧
    sum_list_with (λ g, length (floats_in (t_rows stocked_floats) g)) regions
      = length (t_rows stocked_floats) ∧
    ∀ g, g ∈ regions →
      floats_in (t_rows stocked_floats) g ≠ [] ∧
      0 ≤ count_status "active" (floats_in (t_rows stocked_floats) g) ∧
      0 ≤ count_status "inactive" (floats_in (t_rows stocked_floats) g) ∧
      count_status "active" (floats_in (t_rows stocked_floats) g)
        + count_status "inactive" (floats_in (t_rows stocked_floats) g)
        ≤ Z.of_nat (length (floats_in (t_rows stocked_floats) g)).
Proof.
  split; [exact stocked_float_table|].
  exact (X26_float_statistics_totals stocked_world stocked_floats stocked_float_table).
Defined.


